(** * wmi-ai-wrapper: a shallow embedding of the WMI access shim, the domain
    modules, the CLI commands and the agent tools, with the properties of
    the specification stated and settled over it.

    Python values are modelled by an inductive type, exceptions by an error
    result, object state (the lazily created connection of a wrapper, the
    module globals of the tool layer, the console) by explicit state passing
    over a heap of wrapper instances.  The instrumentation backend (the
    [wmi] client library and the operating system behind it) is a record of
    oracles, [Backend]. *)

From Stdlib Require Import ZArith QArith Qabs Qround List Ascii String Lia Lqa Bool.
From stdpp Require Import base option list gmap strings.

Local Open Scope string_scope.
Local Open Scope Z_scope.

(* ===================================================================== *)
(** ** Python basics: exceptions, results, values *)
(* ===================================================================== *)

Module Py.

(** The subclasses of [Exception] the code can meet.  [x_wmi] stands for the
    errors raised by the client library (unreachable host, malformed WQL,
    unknown class), [x_rich] for those of the console library (markup that
    does not parse), [Exit code] for [typer.Exit(code)]. *)
Inductive exn_kind :=
  | ZeroDivisionError | ValueError | AttributeError | TypeError
  | OverflowError | IndexError | PermissionError | ImportError | x_wmi
  | x_rich | Exit (code : Z).

Record exn := Exn { exn_kind_of : exn_kind; exn_msg : string }.

(** [str(e)] *)
Definition str_exn (e : exn) : string := exn_msg e.

Inductive result (A : Type) :=
  | Ok (a : A)
  | Raise (e : exn).
Arguments Ok {A} a.
Arguments Raise {A} e.

Definition rbind {A B} (r : result A) (k : A -> result B) : result B :=
  match r with
  | Ok a => k a
  | Raise e => Raise e
  end.

Definition is_ok {A} (r : result A) : bool :=
  match r with Ok _ => true | Raise _ => false end.

(** Values held by the properties of an instrumentation object: [None],
    booleans, integers, strings, lists of strings, and bound methods (the
    only callables). *)
Inductive pyval :=
  | VNone
  | VBool (b : bool)
  | VInt (z : Z)
  | VStr (s : string)
  | VStrList (l : list string)
  | VMethod.

Global Instance pyval_eq_dec : EqDecision pyval.
Proof. solve_decision. Defined.

(** [callable(v)] *)
Definition callable (v : pyval) : bool :=
  match v with VMethod => true | _ => false end.

(** Truth value of [v] in a condition ([if v:], [v or d], [x if v else y]). *)
Definition truthy (v : pyval) : bool :=
  match v with
  | VNone => false
  | VBool b => b
  | VInt z => negb (z =? 0)
  | VStr s => negb (String.eqb s "")
  | VStrList l => match l with [] => false | _ => true end
  | VMethod => true
  end.

(** *** Decimal rendering of integers *)

Definition digit_char (d : Z) : ascii :=
  ascii_of_nat (48 + Z.to_nat d).

Fixpoint digits_go (fuel : nat) (n : Z) (acc : string) : string :=
  match fuel with
  | O => acc
  | S fuel' =>
      let acc' := String (digit_char (n mod 10)) acc in
      if n <? 10 then acc' else digits_go fuel' (n / 10) acc'
  end.

(** Decimal digits of a natural number [n >= 0], without leading zeros. *)
Definition digits (n : Z) : string :=
  digits_go (S (Z.to_nat (Z.log2 n))) n "".

(** [str(n)] for an [int]. *)
Definition str_int (n : Z) : string :=
  if n <? 0 then "-" +:+ digits (- n) else digits n.

(** Left padding with zeros to a width, as in [%02d]. *)
Fixpoint zpad_go (k : nat) (s : string) : string :=
  match k with
  | O => s
  | S k' => zpad_go k' (String "0"%char s)
  end.

Definition zpad (width : nat) (n : Z) : string :=
  let s := digits n in
  zpad_go (width - String.length s) s.

(** *** [repr] and [str] of values *)

Definition dquote : ascii := ascii_of_nat 34.

(** The newline character, as a string. *)
Definition nl : string := String (ascii_of_nat 10) EmptyString.

Definition hex_char (d : nat) : ascii :=
  if (d <? 10)%nat then ascii_of_nat (48 + d) else ascii_of_nat (87 + d).

(** One character of [repr(s)], with [q] the enclosing quote.  Characters
    are code points below 256. *)
Definition repr_char (q : ascii) (c : ascii) : string :=
  let n := nat_of_ascii c in
  if Ascii.eqb c q then String "\"%char (String c EmptyString)
  else if (n =? 92)%nat then "\\"
  else if (n =? 10)%nat then "\n"
  else if (n =? 13)%nat then "\r"
  else if (n =? 9)%nat then "\t"
  else if (n <? 32)%nat || ((127 <=? n)%nat && (n <=? 160)%nat) || (n =? 173)%nat then
    "\x" +:+ String (hex_char (n / 16)) (String (hex_char (n mod 16)) EmptyString)
  else String c EmptyString.

Fixpoint repr_body (q : ascii) (s : string) : string :=
  match s with
  | EmptyString => EmptyString
  | String c s' => repr_char q c +:+ repr_body q s'
  end.

Fixpoint has_char (c : ascii) (s : string) : bool :=
  match s with
  | EmptyString => false
  | String d s' => Ascii.eqb c d || has_char c s'
  end.

(** [repr(s)] for a string: single quotes, unless the string holds a single
    quote and no double quote. *)
Definition repr_str (s : string) : string :=
  let q := if has_char "'"%char s && negb (has_char dquote s)
           then dquote else "'"%char in
  String q (repr_body q s +:+ String q EmptyString).

Fixpoint join (sep : string) (l : list string) : string :=
  match l with
  | [] => ""
  | [x] => x
  | x :: rest => x +:+ sep +:+ join sep rest
  end.

(** The longest decimal text an [int] is converted to or from
    ([sys.get_int_max_str_digits()], by default). *)
Definition max_str_digits : Z := 4300.

(** [str(n)] for an [int] that comes from the backend, as [str()] and an
    f-string field render it: a number of more than [max_str_digits]
    digits is refused. *)
Definition str_of_int (n : Z) : result string :=
  if max_str_digits <? Z.of_nat (String.length (digits (Z.abs n))) then
    Raise (Exn ValueError
      "Exceeds the limit (4300 digits) for integer string conversion; use sys.set_int_max_str_digits() to increase the limit")
  else Ok (str_int n).

(** [str(v)], as an f-string field renders a value. *)
Definition str (v : pyval) : result string :=
  match v with
  | VNone => Ok "None"
  | VBool b => Ok (if b then "True" else "False")
  | VInt z => str_of_int z
  | VStr s => Ok s
  | VStrList l => Ok ("[" +:+ join ", " (List.map repr_str l) +:+ "]")
  | VMethod => Ok "<bound method>"
  end.

Definition type_name (v : pyval) : string :=
  match v with
  | VNone => "NoneType"
  | VBool _ => "bool"
  | VInt _ => "int"
  | VStr _ => "str"
  | VStrList _ => "list"
  | VMethod => "method"
  end.

(** *** [int(v)] *)

Definition is_digit (c : ascii) : bool :=
  let n := nat_of_ascii c in (48 <=? n)%nat && (n <=? 57)%nat.

Definition digit_val (c : ascii) : Z := Z.of_nat (nat_of_ascii c) - 48.

(** Whitespace that [int()] strips from both ends of a string, among the
    code points below 256: space, the control characters 9..13, NEL (133)
    and the no-break space (160).  The separators 28..31 are rejected. *)
Definition is_space (c : ascii) : bool :=
  let n := nat_of_ascii c in
  (n =? 32)%nat || ((9 <=? n)%nat && (n <=? 13)%nat)
  || (n =? 133)%nat || (n =? 160)%nat.

Fixpoint lstrip (s : string) : string :=
  match s with
  | String c s' => if is_space c then lstrip s' else s
  | EmptyString => EmptyString
  end.

Fixpoint rstrip (s : string) : string :=
  match s with
  | EmptyString => EmptyString
  | String c s' =>
      match rstrip s' with
      | EmptyString => if is_space c then EmptyString else String c EmptyString
      | r => String c r
      end
  end.

(** Digits with single underscores between them; [prev] tells whether the
    previous character was a digit. *)
Fixpoint parse_digits (s : string) (acc : Z) (prev : bool) : option Z :=
  match s with
  | EmptyString => if prev then Some acc else None
  | String c s' =>
      if is_digit c then parse_digits s' (10 * acc + digit_val c) true
      else if Ascii.eqb c "_"%char then
        if prev then parse_digits s' acc false else None
      else None
  end.

Definition int_of_str_opt (s : string) : option Z :=
  match rstrip (lstrip s) with
  | String "-"%char d => option_map Z.opp (parse_digits d 0 false)
  | String "+"%char d => parse_digits d 0 false
  | d => parse_digits d 0 false
  end.

(** The run of digits, with single underscores between them, that
    [int()] scans at the head of a text: the number of its digits, or
    [None] when there is no digit or an underscore is not between two
    digits.  [prev] tells whether the previous character was a digit. *)
Fixpoint scan_digits (s : string) (count : Z) (prev : bool) : option Z :=
  match s with
  | EmptyString => if prev then Some count else None
  | String c s' =>
      if is_digit c then scan_digits s' (count + 1) true
      else if Ascii.eqb c "_"%char then
        if prev then scan_digits s' count false else None
      else if prev then Some count else None
  end.

(** The number of digits [int()] finds in a text, after the leading
    whitespace and the sign. *)
Definition digit_count (s : string) : option Z :=
  match lstrip s with
  | String "-"%char d => scan_digits d 0 false
  | String "+"%char d => scan_digits d 0 false
  | d => scan_digits d 0 false
  end.

(** [int(v)].  A text with more than [max_str_digits] digits is refused
    as soon as its digits are scanned, before what follows them is
    looked at. *)
Definition int (v : pyval) : result Z :=
  match v with
  | VInt z => Ok z
  | VBool b => Ok (if b then 1 else 0)
  | VStr s =>
      match digit_count s with
      | Some count =>
          if max_str_digits <? count then
            Raise (Exn ValueError
              ("Exceeds the limit (4300 digits) for integer string conversion: value has "
               +:+ str_int count
               +:+ " digits; use sys.set_int_max_str_digits() to increase the limit"))
          else
            match int_of_str_opt s with
            | Some z => Ok z
            | None => Raise (Exn ValueError
                        ("invalid literal for int() with base 10: " +:+ repr_str s))
            end
      | None => Raise (Exn ValueError
                  ("invalid literal for int() with base 10: " +:+ repr_str s))
      end
  | _ => Raise (Exn TypeError
           ("int() argument must be a string, a bytes-like object or a real number, not '"
            +:+ type_name v +:+ "'"))
  end.

End Py.
Export Py.

(* ===================================================================== *)
(** ** Python floats (IEEE binary64) *)
(* ===================================================================== *)

Module Float.

(** A finite double is the rational it denotes, kept in lowest terms; the
    two zeros are not told apart.  Every operation rounds the exact result
    to the nearest double, ties to even. *)
Inductive float :=
  | Fin (q : Q)
  | Inf (negative : bool)
  | NaN.

(** [a/b] divided by [2^e], as a fraction of integers. *)
Definition scale2 (a b e : Z) : Z * Z :=
  if 0 <=? e then (a, b * 2 ^ e) else (a * 2 ^ (- e), b).

(** Nearest integer to [a/b] ([b > 0]), ties to even. *)
Definition round_half_even (a b : Z) : Z :=
  let f := a / b in
  let r := a mod b in
  if 2 * r <? b then f
  else if b <? 2 * r then f + 1
  else if Z.even f then f else f + 1.

(** [floor (log2 (a/b))] for [a, b > 0]. *)
Definition flog2 (a b : Z) : Z :=
  let e0 := Z.log2 a - Z.log2 b in
  let '(a', b') := scale2 a b e0 in
  if b' <=? a' then e0 else e0 - 1.

(** [2^e] as a rational. *)
Definition pow2 (e : Z) : Q :=
  if 0 <=? e then inject_Z (2 ^ e) else Qinv (inject_Z (2 ^ (- e))).

(** The exponent of the last place of the double nearest to [a/b]:
    53 significant bits, and no exponent below -1074 (subnormals). *)
Definition ulp_exp (a b : Z) : Z := Z.max (flog2 a b - 52) (-1074).

(** Rounding of a rational to the nearest double, ties to even, with no
    bound on the exponent from above: overflow is decided by [overflows]. *)
Definition round_b64 (q : Q) : Q :=
  let n := Qnum q in
  let b := Zpos (Qden q) in
  if n =? 0 then 0%Q
  else
    let a := Z.abs n in
    let e := ulp_exp a b in
    let '(a', b') := scale2 a b e in
    let m := round_half_even a' b' in
    Qred (inject_Z (Z.sgn n * m) * pow2 e).

Definition Qltb (x y : Q) : bool :=
  Qnum x * Zpos (Qden y) <? Qnum y * Zpos (Qden x).

(** A rounded magnitude of [2^1024] or more does not fit a double. *)
Definition overflows (q : Q) : bool :=
  negb (Qltb (Qabs q) (inject_Z (2 ^ 1024))).

(** [float(n)] for an [int], as the arithmetic operators apply it. *)
Definition of_int (n : Z) : result float :=
  let r := round_b64 (inject_Z n) in
  if overflows r
  then Raise (Exn OverflowError "int too large to convert to float")
  else Ok (Fin r).

(** [a / b] on two [int]s: the correctly rounded quotient. *)
Definition truediv_int (a b : Z) : result float :=
  if b =? 0 then Raise (Exn ZeroDivisionError "division by zero")
  else
    let r := round_b64 (inject_Z a / inject_Z b) in
    if overflows r
    then Raise (Exn OverflowError "integer division result too large for a float")
    else Ok (Fin r).

Definition Qneg (q : Q) : bool := Qnum q <? 0.
Definition Qzero (q : Q) : bool := Qnum q =? 0.

Definition finite_or_inf (r : Q) : float :=
  if overflows r then Inf (Qneg r) else Fin r.

(** [x * y] on floats. *)
Definition mul (x y : float) : float :=
  match x, y with
  | Fin a, Fin b => finite_or_inf (round_b64 (a * b))
  | Fin a, Inf s | Inf s, Fin a =>
      if Qzero a then NaN else Inf (xorb s (Qneg a))
  | Inf s, Inf t => Inf (xorb s t)
  | _, _ => NaN
  end.

(** [x / y] on floats. *)
Definition div (x y : float) : result float :=
  match x, y with
  | Fin a, Fin b =>
      if Qzero b then Raise (Exn ZeroDivisionError "float division by zero")
      else Ok (finite_or_inf (round_b64 (a / b)))
  | Fin a, Inf _ => Ok (Fin 0)
  | Inf s, Fin b =>
      if Qzero b then Raise (Exn ZeroDivisionError "float division by zero")
      else Ok (Inf (xorb s (Qneg b)))
  | _, _ => Ok NaN
  end.

(** [x < y] on floats. *)
Definition ltb (x y : float) : bool :=
  match x, y with
  | Fin a, Fin b => Qltb a b
  | Fin _, Inf s => negb s
  | Inf s, Fin _ => s
  | Inf s, Inf t => s && negb t
  | _, _ => false
  end.

(** The double of a small integer literal such as [1024.0] or [100]. *)
Definition lit (n : Z) : float := Fin (inject_Z n).

(** [f"{x:.<prec>f}"]: the exact value of the double rounded to [prec]
    decimals, ties to even, with at least one digit before the point. *)
Definition fmt_f (prec : nat) (x : float) : string :=
  match x with
  | NaN => "nan"
  | Inf s => if s then "-inf" else "inf"
  | Fin q =>
      let p := 10 ^ Z.of_nat prec in
      let scaled := round_half_even (Z.abs (Qnum q) * p) (Zpos (Qden q)) in
      let body :=
        digits (scaled / p) +:+
        (if prec is O then "" else "." +:+ zpad prec (scaled mod p)) in
      if Qneg q then "-" +:+ body else body
  end.

(** A rational of at most 53 significant bits whose last place is not
    below [2^E0]. *)
Definition dyadic53 (x : Q) (E0 : Z) : Prop :=
  exists m E, Z.abs m < 2 ^ 53 /\ E0 <= E /\ (x == inject_Z m * pow2 E)%Q.

(** The quotient of two integers, as a rational. *)
Definition ratio (a b : Z) : Q := (inject_Z a / inject_Z b)%Q.

End Float.

(* ===================================================================== *)
(** ** The instrumentation backend and the program state *)
(* ===================================================================== *)

(** An instrumentation object, as the code observes it: the names [dir]
    lists, the outcome of reading an attribute, the names of its
    [properties] mapping, and the outcome of invoking one of its methods. *)
Record wmi_object := WmiObject {
  obj_dir : list string;
  obj_getattr : string -> result pyval;
  obj_properties : result (list string);
  obj_invoke : string -> result (list pyval)
}.

(** [datetime.datetime] *)
Record datetime := DateTime {
  year : Z; month : Z; day : Z;
  hour : Z; minute : Z; second : Z; microsecond : Z
}.

(** What [console.print] is given, before rendering: a text with its
    markup, a table, the records handed to [json.dumps], or an object. *)
Inductive output :=
  | OutText (text : string)
  | OutTable (title : string) (columns : list string) (rows : list (list pyval))
  | OutJson (records : list (gmap string pyval))
  | OutObject (obj : wmi_object).

(** What lies outside the repository: COM initialisation, the [wmi.WMI]
    constructor (its outcome may change from one attempt to the next), the
    answers of a connection to [(computer, namespace)], the administrator
    check, the clock, and the console of the rich library: [rich_render]
    gives the exception [console.print] raises for what it is handed (a
    text, a title or a cell whose markup does not parse; for the JSON
    output, also an exception of [json.dumps]), [None] when it prints. *)
Record Backend := {
  CoInitialize : option exn;
  wmi_WMI : string -> string -> nat -> option exn;
  conn_query : string * string -> string -> result (list wmi_object);
  class_instances : string * string -> string -> result (list wmi_object);
  IsUserAnAdmin : result Z;
  datetime_now : datetime;
  rich_render : output -> option exn
}.

(** A [WMIWrapper] instance.  [_connection] holds the handle of the
    connection, once made. *)
Record WMIWrapper := {
  computer : string;
  namespace : string;
  _connection : option nat
}.

(** The module globals of the tool layer: references to a [WMIWrapper],
    and to the wrappers of a [SystemMonitor] and of a [ProcessManager]. *)
Record tool_globals := {
  _wrapper : option nat;
  _system_mon : option nat;
  _process_mgr : option nat
}.

(** The state of the process.  A reference to a wrapper is its position in
    [heap]; a connection handle is its position in [opened], which records,
    for every [wmi.WMI] object constructed so far, the wrapper that
    constructed it and its target.  [attempts] counts the calls of the
    constructor, and [console] holds what the console has printed. *)
Record state := {
  _com_initialized : bool;
  heap : list WMIWrapper;
  opened : list (nat * (string * string));
  attempts : nat;
  globals : tool_globals;
  console : list output
}.

Definition initial_state : state :=
  {| _com_initialized := false; heap := []; opened := []; attempts := 0%nat;
     globals := {| _wrapper := None; _system_mon := None; _process_mgr := None |};
     console := [] |}.

(** *** Computations: state passing with exceptions.  The state reached
    when an exception is raised is kept, as in Python. *)

Definition M (A : Type) : Type := state -> result A * state.

Definition ret {A} (a : A) : M A := fun s => (Ok a, s).
Definition raise {A} (e : exn) : M A := fun s => (Raise e, s).

Definition bind {A B} (m : M A) (k : A -> M B) : M B :=
  fun s =>
    match m s with
    | (Ok a, s') => k a s'
    | (Raise e, s') => (Raise e, s')
    end.

Definition lift {A} (r : result A) : M A := fun s => (r, s).
Definition get_state : M state := fun s => (Ok s, s).
Definition modify (f : state -> state) : M unit := fun s => (Ok tt, f s).

(** [try: body  except Exception as e: handler e] *)
Definition try_except {A} (body : M A) (handler : exn -> M A) : M A :=
  fun s =>
    match body s with
    | (Ok a, s') => (Ok a, s')
    | (Raise e, s') => handler e s'
    end.

Declare Scope py_scope.
Delimit Scope py_scope with py.
Notation "x <- m ;; k" := (bind m (fun x => k))
  (at level 100, m at next level, right associativity) : py_scope.
Notation "m ;;; k" := (bind m (fun _ => k))
  (at level 100, right associativity) : py_scope.
Notation "x <~ r ;; k" := (rbind r (fun x => k))
  (at level 100, r at next level, right associativity) : py_scope.
Local Open Scope py_scope.

(** [for x in l: acc = step acc x] *)
Fixpoint for_each {A S} (l : list A) (acc : S) (step : S -> A -> M S) : M S :=
  match l with
  | [] => ret acc
  | x :: rest => acc' <- step acc x ;; for_each rest acc' step
  end.

Fixpoint rfor_each {A S} (l : list A) (acc : S) (step : S -> A -> result S)
  : result S :=
  match l with
  | [] => Ok acc
  | x :: rest => acc' <~ step acc x ;; rfor_each rest acc' step
  end.

(** [obj.name] where [obj] may be [None]. *)
Definition attr (obj : option wmi_object) (name : string) : result pyval :=
  match obj with
  | Some o => obj_getattr o name
  | None => Raise (Exn AttributeError
              ("'NoneType' object has no attribute '" +:+ name +:+ "'"))
  end.

(* ===================================================================== *)
(** ** wmi_wrapper.py: the access shim *)
(* ===================================================================== *)

Definition set_connection (self : nat) (h : nat) (s : state) : state :=
  {| _com_initialized := _com_initialized s;
     heap := alter (fun w => {| computer := computer w; namespace := namespace w;
                                _connection := Some h |}) self (heap s);
     opened := opened s; attempts := attempts s;
     globals := globals s; console := console s |}.

Definition set_com_initialized (s : state) : state :=
  {| _com_initialized := true; heap := heap s; opened := opened s;
     attempts := attempts s; globals := globals s; console := console s |}.

Definition alloc_wrapper (w : WMIWrapper) (s : state) : state :=
  {| _com_initialized := _com_initialized s; heap := heap s ++ [w];
     opened := opened s; attempts := attempts s;
     globals := globals s; console := console s |}.

Definition count_attempt (s : state) : state :=
  {| _com_initialized := _com_initialized s; heap := heap s;
     opened := opened s; attempts := S (attempts s);
     globals := globals s; console := console s |}.

Definition record_opened (self : nat) (target : string * string) (s : state)
  : state :=
  {| _com_initialized := _com_initialized s; heap := heap s;
     opened := opened s ++ [(self, target)]; attempts := attempts s;
     globals := globals s; console := console s |}.

Definition set_globals (g : tool_globals) (s : state) : state :=
  {| _com_initialized := _com_initialized s; heap := heap s;
     opened := opened s; attempts := attempts s;
     globals := g; console := console s |}.

Definition printed (x : output) (s : state) : state :=
  {| _com_initialized := _com_initialized s; heap := heap s;
     opened := opened s; attempts := attempts s;
     globals := globals s; console := console s ++ [x] |}.

(** [console.print(x)]: what the console cannot render raises, and
    nothing is printed. *)
Definition console_print (B : Backend) (x : output) : M unit :=
  match rich_render B x with
  | Some e => raise e
  | None => modify (printed x)
  end.

(** Model-level failure of a dangling reference; references handed out by
    [WMIWrapper_init] never dangle. *)
Definition dangling {A} : M A :=
  raise (Exn TypeError "dangling reference").

Definition deref (self : nat) : M WMIWrapper :=
  fun s => match heap s !! self with
           | Some w => (Ok w, s)
           | None => dangling s
           end.

Definition target_of (conn : nat) : M (string * string) :=
  fun s => match opened s !! conn with
           | Some (_, t) => (Ok t, s)
           | None => dangling s
           end.

Section Shim.
Variable B : Backend.

(** [WMIWrapper.__init__]: a fresh instance without a connection; COM is
    initialised once per process, and a failure of the initialisation is
    swallowed. *)
Definition WMIWrapper_init (computer namespace : string) : M nat :=
  s <- get_state ;;
  let self := length (heap s) in
  modify (alloc_wrapper {| computer := computer; namespace := namespace;
                           _connection := None |}) ;;;
  (if _com_initialized s then ret tt
   else match CoInitialize B with
        | None => modify set_com_initialized
        | Some _ => ret tt
        end) ;;;
  ret self.

(** [WMIWrapper.get_connection] *)
Definition get_connection (self : nat) : M nat :=
  w <- deref self ;;
  match _connection w with
  | Some conn => ret conn
  | None =>
      s <- get_state ;;
      modify count_attempt ;;;
      match wmi_WMI B (computer w) (namespace w) (attempts s) with
      | Some e => raise e
      | None =>
          let conn := length (opened s) in
          modify (record_opened self (computer w, namespace w)) ;;;
          modify (set_connection self conn) ;;;
          ret conn
      end
  end.

(** [WMIWrapper.query] *)
Definition query (self : nat) (wql_query : string) : M (list wmi_object) :=
  conn <- get_connection self ;;
  target <- target_of conn ;;
  lift (conn_query B target wql_query).

(** Does the object hold, for every key of [kwargs], exactly the value
    given? *)
Definition matches (kwargs : gmap string pyval) (o : wmi_object) : bool :=
  forallb (fun kv : string * pyval =>
             match obj_getattr o kv.1 with
             | Ok v => bool_decide (v = kv.2)
             | Raise _ => false
             end)
          (map_to_list kwargs).

(** Modelled from the spec: the class call [wmi_class] with keyword filters, of the wmi
    client library, which is not part of this repository.  The spec gives
    it "exact-match filter semantics only -- no range/wildcard support",
    the filter being "a mapping from property name to exact-match value":
    of the instances of the class, those whose named properties equal the
    given values, in their order. *)
Definition class_call (target : string * string) (class_name : string)
    (kwargs : gmap string pyval) : result (list wmi_object) :=
  instances <~ class_instances B target class_name ;;
  Ok (List.filter (matches kwargs) instances).

(** [WMIWrapper.get_class] *)
Definition get_class (self : nat) (class_name : string)
    (kwargs : gmap string pyval) : M (list wmi_object) :=
  conn <- get_connection self ;;
  target <- target_of conn ;;
  lift (class_call target class_name kwargs).

Definition get_services (self : nat) (filters : gmap string pyval) :=
  get_class self "Win32_Service" filters.

Definition get_processes (self : nat) (filters : gmap string pyval) :=
  get_class self "Win32_Process" filters.

(** [results[0] if results else None] *)
Definition first_or_none {A} (results : list A) : option A :=
  match results with
  | x :: _ => Some x
  | [] => None
  end.

Definition get_operating_system (self : nat) : M (option wmi_object) :=
  results <- get_class self "Win32_OperatingSystem" ∅ ;;
  ret (first_or_none results).

Definition get_computer_system (self : nat) : M (option wmi_object) :=
  results <- get_class self "Win32_ComputerSystem" ∅ ;;
  ret (first_or_none results).

Definition get_logical_disks (self : nat) (filters : gmap string pyval) :=
  get_class self "Win32_LogicalDisk" filters.

Definition get_network_adapters (self : nat) (filters : gmap string pyval) :=
  get_class self "Win32_NetworkAdapterConfiguration" filters.

Definition get_bios (self : nat) : M (option wmi_object) :=
  results <- get_class self "Win32_BIOS" ∅ ;;
  ret (first_or_none results).

Definition get_processor (self : nat) := get_class self "Win32_Processor" ∅.

Definition get_physical_memory (self : nat) :=
  get_class self "Win32_PhysicalMemory" ∅.

(** [is_admin]: any exception of the check reads as "not an admin". *)
Definition is_admin : bool :=
  match IsUserAnAdmin B with
  | Ok z => negb (z =? 0)
  | Raise _ => false
  end.

End Shim.

(** [prop.startswith('_')] *)
Definition starts_with_underscore (prop : string) : bool :=
  match prop with
  | String c _ => Ascii.eqb c "_"%char
  | EmptyString => false
  end.

(** *** [format_bytes] *)

(** The value of [bytes_value]: an [int] on entry, a [float] after the
    first division. *)
Inductive num :=
  | NInt (n : Z)
  | NFloat (x : Float.float).

(** [v < 1024.0]; an [int] and a [float] are compared exactly. *)
Definition num_ltb (v : num) (bound : Z) : bool :=
  match v with
  | NInt n => n <? bound
  | NFloat x => Float.ltb x (Float.lit bound)
  end.

Definition to_float (v : num) : result Float.float :=
  match v with
  | NInt n => Float.of_int n
  | NFloat x => Ok x
  end.

(** [v / 1024.0] *)
Definition num_div (v : num) (d : Z) : result num :=
  x <~ to_float v ;;
  y <~ Float.div x (Float.lit d) ;;
  Ok (NFloat y).

(** [f"{v:.2f} {unit}"] *)
Definition fmt_unit (v : num) (unit : string) : result string :=
  x <~ to_float v ;;
  Ok (Float.fmt_f 2 x +:+ " " +:+ unit).

Fixpoint format_bytes_loop (units : list string) (bytes_value : num)
  : result string :=
  match units with
  | unit :: rest =>
      if num_ltb bytes_value 1024 then fmt_unit bytes_value unit
      else
        bytes_value' <~ num_div bytes_value 1024 ;;
        format_bytes_loop rest bytes_value'
  | [] => fmt_unit bytes_value "PB"
  end.

Definition format_bytes (bytes_value : Z) : result string :=
  format_bytes_loop ["B"; "KB"; "MB"; "GB"; "TB"] (NInt bytes_value).

(** *** [wmi_object_to_dict] *)

(** One turn of the loop over [properties]: a property whose access raises
    is stored as [None], a callable one is skipped. *)
Definition to_dict_step (wmi_object : wmi_object)
    (result : gmap string pyval) (prop : string) : gmap string pyval :=
  match obj_getattr wmi_object prop with
  | Ok value => if callable value then result else <[prop := value]> result
  | Raise _ => <[prop := VNone]> result
  end.

Definition wmi_object_to_dict (wmi_object : wmi_object)
    (properties : option (list string)) : gmap string pyval :=
  let properties :=
    match properties with
    | Some l => l
    | None => List.filter (fun prop => negb (starts_with_underscore prop))
                          (obj_dir wmi_object)
    end in
  fold_left (to_dict_step wmi_object) properties ∅.

(* ===================================================================== *)
(** ** The pieces of [datetime] that [get_uptime] uses *)
(* ===================================================================== *)

Module DT.

(** [s.split('.')[0]]: the text before the first point, the whole string
    when it has none. *)
Fixpoint before_point (s : string) : string :=
  match s with
  | EmptyString => EmptyString
  | String c s' => if Ascii.eqb c "."%char then EmptyString
                   else String c (before_point s')
  end.

(** A character class and a range of digits ['lo'..'hi']. *)
Definition char_class := ascii -> bool.

Definition dig (lo hi : nat) : char_class :=
  fun c => let n := nat_of_ascii c in (48 + lo <=? n)%nat && (n <=? 48 + hi)%nat.

Definition blank : char_class := fun c => Ascii.eqb c " "%char.

(** One alternative of a directive: a sequence of character classes. *)
Fixpoint match_alt (alt : list char_class) (s : string)
  : option (string * string) :=
  match alt with
  | [] => Some (EmptyString, s)
  | cls :: alt' =>
      match s with
      | String c s' =>
          if cls c then
            match match_alt alt' s' with
            | Some (m, rest) => Some (String c m, rest)
            | None => None
            end
          else None
      | EmptyString => None
      end
  end.

(** The alternatives of a directive are tried in order; a later one is
    taken when the rest of the pattern fails after an earlier one
    (backtracking, as [re.match] does). *)
Fixpoint try_alts (alts : list (list char_class))
    (k : string -> option (list string * string)) (s : string)
  : option (list string * string) :=
  match alts with
  | [] => None
  | alt :: alts' =>
      match match_alt alt s with
      | Some (m, rest) =>
          match k rest with
          | Some (ms, r) => Some (m :: ms, r)
          | None => try_alts alts' k s
          end
      | None => try_alts alts' k s
      end
  end.

Fixpoint match_fields (fields : list (list (list char_class))) (s : string)
  : option (list string * string) :=
  match fields with
  | [] => Some ([], s)
  | f :: fs => try_alts f (match_fields fs) s
  end.

(** The regular expressions of the directives, as [_strptime] has them. *)
Definition re_Y := [[dig 0 9; dig 0 9; dig 0 9; dig 0 9]].
Definition re_m := [[dig 1 1; dig 0 2]; [dig 0 0; dig 1 9]; [dig 1 9]].
Definition re_d := [[dig 3 3; dig 0 1]; [dig 1 2; dig 0 9]; [dig 0 0; dig 1 9];
                    [dig 1 9]; [blank; dig 1 9]].
Definition re_H := [[dig 2 2; dig 0 3]; [dig 0 1; dig 0 9]; [dig 0 9]].
Definition re_M := [[dig 0 5; dig 0 9]; [dig 0 9]].
Definition re_S := [[dig 6 6; dig 0 1]; [dig 0 5; dig 0 9]; [dig 0 9]].

(** The format ["%Y%m%d%H%M%S"]. *)
Definition boot_format := [re_Y; re_m; re_d; re_H; re_M; re_S].

Definition is_leap (y : Z) : bool :=
  (y mod 4 =? 0) && (negb (y mod 100 =? 0) || (y mod 400 =? 0)).

Definition days_in_month (y m : Z) : Z :=
  if m =? 2 then (if is_leap y then 29 else 28)
  else if (m =? 4) || (m =? 6) || (m =? 9) || (m =? 11) then 30
  else 31.

(** The checks of the [datetime] constructor. *)
Definition make_datetime (y m d hh mm ss us : Z) : result datetime :=
  if negb ((1 <=? y) && (y <=? 9999)) then
    Raise (Exn ValueError ("year " +:+ str_int y +:+ " is out of range"))
  else if negb ((1 <=? m) && (m <=? 12)) then
    Raise (Exn ValueError "month must be in 1..12")
  else if negb ((1 <=? d) && (d <=? days_in_month y m)) then
    Raise (Exn ValueError "day is out of range for month")
  else if negb ((0 <=? hh) && (hh <=? 23)) then
    Raise (Exn ValueError "hour must be in 0..23")
  else if negb ((0 <=? mm) && (mm <=? 59)) then
    Raise (Exn ValueError "minute must be in 0..59")
  else if negb ((0 <=? ss) && (ss <=? 59)) then
    Raise (Exn ValueError "second must be in 0..59")
  else Ok (DateTime y m d hh mm ss us).

Definition field_int (s : string) : Z :=
  match int_of_str_opt s with Some z => z | None => 0 end.

(** [datetime.strptime(s, "%Y%m%d%H%M%S")] *)
Definition strptime (s : string) : result datetime :=
  match match_fields boot_format s with
  | None =>
      Raise (Exn ValueError ("time data " +:+ repr_str s +:+
                             " does not match format '%Y%m%d%H%M%S'"))
  | Some (groups, rest) =>
      if negb (String.eqb rest "") then
        Raise (Exn ValueError ("unconverted data remains: " +:+ rest))
      else
        match List.map field_int groups with
        | [y; m; d; hh; mm; ss] => make_datetime y m d hh mm ss 0
        | _ => Raise (Exn ValueError "unreachable")
        end
  end.

(** [date.toordinal]: days since 0001-01-01, that day being 1. *)
Definition days_before_year (y : Z) : Z :=
  let p := y - 1 in p * 365 + p / 4 - p / 100 + p / 400.

Fixpoint days_before_month_go (y : Z) (k : nat) : Z :=
  match k with
  | O => 0
  | S k' => days_before_month_go y k' + days_in_month y (Z.of_nat k)
  end.

Definition days_before_month (y m : Z) : Z :=
  days_before_month_go y (Z.to_nat (m - 1)).

Definition toordinal (t : datetime) : Z :=
  days_before_year (year t) + days_before_month (year t) (month t) + day t.

(** [datetime.timedelta], normalised: [0 <= seconds < 86400] and
    [0 <= microseconds < 1000000]. *)
Record timedelta := TimeDelta { days : Z; seconds : Z; microseconds : Z }.

Definition make_timedelta (d s us : Z) : timedelta :=
  let s1 := s + us / 1000000 in
  {| days := d + s1 / 86400; seconds := s1 mod 86400;
     microseconds := us mod 1000000 |}.

Definition secs_of_day (t : datetime) : Z :=
  second t + minute t * 60 + hour t * 3600.

(** [a - b] on two naive datetimes. *)
Definition sub (a b : datetime) : timedelta :=
  make_timedelta (toordinal a - toordinal b)
                 (secs_of_day a - secs_of_day b)
                 (microsecond a - microsecond b).

(** [td.total_seconds()] *)
Definition total_seconds (td : timedelta) : result Float.float :=
  Float.truediv_int ((days td * 86400 + seconds td) * 1000000 + microseconds td)
                    1000000.

(** [t.isoformat()] *)
Definition isoformat (t : datetime) : string :=
  zpad 4 (year t) +:+ "-" +:+ zpad 2 (month t) +:+ "-" +:+ zpad 2 (day t)
  +:+ "T" +:+ zpad 2 (hour t) +:+ ":" +:+ zpad 2 (minute t) +:+ ":"
  +:+ zpad 2 (second t)
  +:+ (if microsecond t =? 0 then "" else "." +:+ zpad 6 (microsecond t)).

(** The decimal text of [v] on exactly [w] digits. *)
Fixpoint fixed_width (w : nat) (v : Z) : string :=
  match w with
  | O => EmptyString
  | S w' => fixed_width w' (v / 10) +:+ String (digit_char (v mod 10)) EmptyString
  end.

(** The 14 digits [YYYYMMDDHHMMSS] of an instrumentation timestamp. *)
Definition wmi_timestamp (y m d hh mm ss : Z) : string :=
  fixed_width 4 y +:+ fixed_width 2 m +:+ fixed_width 2 d +:+
  fixed_width 2 hh +:+ fixed_width 2 mm +:+ fixed_width 2 ss.

(** The fields of a date and time of day lie in their ranges. *)
Definition valid_datetime (t : datetime) : Prop :=
  1 <= year t <= 9999 /\ 1 <= month t <= 12
  /\ 1 <= day t <= days_in_month (year t) (month t)
  /\ 0 <= hour t <= 23 /\ 0 <= minute t <= 59 /\ 0 <= second t <= 59
  /\ 0 <= microsecond t < 1000000.

(** Microseconds from the start of the calendar to [t]. *)
Definition micros (t : datetime) : Z :=
  (toordinal t * 86400 + secs_of_day t) * 1000000 + microsecond t.

Fixpoint all_digits (s : string) : bool :=
  match s with
  | EmptyString => true
  | String c s' => is_digit c && all_digits s'
  end.

(** The number a string of digits denotes, after the digits [acc]. *)
Fixpoint value_of (s : string) (acc : Z) : Z :=
  match s with
  | EmptyString => acc
  | String c s' => value_of s' (10 * acc + digit_val c)
  end.

End DT.

(** A directive [re] takes the two digits of [v] at the head of a text and
    leaves the rest to the continuation [k]. *)
Definition field_ok (re : list (list DT.char_class)) (v : Z) : Prop :=
  forall (k : string -> option (list string * string)) rest ms r,
    k rest = Some (ms, r) ->
    DT.try_alts re k (DT.fixed_width 2 v +:+ rest)
    = Some (DT.fixed_width 2 v :: ms, r).

(* ===================================================================== *)
(** ** modules.py: the domain query modules *)
(* ===================================================================== *)

(** [l[:k]] for any integer [k]. *)
Definition slice_to {A} (l : list A) (k : Z) : list A :=
  if 0 <=? k then firstn (Z.to_nat k) l
  else firstn (Z.to_nat (Z.of_nat (length l) + k)) l.

(** [l[0]] *)
Definition first {A} (l : list A) : result A :=
  match l with
  | x :: _ => Ok x
  | [] => Raise (Exn IndexError "list index out of range")
  end.

(** The default namespace of a wrapper. *)
Definition cimv2 : string := "root\cimv2".

(** [v or d] *)
Definition or_else (v d : pyval) : pyval := if truthy v then v else d.

(** [int(o.name) if o.name else 0] *)
Definition int_or_zero (o : wmi_object) (name : string) : result Z :=
  v <~ obj_getattr o name ;;
  if truthy v then (v' <~ obj_getattr o name ;; int v') else Ok 0.

(** Every module object holds one field, its own wrapper; the object is
    modelled by the reference to that wrapper. *)
Module ServiceManager.
Section Defs.
Variable B : Backend.
Local Open Scope py_scope.

Definition init (computer : string) : M nat := WMIWrapper_init B computer cimv2.

Definition start_service (self : nat) (service_name : string)
  : M (list pyval) :=
  services <- get_services B self {[ "Name" := VStr service_name ]} ;;
  match services with
  | [] => raise (Exn ValueError ("Service '" +:+ service_name +:+ "' not found"))
  | service :: _ => lift (obj_invoke service "StartService")
  end.

Definition stop_service (self : nat) (service_name : string)
  : M (list pyval) :=
  services <- get_services B self {[ "Name" := VStr service_name ]} ;;
  match services with
  | [] => raise (Exn ValueError ("Service '" +:+ service_name +:+ "' not found"))
  | service :: _ => lift (obj_invoke service "StopService")
  end.

Definition restart_service (self : nat) (service_name : string)
  : M (list pyval) :=
  stop_service self service_name ;;;
  start_service self service_name.

Definition get_service_status (self : nat) (service_name : string)
  : M (gmap string pyval) :=
  services <- get_services B self {[ "Name" := VStr service_name ]} ;;
  match services with
  | [] => raise (Exn ValueError ("Service '" +:+ service_name +:+ "' not found"))
  | service :: _ => ret (wmi_object_to_dict service None)
  end.

End Defs.
End ServiceManager.

Module ProcessManager.
Section Defs.
Variable B : Backend.
Local Open Scope py_scope.

Definition init (computer : string) : M nat := WMIWrapper_init B computer cimv2.

(** [p.WorkingSetSize and int(p.WorkingSetSize) > min_bytes] *)
Definition uses_more (min_bytes : Z) (p : wmi_object) : result bool :=
  v <~ obj_getattr p "WorkingSetSize" ;;
  if truthy v then
    v' <~ obj_getattr p "WorkingSetSize" ;;
    n <~ int v' ;;
    Ok (min_bytes <? n)
  else Ok false.

Fixpoint rfilter {A} (f : A -> result bool) (l : list A) : result (list A) :=
  match l with
  | [] => Ok []
  | x :: rest =>
      keep <~ f x ;;
      rest' <~ rfilter f rest ;;
      Ok (if keep then x :: rest' else rest')
  end.

Definition get_high_memory_processes (self : nat) (min_memory_mb : Z)
  : M (list wmi_object) :=
  all_processes <- get_processes B self ∅ ;;
  let min_bytes := min_memory_mb * 1024 * 1024 in
  lift (rfilter (uses_more min_bytes) all_processes).

End Defs.
End ProcessManager.

Module SystemMonitor.

Record memory_info := {
  total_bytes : Z;
  used_bytes : Z;
  free_bytes : Z;
  used_percentage : Float.float
}.

Record disk_usage := {
  device_id : pyval;
  label : pyval;
  file_system : pyval;
  size_bytes : Z;
  disk_used_bytes : Z;
  disk_free_bytes : Z;
  disk_used_percentage : Float.float
}.

Record uptime_info := {
  boot_time : string;
  last_boot_time : string;
  current_time : string;
  uptime_seconds : Float.float;
  uptime_days : Z;
  uptime_hours : Z;
  uptime_minutes : Z
}.

(** [(used / total) * 100] *)
Definition percentage (used total : Z) : result Float.float :=
  ratio <~ Float.truediv_int used total ;;
  Ok (Float.mul ratio (Float.lit 100)).

Section Defs.
Variable B : Backend.
Local Open Scope py_scope.

Definition init (computer : string) : M nat := WMIWrapper_init B computer cimv2.

Definition get_memory_info (self : nat) : M memory_info :=
  cs <- get_computer_system B self ;;
  os_info <- get_operating_system B self ;;
  lift (
    total <~ attr cs "TotalPhysicalMemory" ;;
    total_memory <~ int total ;;
    free <~ attr os_info "FreePhysicalMemory" ;;
    free_kb <~ int free ;;
    let free_memory := free_kb * 1024 in
    let used_memory := total_memory - free_memory in
    pct <~ percentage used_memory total_memory ;;
    Ok {| total_bytes := total_memory; used_bytes := used_memory;
          free_bytes := free_memory; used_percentage := pct |}).

(** One turn of the loop of [get_disk_usage]: a disk whose [Size] is falsy
    is skipped. *)
Definition disk_usage_step (result : list disk_usage) (disk : wmi_object)
  : Py.result (list disk_usage) :=
  sz <~ obj_getattr disk "Size" ;;
  if truthy sz then
    sz' <~ obj_getattr disk "Size" ;;
    size <~ int sz' ;;
    free <~ int_or_zero disk "FreeSpace" ;;
    let used := size - free in
    dev <~ obj_getattr disk "DeviceID" ;;
    vol <~ obj_getattr disk "VolumeName" ;;
    fs <~ obj_getattr disk "FileSystem" ;;
    pct <~ percentage used size ;;
    Ok (result ++ [{| device_id := dev; label := or_else vol (VStr "");
                      file_system := fs; size_bytes := size;
                      disk_used_bytes := used; disk_free_bytes := free;
                      disk_used_percentage := pct |}])%list
  else Ok result.

Definition get_disk_usage (self : nat) : M (list disk_usage) :=
  disks <- get_logical_disks B self {[ "DriveType" := VInt 3 ]} ;;
  lift (rfor_each disks [] disk_usage_step).

(** [os_info.LastBootUpTime.split('.')[0]] *)
Definition boot_time_str (os_info : option wmi_object) : result string :=
  v <~ attr os_info "LastBootUpTime" ;;
  match v with
  | VStr s => Ok (DT.before_point s)
  | _ => Raise (Exn AttributeError
           ("'" +:+ type_name v +:+ "' object has no attribute 'split'"))
  end.

Definition get_uptime (self : nat) : M uptime_info :=
  os_info <- get_operating_system B self ;;
  lift (
    text <~ boot_time_str os_info ;;
    boot <~ DT.strptime text ;;
    let now := datetime_now B in
    let uptime := DT.sub now boot in
    secs <~ DT.total_seconds uptime ;;
    Ok {| boot_time := DT.isoformat boot;
          last_boot_time := DT.isoformat boot;
          current_time := DT.isoformat now;
          uptime_seconds := secs;
          uptime_days := DT.days uptime;
          uptime_hours := DT.seconds uptime / 3600;
          uptime_minutes := (DT.seconds uptime mod 3600) / 60 |}).

End Defs.
End SystemMonitor.

Module EventLogReader.
Section Defs.
Variable B : Backend.
Local Open Scope py_scope.

Definition init (computer : string) : M nat := WMIWrapper_init B computer cimv2.



End Defs.
End EventLogReader.

(* ===================================================================== *)
(** ** wmi_tools.py: the agent tools *)
(* ===================================================================== *)

(** [", ".join(v)]: a list of strings, or the characters of a string. *)
Fixpoint chars (s : string) : list string :=
  match s with
  | EmptyString => []
  | String c s' => String c EmptyString :: chars s'
  end.

Definition join_val (sep : string) (v : pyval) : result string :=
  match v with
  | VStrList l => Ok (join sep l)
  | VStr s => Ok (join sep (chars s))
  | _ => Raise (Exn TypeError "can only join an iterable")
  end.

(** [f"{o.name}"] *)
Definition fattr (o : option wmi_object) (name : string) : result string :=
  v <~ attr o name ;; str v.

(** [f"{o.name if o.name else d}"] *)
Definition fattr_or (o : wmi_object) (name d : string) : result string :=
  v <~ obj_getattr o name ;;
  if truthy v then (v' <~ obj_getattr o name ;; str v') else Ok d.

(** [sorted(l, key=..., reverse=True)]: the keys are computed first, in
    order; the sort is stable. *)
Fixpoint insert_desc {A} (kx : Z * A) (l : list (Z * A)) : list (Z * A) :=
  match l with
  | [] => [kx]
  | ky :: rest => if ky.1 <=? kx.1 then kx :: l else ky :: insert_desc kx rest
  end.

Fixpoint rmap {A C} (f : A -> result C) (l : list A) : result (list C) :=
  match l with
  | [] => Ok []
  | x :: rest => y <~ f x ;; ys <~ rmap f rest ;; Ok (y :: ys)
  end.

Definition sorted_desc {A} (key : A -> result Z) (l : list A)
  : result (list A) :=
  keyed <~ rmap (fun x => k <~ key x ;; Ok (k, x)) l ;;
  Ok (List.map snd (fold_right insert_desc [] keyed)).

(** [enumerate(l, 1)] *)
Definition enumerate1 {A} (l : list A) : list (Z * A) :=
  combine (List.map (fun i => Z.of_nat (S i)) (seq 0 (length l))) l.

Module Tools.
Section Defs.
Variable B : Backend.
Local Open Scope py_scope.

(** [_init_wmi]: the three module objects are made on first use. *)
Definition _init_wmi : M unit :=
  s <- get_state ;;
  match _wrapper (globals s) with
  | Some _ => ret tt
  | None =>
      w <- WMIWrapper_init B "." cimv2 ;;
      modify (fun s => set_globals
        {| _wrapper := Some w; _system_mon := _system_mon (globals s);
           _process_mgr := _process_mgr (globals s) |} s) ;;;
      m <- SystemMonitor.init B "." ;;
      modify (fun s => set_globals
        {| _wrapper := _wrapper (globals s); _system_mon := Some m;
           _process_mgr := _process_mgr (globals s) |} s) ;;;
      p <- ProcessManager.init B "." ;;
      modify (fun s => set_globals
        {| _wrapper := _wrapper (globals s);
           _system_mon := _system_mon (globals s);
           _process_mgr := Some p |} s)
  end.

(** Reading a module global and calling a method on it. *)
Definition global (field : tool_globals -> option nat) (method : string)
  : M nat :=
  s <- get_state ;;
  match field (globals s) with
  | Some r => ret r
  | None => raise (Exn AttributeError
              ("'NoneType' object has no attribute '" +:+ method +:+ "'"))
  end.

(** A tool: the whole body runs under [try], and any exception becomes the
    returned text. *)
Definition ai_tool (prefix suffix : string) (body : M string) : M string :=
  try_except body (fun e => ret (prefix +:+ str_exn e +:+ suffix)).

Definition get_system_info_body : M string :=
  _init_wmi ;;;
  w <- global _wrapper "get_operating_system" ;;
  os_info <- get_operating_system B w ;;
  w <- global _wrapper "get_computer_system" ;;
  cs_info <- get_computer_system B w ;;
  w <- global _wrapper "get_bios" ;;
  bios_info <- get_bios B w ;;
  lift (
    let result := "System Information:" +:+ nl in
    caption <~ fattr os_info "Caption" ;;
    version <~ fattr os_info "Version" ;;
    let result := result +:+ "  OS: " +:+ caption +:+ " " +:+ version +:+ nl in
    name <~ fattr cs_info "Name" ;;
    let result := result +:+ "  Computer: " +:+ name +:+ nl in
    manufacturer <~ fattr cs_info "Manufacturer" ;;
    let result := result +:+ "  Manufacturer: " +:+ manufacturer +:+ nl in
    model <~ fattr cs_info "Model" ;;
    let result := result +:+ "  Model: " +:+ model +:+ nl in
    arch <~ fattr os_info "OSArchitecture" ;;
    let result := result +:+ "  Architecture: " +:+ arch +:+ nl in
    total <~ attr cs_info "TotalPhysicalMemory" ;;
    total_memory <~ int total ;;
    memory <~ format_bytes total_memory ;;
    let result := result +:+ "  Memory: " +:+ memory +:+ nl in
    bios <~ match bios_info with
            | Some _ => fattr bios_info "Version"
            | None => Ok "N/A"
            end ;;
    let result := result +:+ "  BIOS: " +:+ bios +:+ nl in
    serial <~ match bios_info with
              | Some _ => fattr bios_info "SerialNumber"
              | None => Ok "N/A"
              end ;;
    let result := result +:+ "  Serial Number: " +:+ serial +:+ nl in
    Ok result).

Definition get_system_info : M string :=
  ai_tool "Error getting system info: " "" get_system_info_body.

Definition get_memory_info_body : M string :=
  _init_wmi ;;;
  m <- global _system_mon "get_memory_info" ;;
  info <- SystemMonitor.get_memory_info B m ;;
  lift (
    let result := "Memory Information:" +:+ nl in
    total <~ format_bytes (SystemMonitor.total_bytes info) ;;
    let result := result +:+ "  Total: " +:+ total +:+ nl in
    used <~ format_bytes (SystemMonitor.used_bytes info) ;;
    let result := result +:+ "  Used: " +:+ used +:+ nl in
    free <~ format_bytes (SystemMonitor.free_bytes info) ;;
    let result := result +:+ "  Free: " +:+ free +:+ nl in
    let result := result +:+ "  Usage: "
      +:+ Float.fmt_f 1 (SystemMonitor.used_percentage info) +:+ "%" +:+ nl in
    Ok result).

Definition get_memory_info : M string :=
  ai_tool "Error getting memory info: " "" get_memory_info_body.

Definition get_cpu_info_body : M string :=
  _init_wmi ;;;
  w <- global _wrapper "query" ;;
  cpu_list <- query B w "SELECT * FROM Win32_Processor" ;;
  match cpu_list with
  | [] => ret "No CPU information available"
  | cpu :: _ =>
      lift (
        let cpu := Some cpu in
        let result := "CPU Information:" +:+ nl in
        name <~ fattr cpu "Name" ;;
        let result := result +:+ "  Processor: " +:+ name +:+ nl in
        manufacturer <~ fattr cpu "Manufacturer" ;;
        let result := result +:+ "  Manufacturer: " +:+ manufacturer +:+ nl in
        cores <~ fattr cpu "NumberOfCores" ;;
        let result := result +:+ "  Cores: " +:+ cores +:+ nl in
        logical <~ fattr cpu "NumberOfLogicalProcessors" ;;
        let result := result +:+ "  Logical Processors: " +:+ logical +:+ nl in
        max_speed <~ fattr cpu "MaxClockSpeed" ;;
        let result := result +:+ "  Max Speed: " +:+ max_speed +:+ " MHz" +:+ nl in
        speed <~ fattr cpu "CurrentClockSpeed" ;;
        let result := result +:+ "  Current Speed: " +:+ speed +:+ " MHz" +:+ nl in
        load <~ attr cpu "LoadPercentage" ;;
        match load with
        | VNone => Ok result
        | _ =>
            load' <~ fattr cpu "LoadPercentage" ;;
            Ok (result +:+ "  Load: " +:+ load' +:+ "%" +:+ nl)
        end)
  end.

Definition get_cpu_info : M string :=
  ai_tool "Error getting CPU info: " "" get_cpu_info_body.

(** [((total - free) / total * 100) if total > 0 else 0] *)
Definition used_pct (total_space free_space : Z) : result num :=
  if 0 <? total_space then
    ratio <~ Float.truediv_int (total_space - free_space) total_space ;;
    Ok (NFloat (Float.mul ratio (Float.lit 100)))
  else Ok (NInt 0).

(** [f"{v:.1f}"] *)
Definition fmt1 (v : num) : result string :=
  x <~ to_float v ;; Ok (Float.fmt_f 1 x).

Definition disk_info_step (result : string) (disk : wmi_object)
  : Py.result string :=
  sz <~ obj_getattr disk "Size" ;;
  if truthy sz then
    free_space <~ int_or_zero disk "FreeSpace" ;;
    sz' <~ obj_getattr disk "Size" ;;
    total_space <~ int sz' ;;
    pct <~ used_pct total_space free_space ;;
    name <~ fattr (Some disk) "Name" ;;
    let result := result +:+ "  " +:+ name +:+ ":" +:+ nl in
    size <~ format_bytes total_space ;;
    let result := result +:+ "    Size: " +:+ size +:+ nl in
    free <~ format_bytes free_space ;;
    let result := result +:+ "    Free: " +:+ free +:+ nl in
    used <~ fmt1 pct ;;
    let result := result +:+ "    Used: " +:+ used +:+ "%" +:+ nl in
    fs <~ fattr_or disk "FileSystem" "N/A" ;;
    Ok (result +:+ "    File System: " +:+ fs +:+ nl)
  else Ok result.

Definition get_disk_info_body : M string :=
  _init_wmi ;;;
  w <- global _wrapper "query" ;;
  disks <- query B w "SELECT * FROM Win32_LogicalDisk WHERE DriveType=3" ;;
  lift (
    result <~ rfor_each disks ("Disk Drives:" +:+ nl) disk_info_step ;;
    Ok (if String.eqb result ("Disk Drives:" +:+ nl)
        then "No disk information available" else result)).

Definition get_disk_info : M string :=
  ai_tool "Error getting disk info: " "" get_disk_info_body.

Definition network_info_step (result : string) (adapter : wmi_object)
  : Py.result string :=
  description <~ fattr (Some adapter) "Description" ;;
  let result := result +:+ "  " +:+ description +:+ ":" +:+ nl in
  mac <~ fattr_or adapter "MACAddress" "N/A" ;;
  let result := result +:+ "    MAC: " +:+ mac +:+ nl in
  ip <~ obj_getattr adapter "IPAddress" ;;
  result <~ (if truthy ip then
               ip' <~ obj_getattr adapter "IPAddress" ;;
               joined <~ join_val ", " ip' ;;
               Ok (result +:+ "    IP: " +:+ joined +:+ nl)
             else Ok result) ;;
  gw <~ obj_getattr adapter "DefaultIPGateway" ;;
  result <~ (if truthy gw then
               gw' <~ obj_getattr adapter "DefaultIPGateway" ;;
               joined <~ join_val ", " gw' ;;
               Ok (result +:+ "    Gateway: " +:+ joined +:+ nl)
             else Ok result) ;;
  dhcp <~ obj_getattr adapter "DHCPEnabled" ;;
  Ok (result +:+ "    DHCP Enabled: " +:+ (if truthy dhcp then "Yes" else "No")
      +:+ nl).

Definition get_network_info_body : M string :=
  _init_wmi ;;;
  w <- global _wrapper "query" ;;
  adapters <- query B w
    "SELECT * FROM Win32_NetworkAdapterConfiguration WHERE IPEnabled=True" ;;
  match adapters with
  | [] => ret "No active network adapters found"
  | _ => lift (rfor_each adapters ("Network Adapters:" +:+ nl) network_info_step)
  end.

Definition get_network_info : M string :=
  ai_tool "Error getting network info: " "" get_network_info_body.

Definition get_uptime_body : M string :=
  _init_wmi ;;;
  m <- global _system_mon "get_uptime" ;;
  uptime_info <- SystemMonitor.get_uptime B m ;;
  let result := "System Uptime:" +:+ nl in
  let result := result +:+ "  Last Boot: "
    +:+ SystemMonitor.last_boot_time uptime_info +:+ nl in
  let result := result +:+ "  Uptime: "
    +:+ str_int (SystemMonitor.uptime_days uptime_info) +:+ " days, " in
  let result := result
    +:+ str_int (SystemMonitor.uptime_hours uptime_info) +:+ " hours, " in
  let result := result
    +:+ str_int (SystemMonitor.uptime_minutes uptime_info) +:+ " minutes" +:+ nl in
  ret result.

Definition get_uptime : M string :=
  ai_tool "Error getting uptime: " "" get_uptime_body.

Definition check_admin_privileges_body : M string :=
  ret (if is_admin B
       then "Running with Administrator privileges"
       else "NOT running with Administrator privileges. Some operations may be restricted.").

Definition check_admin_privileges : M string :=
  ai_tool "Error checking admin privileges: " "" check_admin_privileges_body.

Definition services_columns : string :=
  "SELECT Name, DisplayName, State, StartMode, Status FROM Win32_Service".

(** The query of [list_services]; a [state] of [None] or of the empty
    string adds no clause. *)
Definition services_query (state : option string) : string :=
  match state with
  | Some st => if String.eqb st "" then services_columns
               else services_columns +:+ " WHERE State = '" +:+ st +:+ "'"
  | None => services_columns
  end.

Definition service_line (result : string) (isvc : Z * wmi_object)
  : Py.result string :=
  let '(i, svc) := isvc in
  name <~ fattr (Some svc) "Name" ;;
  st <~ fattr (Some svc) "State" ;;
  let result := result +:+ "  " +:+ str_int i +:+ ". " +:+ name +:+ " - " +:+ st
                +:+ nl in
  display <~ fattr (Some svc) "DisplayName" ;;
  Ok (result +:+ "     Display: " +:+ display +:+ nl).

(** The text built from the records the query returned: the count, the
    first 20 records, and the number of those left out. *)
Definition services_text (services : list wmi_object) : Py.result string :=
  let count := Z.of_nat (length services) in
  let result := "Windows Services (" +:+ str_int count +:+ "):" +:+ nl in
  result <~ rfor_each (enumerate1 (slice_to services 20)) result service_line ;;
  Ok (if 20 <? count
      then result +:+ nl +:+ "  ... and " +:+ str_int (count - 20)
           +:+ " more services" +:+ nl
      else result).

Definition list_services_body (state : option string) : M string :=
  _init_wmi ;;;
  w <- global _wrapper "query" ;;
  services <- query B w (services_query state) ;;
  lift (services_text services).

Definition list_services (state : option string) : M string :=
  ai_tool "Error listing services: " "" (list_services_body state).

Definition get_service_status_body (service_name : string) : M string :=
  _init_wmi ;;;
  w <- global _wrapper "query" ;;
  services <- query B w
    (services_columns +:+ " WHERE Name = '" +:+ service_name +:+ "'") ;;
  match services with
  | svc :: _ =>
      lift (
        let svc := Some svc in
        name <~ fattr svc "Name" ;;
        let result := "Service: " +:+ name +:+ nl in
        display <~ fattr svc "DisplayName" ;;
        let result := result +:+ "  Display Name: " +:+ display +:+ nl in
        st <~ fattr svc "State" ;;
        let result := result +:+ "  State: " +:+ st +:+ nl in
        mode <~ fattr svc "StartMode" ;;
        let result := result +:+ "  Start Mode: " +:+ mode +:+ nl in
        status <~ fattr svc "Status" ;;
        Ok (result +:+ "  Status: " +:+ status +:+ nl))
  | [] => ret ("Service '" +:+ service_name +:+ "' not found")
  end.

Definition get_service_status (service_name : string) : M string :=
  ai_tool "Error getting service status: " "" (get_service_status_body service_name).

(** [f"{n / (1024 * 1024):.1f}"] *)
Definition megabytes (mem_bytes : Z) : result string :=
  mem_mb <~ Float.truediv_int mem_bytes (1024 * 1024) ;;
  Ok (Float.fmt_f 1 mem_mb).

Definition process_line (result : string) (iproc : Z * wmi_object)
  : Py.result string :=
  let '(i, proc) := iproc in
  mem_bytes <~ int_or_zero proc "WorkingSetSize" ;;
  mem_mb <~ megabytes mem_bytes ;;
  name <~ fattr (Some proc) "Name" ;;
  pid <~ fattr (Some proc) "ProcessId" ;;
  let result := result +:+ "  " +:+ str_int i +:+ ". " +:+ name
                +:+ " (PID: " +:+ pid +:+ ")" +:+ nl in
  Ok (result +:+ "     Memory: " +:+ mem_mb +:+ " MB" +:+ nl).

Definition list_processes_body : M string :=
  _init_wmi ;;;
  p <- global _process_mgr "get_high_memory_processes" ;;
  processes <- ProcessManager.get_high_memory_processes B p 0 ;;
  match processes with
  | [] => ret "No processes found"
  | _ =>
      lift (
        sorted <~ sorted_desc (fun p => int_or_zero p "WorkingSetSize") processes ;;
        let processes_sorted := slice_to sorted 15 in
        rfor_each (enumerate1 processes_sorted)
                  ("Running Processes (Top 15 by Memory):" +:+ nl) process_line)
  end.

Definition list_processes : M string :=
  ai_tool "Error listing processes: " "" list_processes_body.

(** [v != 0] *)
Definition ne_zero (v : pyval) : bool :=
  match v with
  | VInt z => negb (z =? 0)
  | VBool b => b
  | _ => true
  end.

(** [p.PercentProcessorTime is not None and p.IDProcess != 0] *)
Definition valid_proc (p : wmi_object) : result bool :=
  t <~ obj_getattr p "PercentProcessorTime" ;;
  match t with
  | VNone => Ok false
  | _ => pid <~ obj_getattr p "IDProcess" ;; Ok (ne_zero pid)
  end.

Definition performance_line (result : string) (iproc : Z * wmi_object)
  : Py.result string :=
  let '(i, proc) := iproc in
  cpu_percent <~ int_or_zero proc "PercentProcessorTime" ;;
  mem_bytes <~ int_or_zero proc "WorkingSet" ;;
  mem_mb <~ megabytes mem_bytes ;;
  pid <~ obj_getattr proc "IDProcess" ;;
  name <~ fattr (Some proc) "Name" ;;
  pid <~ str pid ;;
  let result := result +:+ "  " +:+ str_int i +:+ ". " +:+ name
                +:+ " (PID: " +:+ pid +:+ ")" +:+ nl in
  cpu <~ str_of_int cpu_percent ;;
  let result := result +:+ "     CPU: " +:+ cpu +:+ "%" +:+ nl in
  Ok (result +:+ "     Memory: " +:+ mem_mb +:+ " MB" +:+ nl +:+ nl).

Definition get_process_performance_body : M string :=
  _init_wmi ;;;
  w <- global _wrapper "query" ;;
  perf_processes <- query B w
    "SELECT Name, IDProcess, PercentProcessorTime, WorkingSet FROM Win32_PerfFormattedData_PerfProc_Process WHERE Name != '_Total' AND Name != 'Idle'" ;;
  match perf_processes with
  | [] => ret "No performance data available. This can happen if performance counters are disabled or need to be rebuilt."
  | _ =>
      lift (
        valid_procs <~ ProcessManager.rfilter valid_proc perf_processes ;;
        sorted <~ sorted_desc (fun p => int_or_zero p "PercentProcessorTime")
                              valid_procs ;;
        let procs_sorted := slice_to sorted 15 in
        rfor_each (enumerate1 procs_sorted)
                  ("Process Performance (Top 15 by CPU Usage):" +:+ nl +:+ nl)
                  performance_line)
  end.

Definition get_process_performance : M string :=
  ai_tool "Error getting process performance: "
    (nl +:+ nl +:+ "Note: Performance counters may not be available. Try using 'list_processes' for memory-based process listing instead.")
    get_process_performance_body.

(** One property of one result of [execute_wql_query]: a value of [None],
    a failing access and a value that cannot be rendered all print
    nothing. *)
Definition query_prop_line (item : wmi_object) (result : string) (prop : string)
  : string :=
  match obj_getattr item prop with
  | Ok VNone => result
  | Ok value =>
      match str value with
      | Ok text => result +:+ "    " +:+ prop +:+ ": " +:+ text +:+ nl
      | Raise _ => result
      end
  | Raise _ => result
  end.

Definition query_result_block (result : string) (iitem : Z * wmi_object)
  : Py.result string :=
  let '(i, item) := iitem in
  let result := result +:+ nl +:+ "  Result " +:+ str_int i +:+ ":" +:+ nl in
  names <~ obj_properties item ;;
  let props := slice_to names 10 in
  Ok (fold_left (query_prop_line item) props result).

Definition execute_wql_query_body (wql : string) : M string :=
  _init_wmi ;;;
  w <- global _wrapper "query" ;;
  results <- query B w wql ;;
  match results with
  | [] => ret "Query returned no results"
  | _ =>
      lift (
        let result := "Query Results (" +:+ str_int (Z.of_nat (length results))
                      +:+ " total, showing first 5):" +:+ nl in
        rfor_each (enumerate1 (slice_to results 5)) result query_result_block)
  end.

Definition execute_wql_query (wql : string) : M string :=
  ai_tool "Error executing query: " "" (execute_wql_query_body wql).

(** The tools handed to the agent, with their arguments. *)
Inductive tool :=
  | GetSystemInfo | GetMemoryInfo | GetCpuInfo | GetDiskInfo | GetNetworkInfo
  | GetUptime | CheckAdminPrivileges
  | ListServices (state : option string)
  | GetServiceStatus (service_name : string)
  | ListProcesses | GetProcessPerformance
  | ExecuteWqlQuery (wql : string).

Definition tool_body (t : tool) : M string :=
  match t with
  | GetSystemInfo => get_system_info_body
  | GetMemoryInfo => get_memory_info_body
  | GetCpuInfo => get_cpu_info_body
  | GetDiskInfo => get_disk_info_body
  | GetNetworkInfo => get_network_info_body
  | GetUptime => get_uptime_body
  | CheckAdminPrivileges => check_admin_privileges_body
  | ListServices state => list_services_body state
  | GetServiceStatus service_name => get_service_status_body service_name
  | ListProcesses => list_processes_body
  | GetProcessPerformance => get_process_performance_body
  | ExecuteWqlQuery wql => execute_wql_query_body wql
  end.

Definition run_tool (t : tool) : M string :=
  match t with
  | GetSystemInfo => get_system_info
  | GetMemoryInfo => get_memory_info
  | GetCpuInfo => get_cpu_info
  | GetDiskInfo => get_disk_info
  | GetNetworkInfo => get_network_info
  | GetUptime => get_uptime
  | CheckAdminPrivileges => check_admin_privileges
  | ListServices state => list_services state
  | GetServiceStatus service_name => get_service_status service_name
  | ListProcesses => list_processes
  | GetProcessPerformance => get_process_performance
  | ExecuteWqlQuery wql => execute_wql_query wql
  end.

(** The text a tool returns when its body raises [e]. *)
Definition error_text (t : tool) (e : exn) : string :=
  match t with
  | GetSystemInfo => "Error getting system info: " +:+ str_exn e
  | GetMemoryInfo => "Error getting memory info: " +:+ str_exn e
  | GetCpuInfo => "Error getting CPU info: " +:+ str_exn e
  | GetDiskInfo => "Error getting disk info: " +:+ str_exn e
  | GetNetworkInfo => "Error getting network info: " +:+ str_exn e
  | GetUptime => "Error getting uptime: " +:+ str_exn e
  | CheckAdminPrivileges => "Error checking admin privileges: " +:+ str_exn e
  | ListServices _ => "Error listing services: " +:+ str_exn e
  | GetServiceStatus _ => "Error getting service status: " +:+ str_exn e
  | ListProcesses => "Error listing processes: " +:+ str_exn e
  | GetProcessPerformance =>
      "Error getting process performance: " +:+ str_exn e +:+ nl +:+ nl +:+
      "Note: Performance counters may not be available. Try using 'list_processes' for memory-based process listing instead."
  | ExecuteWqlQuery _ => "Error executing query: " +:+ str_exn e
  end.

End Defs.
End Tools.

(* ===================================================================== *)
(** ** cli.py: the commands *)
(* ===================================================================== *)

Module Cli.
Section Defs.
Variable B : Backend.
Local Open Scope py_scope.

(** The shape of every command that touches the backend: the body runs
    under [try]; the handler prints the exception on the console and then
    raises [typer.Exit(1)].  When the console cannot render the message,
    its exception leaves the handler instead.  The traceback that [query]
    also writes to the error stream is left out. *)
Definition guarded (report : string) (body : M unit) : M unit :=
  try_except body (fun e =>
    console_print B
      (OutText ("[red]" +:+ report +:+ ": " +:+ str_exn e +:+ "[/red]")) ;;;
    raise (Exn (Exit 1) "")).


(** A cell [str(value) if value is not None else "N/A"], or ["N/A"] when
    the access or the conversion raises. *)
Definition cell (obj : wmi_object) (prop : string) : pyval :=
  match obj_getattr obj prop with
  | Ok VNone => VStr "N/A"
  | Ok value =>
      match str value with
      | Ok text => VStr text
      | Raise _ => VStr "N/A"
      end
  | Raise _ => VStr "N/A"
  end.

(** The properties [_display_table] shows: the public names of the sample
    whose access succeeds with a value that is not callable. *)
Definition shown (sample : wmi_object) (prop : string) : bool :=
  negb (starts_with_underscore prop) &&
  match obj_getattr sample prop with
  | Ok value => negb (callable value)
  | Raise _ => false
  end.

Definition _display_table (results : list wmi_object) (title : string)
  : M unit :=
  match results with
  | [] => ret tt
  | sample :: _ =>
      let properties := List.filter (shown sample) (obj_dir sample) in
      let properties :=
        if (10 <? length properties)%nat then slice_to properties 10
        else properties in
      console_print B
        (OutTable title properties
           (List.map (fun obj => List.map (cell obj) properties) results))
  end.

(** One record of the JSON output of [query]: the properties of the object
    with their values, [None] for one whose access raises; the plain
    conversion when the properties cannot be listed. *)
Definition query_json_item (obj : wmi_object) : gmap string pyval :=
  match obj_properties obj with
  | Ok names =>
      fold_left (fun item_dict prop_name =>
                   match obj_getattr obj prop_name with
                   | Ok value => <[prop_name := value]> item_dict
                   | Raise _ => <[prop_name := VNone]> item_dict
                   end) names ∅
  | Raise _ => wmi_object_to_dict obj None
  end.

(** The table of the [query] command, from the properties of the first
    object. *)
Definition query_table (first_obj : wmi_object) (results : list wmi_object)
  : M unit :=
  names <- lift (obj_properties first_obj) ;;
  let properties := slice_to names 10 in
  console_print B
    (OutTable "Query Results" properties
       (List.map (fun obj => List.map (cell obj) properties) results)).

(** The body of [query].  The table is built and printed under a [try] of
    its own: when the properties cannot be listed or the console cannot
    render the table, [_display_table] is used instead. *)
Definition query_body (wql namespace output_format computer : string)
  : M unit :=
  wrapper <- WMIWrapper_init B computer namespace ;;
  results <- query B wrapper wql ;;
  match results with
  | [] => console_print B (OutText "[yellow]No results found[/yellow]")
  | first_obj :: _ =>
      if String.eqb output_format "json" then
        console_print B (OutJson (List.map query_json_item results))
      else if String.eqb output_format "table" then
        try_except (query_table first_obj results)
          (fun _ => _display_table results ("Query Results: " +:+ wql))
      else
        for_each results tt (fun _ obj => console_print B (OutObject obj))
  end.

Definition query_command (wql namespace output_format computer : string)
  : M unit :=
  guarded "Error executing query" (query_body wql namespace output_format computer).

(** The used percentage of the [disks] table:
    [((size - free) / size * 100) if size > 0 else 0]. *)
Definition used_pct (size free : Z) : result num :=
  if 0 <? size then
    ratio <~ Float.truediv_int (size - free) size ;;
    Ok (NFloat (Float.mul ratio (Float.lit 100)))
  else Ok (NInt 0).

End Defs.
End Cli.

(* ===================================================================== *)
(** ** Sequences of calls, consistency of a state, concrete backends *)
(* ===================================================================== *)

(** The calls a client makes on wrappers: construction, and the methods
    through which a connection is reached. *)
Inductive call :=
  | New (computer namespace : string)
  | GetConnection (self : nat)
  | Query (self : nat) (wql_query : string)
  | GetClass (self : nat) (class_name : string) (kwargs : gmap string pyval).

(** The state after a call, whether it returned or raised. *)
Definition run_call (B : Backend) (c : call) (s : state) : state :=
  match c with
  | New computer namespace => (WMIWrapper_init B computer namespace s).2
  | GetConnection self => (get_connection B self s).2
  | Query self wql_query => (query B self wql_query s).2
  | GetClass self class_name kwargs => (get_class B self class_name kwargs s).2
  end.

Definition run_calls (B : Backend) (cs : list call) (s : state) : state :=
  fold_left (fun s c => run_call B c s) cs s.

(** The connections a wrapper has constructed. *)
Definition opened_by (self : nat) (s : state) : list (nat * (string * string)) :=
  List.filter (fun o => Nat.eqb o.1 self) (opened s).

(** A state is consistent when the connection a wrapper holds is one it
    constructed, for its own target, and every connection constructed is
    held by the wrapper that constructed it. *)
Definition consistent (s : state) : Prop :=
  (forall self w h, heap s !! self = Some w -> _connection w = Some h ->
     opened s !! h = Some (self, (computer w, namespace w)))
  /\ (forall h self t, opened s !! h = Some (self, t) ->
        exists w, heap s !! self = Some w /\ _connection w = Some h).

(** A wrapper holds the connection [h]. *)
Definition holds (self h : nat) (s : state) : Prop :=
  exists w, heap s !! self = Some w /\ _connection w = Some h.

(** The unit of index [k] in the ladder of [format_bytes]. *)
Definition unit_name (k : nat) : string :=
  nth k ["B"; "KB"; "MB"; "GB"; "TB"; "PB"] "PB".

(** The index of the first unit of the ladder under which [n] stays below
    1024, the last one when there is none. *)
Definition unit_index (n : Z) : nat :=
  if n <? 1024 then 0 else if n <? 1024 ^ 2 then 1 else if n <? 1024 ^ 3 then 2
  else if n <? 1024 ^ 4 then 3 else if n <? 1024 ^ 5 then 4 else 5.

(** [x] divided by 1024 once per unit step, in lowest terms. *)
Definition mantissa (x : Q) (k : nat) : Q :=
  Qred (x / inject_Z (1024 ^ Z.of_nat k)).

(** The properties a conversion goes through. *)
Definition requested (o : wmi_object) (properties : option (list string))
  : list string :=
  match properties with
  | Some l => l
  | None => List.filter (fun prop => negb (starts_with_underscore prop)) (obj_dir o)
  end.

(** An object with the given properties and nothing else. *)
Definition lookup_prop (props : list (string * pyval)) (name : string)
  : result pyval :=
  match List.find (fun kv => String.eqb kv.1 name) props with
  | Some kv => Ok kv.2
  | None => Raise (Exn AttributeError
              ("object has no attribute '" +:+ name +:+ "'"))
  end.

Definition mk_object (props : list (string * pyval)) : wmi_object :=
  {| obj_dir := List.map fst props;
     obj_getattr := lookup_prop props;
     obj_properties := Ok (List.map fst props);
     obj_invoke := fun name =>
       Raise (Exn AttributeError ("object has no attribute '" +:+ name +:+ "'")) |}.

(** A backend that connects at once and answers every query with
    [answer], every class with [instances]; its console renders whatever
    it is given. *)
Definition fixed_backend (answer : string -> list wmi_object)
    (instances : string -> list wmi_object) : Backend :=
  {| CoInitialize := None;
     wmi_WMI := fun _ _ _ => None;
     conn_query := fun _ wql => Ok (answer wql);
     class_instances := fun _ class_name => Ok (instances class_name);
     IsUserAnAdmin := Ok 0;
     datetime_now := DateTime 2023 11 7 13 30 15 250000;
     rich_render := fun _ => None |}.

Definition spooler : wmi_object :=
  mk_object [("Name", VStr "Spooler"); ("DisplayName", VStr "Print Spooler");
             ("State", VStr "Running"); ("StartMode", VStr "Auto");
             ("Status", VStr "OK")].

Definition fax : wmi_object :=
  mk_object [("Name", VStr "Fax"); ("DisplayName", VStr "Fax");
             ("State", VStr "Stopped"); ("StartMode", VStr "Manual");
             ("Status", VStr "OK")].

(** A backend that returns the two service records, whatever is asked. *)
Definition two_services : Backend :=
  fixed_backend (fun _ => [spooler; fax])
    (fun class_name => if String.eqb class_name "Win32_Service"
                       then [spooler; fax] else []).

(** A backend that holds the two service records and honours the state
    clause of a query for the services. *)
Definition two_services_filtering : Backend :=
  fixed_backend
    (fun wql =>
       if String.eqb wql
            "SELECT Name, DisplayName, State, StartMode, Status FROM Win32_Service WHERE State = 'Running'"
       then [spooler]
       else if String.eqb wql
            "SELECT Name, DisplayName, State, StartMode, Status FROM Win32_Service WHERE State = 'Stopped'"
       then [fax]
       else [spooler; fax])
    (fun class_name => if String.eqb class_name "Win32_Service"
                       then [spooler; fax] else []).

(** A machine that reports no physical memory, and a disk of size 0. *)
Definition no_memory : Backend :=
  fixed_backend (fun _ => [])
    (fun class_name =>
       if String.eqb class_name "Win32_ComputerSystem"
       then [mk_object [("TotalPhysicalMemory", VStr "0")]]
       else if String.eqb class_name "Win32_OperatingSystem"
       then [mk_object [("FreePhysicalMemory", VStr "0");
                        ("LastBootUpTime", VStr "20231106120000.000000+000")]]
       else if String.eqb class_name "Win32_LogicalDisk"
       then [mk_object [("DeviceID", VStr "Z:"); ("VolumeName", VNone);
                        ("FileSystem", VStr "NTFS"); ("DriveType", VInt 3);
                        ("Size", VStr "0"); ("FreeSpace", VStr "0")]]
       else []).

(** The text [list_services] builds for one record. *)
Definition one_service_text (name st display : string) : string :=
  "Windows Services (1):" +:+ nl +:+
  "  1. " +:+ name +:+ " - " +:+ st +:+ nl +:+
  "     Display: " +:+ display +:+ nl.

(** The two lines of the record of rank [i] in the text of
    [list_services]. *)
Definition service_entry (i : Z) (name st display : string) : string :=
  "  " +:+ str_int i +:+ ". " +:+ name +:+ " - " +:+ st +:+ nl +:+
  "     Display: " +:+ display +:+ nl.

(** The line that closes the text when more than 20 records came back. *)
Definition services_left_out (count : Z) : string :=
  if 20 <? count
  then nl +:+ "  ... and " +:+ str_int (count - 20) +:+ " more services" +:+ nl
  else "".

(** The state of the process once the tools have made their three module
    objects, before any connection. *)
Definition tools_ready (com : bool) : state :=
  {| _com_initialized := com;
     heap := [ {| computer := "."; namespace := cimv2; _connection := None |};
               {| computer := "."; namespace := cimv2; _connection := None |};
               {| computer := "."; namespace := cimv2; _connection := None |} ];
     opened := []; attempts := 0%nat;
     globals := {| _wrapper := Some 0%nat; _system_mon := Some 1%nat;
                   _process_mgr := Some 2%nat |};
     console := [] |}.

(** A record with a property, a method and a property that cannot be read. *)
Definition mixed_object : wmi_object :=
  {| obj_dir := ["Name"; "StartService"; "Broken"; "_private"];
     obj_getattr := fun name =>
       if String.eqb name "Name" then Ok (VStr "Spooler")
       else if String.eqb name "StartService" then Ok VMethod
       else Raise (Exn x_wmi "access denied");
     obj_properties := Ok ["Name"; "Broken"];
     obj_invoke := fun _ => Ok [VInt 0] |}.

(** The state of a process that has made one wrapper for the local machine. *)
Definition one_wrapper (B : Backend) : state :=
  (WMIWrapper_init B "." cimv2 initial_state).2.

From Stdlib Require Import Sorted.

(* ===================================================================== *)
(** ** wmi_wrapper.py: class listing, class properties, the admin guard *)
(* ===================================================================== *)

(** [sorted(l)] on strings: ascending by code point, a prefix before its
    extensions; equal elements keep their order. *)
Fixpoint insert_sorted (x : string) (l : list string) : list string :=
  match l with
  | [] => [x]
  | y :: rest => if String.leb x y then x :: l else y :: insert_sorted x rest
  end.

Definition sorted (l : list string) : list string :=
  fold_right insert_sorted [] l.

(** The names [list_classes] falls back on when the classes cannot be
    enumerated. *)
Definition fallback_classes : list string :=
  ["Win32_Service"; "Win32_Process"; "Win32_OperatingSystem";
   "Win32_ComputerSystem"; "Win32_LogicalDisk"; "Win32_NetworkAdapter";
   "Win32_NetworkAdapterConfiguration"; "Win32_Processor"; "Win32_BIOS";
   "Win32_PhysicalMemory"; "Win32_BaseBoard"; "Win32_VideoController";
   "Win32_SoundDevice"; "Win32_Printer"; "Win32_Battery";
   "Win32_UserAccount"; "Win32_Group"; "Win32_Share";
   "Win32_StartupCommand"; "Win32_USBController"; "Win32_DiskDrive";
   "Win32_NTEventlogFile"; "Win32_PerfRawData_Tcpip_NetworkInterface"].

Section ShimMore.
Variable B : Backend.

(** The outcome of [str(cls.Path_.Class)] for a record of [meta_class]:
    the text of the class name, or the exception of reading it. *)
Variable Path_Class : wmi_object -> result string.

(** One turn of the loop of [list_classes]: an empty name is left out. *)
Definition list_classes_step (classes : list string) (cls : wmi_object)
  : result (list string) :=
  class_name <~ Path_Class cls ;;
  Ok (if String.eqb class_name "" then classes
      else (classes ++ [class_name])%list).

(** [WMIWrapper.list_classes]: the connection is made outside the [try];
    any exception of the query or of a reading replaces what was collected
    by the fallback names.  [set] keeps the distinct names, in an order
    that [sorted] then fixes. *)
Definition list_classes (self : nat) : M (list string) :=
  conn <- get_connection B self ;;
  target <- target_of conn ;;
  let classes :=
    match (rows <~ conn_query B target "SELECT * FROM meta_class" ;;
           rfor_each rows [] list_classes_step) with
    | Ok classes => classes
    | Raise _ => fallback_classes
    end in
  ret (sorted (remove_dups classes)).

(** [WMIWrapper.get_class_properties] *)
Definition get_class_properties (self : nat) (class_name : string)
  : M (list string) :=
  instances <- get_class B self class_name ∅ ;;
  match instances with
  | first_instance :: _ =>
      ret (List.filter (fun prop => negb (starts_with_underscore prop))
                       (obj_dir first_instance))
  | [] => ret []
  end.

(** [require_admin(func)], applied to its arguments. *)
Definition require_admin {A} (func : M A) : M A :=
  if is_admin B then func
  else raise (Exn PermissionError
         "This operation requires administrator privileges. Please run as administrator.").

End ShimMore.

(* ===================================================================== *)
(** ** modules.py: further methods of the domain modules *)
(* ===================================================================== *)

Module ProcessManager'.
Section Defs.
Variable B : Backend.



End Defs.
End ProcessManager'.

Module NetworkManager.
Section Defs.
Variable B : Backend.

Definition init (computer : string) : M nat := WMIWrapper_init B computer cimv2.

Definition get_adapter_by_description (self : nat) (description : string)
  : M (option (gmap string pyval)) :=
  adapters <- get_network_adapters B self
    (<[ "Description" := VStr description ]> {[ "IPEnabled" := VBool true ]}) ;;
  match adapters with
  | adapter :: _ => ret (Some (wmi_object_to_dict adapter None))
  | [] => ret None
  end.

End Defs.
End NetworkManager.

Module HardwareInfo.
Section Defs.
Variable B : Backend.

Definition init (computer : string) : M nat := WMIWrapper_init B computer cimv2.

Definition get_motherboard_info (self : nat) : M (gmap string pyval) :=
  boards <- get_class B self "Win32_BaseBoard" ∅ ;;
  match boards with
  | board :: _ => ret (wmi_object_to_dict board None)
  | [] => ret ∅
  end.

Definition get_battery_status (self : nat) : M (option (gmap string pyval)) :=
  batteries <- get_class B self "Win32_Battery" ∅ ;;
  match batteries with
  | battery :: _ => ret (Some (wmi_object_to_dict battery None))
  | [] => ret None
  end.

End Defs.
End HardwareInfo.

(* ===================================================================== *)
(** ** Runs of the agent tools *)
(* ===================================================================== *)

(** The state after a tool has run. *)
Definition run_tools (B : Backend) (ts : list Tools.tool) (s : state) : state :=
  fold_left (fun s t => (Tools.run_tool B t s).2) ts s.

(** The state in which the tools work once [_init_wmi] has run: the three
    module globals refer to the three wrappers of the heap, each made for
    the local machine and the default namespace. *)
Definition tools_made (s : state) : Prop :=
  globals s = {| _wrapper := Some 0%nat; _system_mon := Some 1%nat;
                 _process_mgr := Some 2%nat |}
  /\ length (heap s) = 3%nat
  /\ forall self w, heap s !! self = Some w ->
       computer w = "." /\ namespace w = cimv2.

(** A computation that leaves the tools as they are made, and the state
    consistent. *)
Definition keeps_tools {A} (m : M A) : Prop :=
  forall s, tools_made s /\ consistent s ->
            tools_made (m s).2 /\ consistent (m s).2.

(** The state of the tools once the wrapper of [_wrapper] has connected. *)
Definition tools_connected (com : bool) : state :=
  {| _com_initialized := com;
     heap := [ {| computer := "."; namespace := cimv2; _connection := Some 0%nat |};
               {| computer := "."; namespace := cimv2; _connection := None |};
               {| computer := "."; namespace := cimv2; _connection := None |} ];
     opened := [(0%nat, (".", cimv2))]; attempts := 1%nat;
     globals := {| _wrapper := Some 0%nat; _system_mon := Some 1%nat;
                   _process_mgr := Some 2%nat |};
     console := [] |}.

(** The text [list_processes] builds for the processes it shows. *)
Definition process_lines (procs : list wmi_object) : result string :=
  rfor_each (enumerate1 procs)
            ("Running Processes (Top 15 by Memory):" +:+ nl) Tools.process_line.

(* ===================================================================== *)
(** ** cli.py: the [list-classes] command *)
(* ===================================================================== *)




(** A table of at most 10 columns whose rows have one text per column. *)
Definition rectangular (out : output) : Prop :=
  match out with
  | OutTable _ columns rows =>
      (length columns <= 10)%nat
      /\ forall row, In row rows ->
           length row = length columns
           /\ forall c, In c row -> exists text, c = VStr text
  | _ => True
  end.

Module Cli'.
Section Defs.
Variable B : Backend.
Variable Path_Class : wmi_object -> result string.



End Defs.
End Cli'.

(* ===================================================================== *)
(** ** agent.py: the settings of a [WMIAgent] *)
(* ===================================================================== *)

Module Agent.

(** The attributes [WMIAgent.__init__] sets; [deployment_name] and
    [api_version] exist for the Azure provider only, and [_agent] holds
    the chat agent once it is created. *)
Record WMIAgent := {
  provider : string;
  instructions : string;
  name : string;
  model_id : string;
  endpoint : string;
  deployment_name : option string;
  api_version : option string;
  _agent : option unit
}.

(** [x or y] where [x] may be [None]. *)
Definition or_str (x : option string) (y : option string) : option string :=
  match x with
  | Some s => if String.eqb s "" then y else x
  | None => y
  end.

(** [not x] for an optional string. *)
Definition falsy (x : option string) : bool :=
  match x with
  | Some s => String.eqb s ""
  | None => true
  end.

(** [s.endswith('/')] *)
Fixpoint ends_with_slash (s : string) : bool :=
  match s with
  | EmptyString => false
  | String c EmptyString => Ascii.eqb c "/"%char
  | String _ rest => ends_with_slash rest
  end.

Section Defs.
(** The environment variables of the process, and the default
    instructions of the class. *)
Variable environ : gmap string string.
Variable DEFAULT_INSTRUCTIONS : string.

(** [os.getenv(key)] and [os.getenv(key, default)] *)
Definition getenv (key : string) : option string := environ !! key.
Definition getenv_or (key fallback : string) : option string :=
  Some (default fallback (environ !! key)).

Definition init (provider model_id endpoint instructions : option string)
    (name : string) : result WMIAgent :=
  let provider := or_str provider (getenv_or "AGENT_PROVIDER" "ollama") in
  let provider := default "" provider in
  if negb (String.eqb provider "ollama" || String.eqb provider "azure") then
    Raise (Exn ValueError ("Unsupported provider: " +:+ provider
                           +:+ ". Use 'ollama' or 'azure'."))
  else
    let instructions :=
      default "" (or_str instructions (Some DEFAULT_INSTRUCTIONS)) in
    if String.eqb provider "ollama" then
      Ok {| provider := provider; instructions := instructions; name := name;
            model_id := default ""
              (or_str model_id (getenv_or "OLLAMA_MODEL" "gpt-oss:120b"));
            endpoint := default ""
              (or_str endpoint
                 (getenv_or "OLLAMA_ENDPOINT" "http://localhost:11434/v1"));
            deployment_name := None; api_version := None; _agent := None |}
    else
      let deployment_name := or_str model_id (getenv "AZURE_OPENAI_DEPLOYMENT") in
      let endpoint := or_str endpoint (getenv "AZURE_OPENAI_ENDPOINT") in
      let api_version :=
        getenv_or "AZURE_OPENAI_API_VERSION" "2024-08-01-preview" in
      if falsy endpoint then
        Raise (Exn ValueError
          "For Azure provider, AZURE_OPENAI_ENDPOINT environment variable is required")
      else if falsy deployment_name then
        Raise (Exn ValueError
          "For Azure provider, AZURE_OPENAI_DEPLOYMENT environment variable is required")
      else
        let endpoint := default "" endpoint in
        let endpoint :=
          if ends_with_slash endpoint then endpoint else endpoint +:+ "/" in
        Ok {| provider := provider; instructions := instructions; name := name;
              model_id := default "" deployment_name;
              endpoint := endpoint;
              deployment_name := deployment_name; api_version := api_version;
              _agent := None |}.

End Defs.
End Agent.

(* ===================================================================== *)
(** ** Further concrete backends *)
(* ===================================================================== *)

(** A backend whose first attempt to connect fails. *)
Definition flaky : Backend :=
  {| CoInitialize := None;
     wmi_WMI := fun _ _ attempt =>
       if (attempt =? 0)%nat
       then Some (Exn x_wmi "The RPC server is unavailable.")
       else None;
     conn_query := fun _ _ => Ok [];
     class_instances := fun _ _ => Ok [];
     IsUserAnAdmin := Raise (Exn AttributeError "module 'ctypes' has no attribute 'windll'");
     datetime_now := DateTime 2023 11 7 13 30 15 250000;
     rich_render := fun _ => None |}.

(** A record of [meta_class], and the reading of its class name. *)
Definition class_record (name : string) : wmi_object :=
  mk_object [("Class", VStr name)].

Definition read_class (cls : wmi_object) : result string :=
  v <~ obj_getattr cls "Class" ;; str v.

(** A backend that cannot enumerate its classes. *)
Definition no_meta : Backend :=
  {| CoInitialize := None;
     wmi_WMI := fun _ _ _ => None;
     conn_query := fun _ wql =>
       if String.eqb wql "SELECT * FROM meta_class"
       then Raise (Exn x_wmi "Invalid class")
       else Ok [];
     class_instances := fun _ _ => Ok [];
     IsUserAnAdmin := Ok 1;
     datetime_now := DateTime 2023 11 7 13 30 15 250000;
     rich_render := fun _ => None |}.

Definition proc_system : wmi_object :=
  mk_object [("Name", VStr "System"); ("ProcessId", VInt 4);
             ("WorkingSetSize", VStr "8192")].

Definition proc_chrome : wmi_object :=
  mk_object [("Name", VStr "chrome.exe"); ("ProcessId", VInt 100);
             ("WorkingSetSize", VStr "524288000")].

Definition proc_idle : wmi_object :=
  mk_object [("Name", VStr "System Idle Process"); ("ProcessId", VInt 0);
             ("WorkingSetSize", VNone)].

Definition proc_code : wmi_object :=
  mk_object [("Name", VStr "Code.exe"); ("ProcessId", VInt 200);
             ("WorkingSetSize", VStr "104857600")].

(** A machine with 16 GiB of memory, of which 4 GiB are free, two disks
    (the second without a size), four processes, and no BIOS record. *)
Definition workstation : Backend :=
  fixed_backend
    (fun wql =>
       if String.eqb wql "SELECT * FROM meta_class"
       then [class_record "Win32_Service"; class_record "";
             class_record "CIM_Process"; class_record "Win32_Service"]
       else [])
    (fun class_name =>
       if String.eqb class_name "Win32_ComputerSystem"
       then [mk_object [("Name", VStr "PC-01"); ("Manufacturer", VStr "Contoso");
                        ("Model", VStr "X1");
                        ("TotalPhysicalMemory", VStr "17179869184")]]
       else if String.eqb class_name "Win32_OperatingSystem"
       then [mk_object [("Caption", VStr "Microsoft Windows 11 Pro");
                        ("Version", VStr "10.0.22631");
                        ("OSArchitecture", VStr "64-bit");
                        ("FreePhysicalMemory", VStr "4194304");
                        ("LastBootUpTime", VStr "20231106120000.000000+000")]]
       else if String.eqb class_name "Win32_LogicalDisk"
       then [mk_object [("DeviceID", VStr "C:"); ("VolumeName", VStr "System");
                        ("FileSystem", VStr "NTFS"); ("DriveType", VInt 3);
                        ("Size", VStr "1000000"); ("FreeSpace", VStr "250000")];
             mk_object [("DeviceID", VStr "D:"); ("VolumeName", VNone);
                        ("FileSystem", VNone); ("DriveType", VInt 3);
                        ("Size", VNone); ("FreeSpace", VNone)]]
       else if String.eqb class_name "Win32_Process"
       then [proc_system; proc_chrome; proc_idle; proc_code]
       else if String.eqb class_name "Win32_Service"
       then [spooler; fax]
       else []).


(** The text of a property of a record, when it is one. *)
Definition text_of (name : string) (record : wmi_object) : string :=
  match obj_getattr record name with
  | Ok (VStr text) => text
  | _ => ""
  end.

(** What the code reads as the working set of a process, and its size. *)
Definition working_set_of (p : wmi_object) : pyval :=
  match obj_getattr p "WorkingSetSize" with
  | Ok v => v
  | Raise _ => VNone
  end.

Definition size_of (p : wmi_object) : Z :=
  match int (working_set_of p) with
  | Ok n => n
  | Raise _ => 0
  end.

(* ===================================================================== *)
(** ** The shim: connections, filters, getters, conversions *)
(* ===================================================================== *)

Section ShimFacts.
Variable B : Backend.

Lemma get_connection_unfold self s w :
  heap s !! self = Some w ->
  get_connection B self s =
  match _connection w with
  | Some h => (Ok h, s)
  | None =>
      match wmi_WMI B (computer w) (namespace w) (attempts s) with
      | Some e => (Raise e, count_attempt s)
      | None =>
          (Ok (length (opened s)),
           set_connection self (length (opened s))
             (record_opened self (computer w, namespace w) (count_attempt s)))
      end
  end.
Proof.
  intros H. unfold get_connection, bind, deref. rewrite H.
  destruct (_connection w); [reflexivity|].
  unfold get_state, modify, raise, ret. simpl.
  destruct (wmi_WMI B _ _ _); reflexivity.
Qed.

Lemma get_connection_dangling self s :
  heap s !! self = None -> (get_connection B self s).2 = s.
Proof.
  intros H. unfold get_connection, bind, deref. rewrite H. reflexivity.
Qed.

Lemma consistent_initial : consistent initial_state.
Proof.
  split.
  - intros self w h H. simpl in H. rewrite lookup_nil in H. discriminate.
  - intros h self t H. simpl in H. rewrite lookup_nil in H. discriminate.
Qed.

Lemma init_state comp ns s :
  exists c,
    WMIWrapper_init B comp ns s =
    (Ok (length (heap s)),
     {| _com_initialized := c;
        heap := heap s ++ [{| computer := comp; namespace := ns;
                              _connection := None |}];
        opened := opened s; attempts := attempts s;
        globals := globals s; console := console s |}).
Proof.
  unfold WMIWrapper_init, bind, get_state, modify, ret. simpl.
  destruct (_com_initialized s) eqn:E; simpl.
  - eexists. reflexivity.
  - destruct (CoInitialize B); simpl; eexists; reflexivity.
Qed.

Lemma consistent_init comp ns s :
  consistent s -> consistent (WMIWrapper_init B comp ns s).2.
Proof.
  intros [C1 C2]. destruct (init_state comp ns s) as [c ->].
  simpl. split; simpl.
  - intros self w h H Hc.
    apply lookup_app_Some in H as [H | [Hl H]].
    + eauto.
    + apply list_lookup_singleton_Some in H as [_ <-]. discriminate.
  - intros h self t H. destruct (C2 _ _ _ H) as (w & Hw & Hc).
    exists w. split; auto. apply lookup_app_l_Some. auto.
Qed.

Lemma consistent_get_connection self s :
  consistent s -> consistent (get_connection B self s).2.
Proof.
  intros [C1 C2].
  destruct (heap s !! self) as [w|] eqn:Hw.
  2: { rewrite get_connection_dangling by auto. split; auto. }
  rewrite (get_connection_unfold _ _ _ Hw).
  destruct (_connection w) as [h|] eqn:Hc; [split; auto|].
  destruct (wmi_WMI B _ _ _); simpl; [split; auto|].
  assert (Hlen : (self < length (heap s))%nat) by (eapply lookup_lt_Some; eauto).
  split; simpl.
  - intros self' w' h' H Hc'.
    destruct (decide (self' = self)) as [->|Hne].
    + rewrite list_lookup_alter_eq in H. rewrite Hw in H. simpl in H.
      injection H as <-. simpl in *. injection Hc' as <-.
      rewrite lookup_app_r by lia. rewrite Nat.sub_diag. reflexivity.
    + rewrite list_lookup_alter_ne in H by auto.
      apply lookup_app_l_Some. eauto.
  - intros h' self' t H.
    apply lookup_app_Some in H as [H | [Hl H]].
    + destruct (C2 _ _ _ H) as (w' & Hw' & Hc').
      destruct (decide (self' = self)) as [->|Hne].
      * congruence.
      * exists w'. rewrite list_lookup_alter_ne by auto. auto.
    + apply list_lookup_singleton_Some in H as [Hh E]. injection E as <- <-.
      eexists. rewrite list_lookup_alter_eq, Hw. simpl. split; [reflexivity|].
      simpl. f_equal. lia.
Qed.

Lemma query_state self wql s :
  (query B self wql s).2 = (get_connection B self s).2.
Proof.
  unfold query, bind. destruct (get_connection B self s) as [[c|e] s1]; auto.
  unfold target_of. destruct (opened s1 !! c) as [[? ?]|]; reflexivity.
Qed.

Lemma get_class_state self cls kw s :
  (get_class B self cls kw s).2 = (get_connection B self s).2.
Proof.
  unfold get_class, bind. destruct (get_connection B self s) as [[c|e] s1]; auto.
  unfold target_of. destruct (opened s1 !! c) as [[? ?]|]; reflexivity.
Qed.

Lemma consistent_run_call c s : consistent s -> consistent (run_call B c s).
Proof.
  intros H. destruct c; simpl.
  - apply consistent_init; auto.
  - apply consistent_get_connection; auto.
  - rewrite query_state. apply consistent_get_connection; auto.
  - rewrite get_class_state. apply consistent_get_connection; auto.
Qed.

Lemma consistent_run_calls cs s : consistent s -> consistent (run_calls B cs s).
Proof.
  revert s. induction cs as [|c cs IH]; intros s H; simpl; auto.
  apply IH, consistent_run_call, H.
Qed.

Lemma holds_get_connection self' self h s :
  holds self h s -> holds self h (get_connection B self' s).2.
Proof.
  intros (w & Hw & Hc).
  destruct (heap s !! self') as [w'|] eqn:Hw'.
  2: { rewrite get_connection_dangling by auto. exists w. auto. }
  rewrite (get_connection_unfold _ _ _ Hw').
  destruct (_connection w') as [h'|] eqn:Hc'; [exists w; auto|].
  destruct (wmi_WMI B _ _ _); simpl; [exists w; auto|].
  exists w. split; auto. simpl.
  rewrite list_lookup_alter_ne; auto. congruence.
Qed.

Lemma holds_run_call c self h s : holds self h s -> holds self h (run_call B c s).
Proof.
  intros H. destruct c as [comp ns| | |]; simpl.
  - destruct (init_state comp ns s) as [c' ->]. simpl.
    destruct H as (w & Hw & Hc). exists w. split; auto.
    simpl. apply lookup_app_l_Some. auto.
  - apply holds_get_connection; auto.
  - rewrite query_state. apply holds_get_connection; auto.
  - rewrite get_class_state. apply holds_get_connection; auto.
Qed.

Lemma holds_run_calls cs self h s :
  holds self h s -> holds self h (run_calls B cs s).
Proof.
  revert s. induction cs as [|c cs IH]; intros s H; simpl; auto.
  apply IH, holds_run_call, H.
Qed.

Lemma get_connection_holds self s h :
  (get_connection B self s).1 = Ok h -> holds self h (get_connection B self s).2.
Proof.
  destruct (heap s !! self) as [w|] eqn:Hw.
  2: { unfold get_connection, bind, deref. rewrite Hw. discriminate. }
  rewrite (get_connection_unfold _ _ _ Hw).
  destruct (_connection w) as [h'|] eqn:Hc.
  - simpl. intros [= ->]. exists w. auto.
  - destruct (wmi_WMI B _ _ _); simpl; [discriminate|].
    intros [= <-]. eexists. simpl. rewrite list_lookup_alter_eq, Hw. simpl.
    split; reflexivity.
Qed.

Lemma holds_get_connection_same self h s :
  holds self h s -> get_connection B self s = (Ok h, s).
Proof.
  intros (w & Hw & Hc). rewrite (get_connection_unfold _ _ _ Hw), Hc. reflexivity.
Qed.

End ShimFacts.

Lemma filter_at_most_one {A} (P : A -> bool) (l : list A) :
  (forall i j x y, l !! i = Some x -> l !! j = Some y ->
     P x = true -> P y = true -> i = j) ->
  (length (List.filter P l) <= 1)%nat.
Proof.
  induction l as [|x l IH]; intros H; simpl; [lia|].
  destruct (P x) eqn:Px.
  - assert (E : List.filter P l = []).
    { destruct (List.filter P l) as [|y ys] eqn:F; auto.
      assert (In y (List.filter P l)) by (rewrite F; left; auto).
      apply filter_In in H0 as [Hin Py].
      apply list_elem_of_In, list_elem_of_lookup in Hin as [j Hj].
      specialize (H 0%nat (S j) x y eq_refl Hj Px Py). discriminate. }
    simpl. rewrite E. simpl. lia.
  - apply IH. intros i j a b Hi Hj Pa Pb.
    specialize (H (S i) (S j) a b Hi Hj Pa Pb). lia.
Qed.

Lemma no_connection_none_opened (B : Backend) (self : nat) (s : state)
    (w : WMIWrapper) :
  consistent s -> heap s !! self = Some w -> _connection w = None ->
  opened_by self s = [].
Proof.
  intros [C1 C2] Hw Hc. unfold opened_by.
  destruct (List.filter _ (opened s)) as [|[o t] rest] eqn:F; [reflexivity|].
  assert (Hin : In (o, t) (List.filter (fun o => Nat.eqb o.1 self) (opened s)))
    by (rewrite F; left; reflexivity).
  apply filter_In in Hin as [Hin Ho]. simpl in Ho. apply Nat.eqb_eq in Ho. subst o.
  apply list_elem_of_In, list_elem_of_lookup in Hin as [h Hh].
  destruct (C2 _ _ _ Hh) as (w' & Hw' & Hc'). congruence.
Qed.

(** Claim C7: a wrapper constructs its connection lazily and at most
    once.  After any sequence of calls on any wrappers of a fresh process:
    a wrapper has constructed at most one connection; constructing a
    wrapper opens nothing; a wrapper that holds no connection has
    constructed none, and its next [get_connection], when the constructor
    of the library succeeds, opens exactly one connection, to its own
    computer and namespace, and keeps it; and once [get_connection] has
    returned a handle, every later call on that wrapper, after any further
    calls, returns the same handle and leaves the state as it was. *)
Theorem connection_created_at_most_once (B : Backend) (cs : list call) (self : nat) :
  let s := run_calls B cs initial_state in
  (length (opened_by self s) <= 1)%nat
  /\ (forall comp ns,
        let made := WMIWrapper_init B comp ns s in
        made.1 = Ok (length (heap s))
        /\ heap made.2 !! length (heap s)
           = Some {| computer := comp; namespace := ns; _connection := None |}
        /\ opened made.2 = opened s)
  /\ (forall w, heap s !! self = Some w -> _connection w = None ->
        opened_by self s = []
        /\ (wmi_WMI B (computer w) (namespace w) (attempts s) = None ->
            let r := get_connection B self s in
            r.1 = Ok (length (opened s))
            /\ opened r.2 = (opened s ++ [(self, (computer w, namespace w))])%list
            /\ holds self (length (opened s)) r.2))
  /\ (forall h, (get_connection B self s).1 = Ok h ->
        forall cs',
          let s' := run_calls B cs' (get_connection B self s).2 in
          get_connection B self s' = (Ok h, s')).
Proof.
  cbn zeta.
  pose proof (consistent_run_calls B cs _ consistent_initial) as C.
  set (s := run_calls B cs initial_state) in *.
  split; [|split; [|split]].
  - destruct C as [C1 C2].
    unfold opened_by. apply filter_at_most_one.
    intros i j [o1 t1] [o2 t2] Hi Hj P1 P2. simpl in *.
    apply Nat.eqb_eq in P1, P2. subst.
    destruct (C2 _ _ _ Hi) as (w1 & Hw1 & Hc1).
    destruct (C2 _ _ _ Hj) as (w2 & Hw2 & Hc2).
    congruence.
  - intros comp ns. destruct (init_state B comp ns s) as [c ->].
    cbn [fst snd heap opened].
    split; [reflexivity|]. split; [|reflexivity].
    rewrite lookup_app_r by lia. rewrite Nat.sub_diag. reflexivity.
  - intros w Hw Hc. split; [exact (no_connection_none_opened B self s w C Hw Hc)|].
    intros Hnew. rewrite (get_connection_unfold B _ _ _ Hw), Hc, Hnew.
    cbn [fst snd]. split; [reflexivity|]. split; [reflexivity|].
    eexists. cbn [heap set_connection]. rewrite list_lookup_alter_eq.
    cbn [heap record_opened count_attempt]. rewrite Hw. cbn. split; reflexivity.
  - intros h Hh cs'.
    apply holds_get_connection_same, holds_run_calls, get_connection_holds, Hh.
Qed.

Lemma matches_spec (kwargs : gmap string pyval) (o : wmi_object) :
  matches kwargs o = true <->
  forall k v, kwargs !! k = Some v -> obj_getattr o k = Ok v.
Proof.
  unfold matches. rewrite forallb_forall. split.
  - intros H k v Hk.
    apply elem_of_map_to_list, list_elem_of_In in Hk.
    specialize (H _ Hk). simpl in H.
    destruct (obj_getattr o k); [|discriminate].
    apply bool_decide_eq_true in H. congruence.
  - intros H [k v] Hin. simpl.
    apply list_elem_of_In, elem_of_map_to_list in Hin.
    rewrite (H _ _ Hin). apply bool_decide_eq_true. reflexivity.
Qed.

Lemma get_connection_target B self s w conn :
  consistent s -> heap s !! self = Some w ->
  (get_connection B self s).1 = Ok conn ->
  opened (get_connection B self s).2 !! conn
  = Some (self, (computer w, namespace w)).
Proof.
  intros C Hw Hc.
  pose proof (consistent_get_connection B self s C) as [C1 _].
  pose proof (get_connection_holds B self s conn Hc) as (w' & Hw' & Hc').
  rewrite (C1 _ _ _ Hw' Hc'). f_equal. f_equal.
  revert Hw'. rewrite (get_connection_unfold B _ _ _ Hw).
  destruct (_connection w); [simpl; congruence|].
  destruct (wmi_WMI B _ _ _); simpl; [congruence|].
  rewrite list_lookup_alter_eq, Hw. simpl. intros [= <-]. reflexivity.
Qed.

(** Claim C3: [get_class] with a filter returns exactly the instances of
    the class whose named properties equal the given values, in their
    order -- over the class call of the client library as the
    specification describes it ([class_call]), whenever the connection is
    had and the class can be enumerated. *)
Theorem get_class_exact_match (B : Backend) (self : nat) (class_name : string)
    (kwargs : gmap string pyval) (s : state) (w : WMIWrapper) (conn : nat)
    (instances : list wmi_object) :
  consistent s ->
  heap s !! self = Some w ->
  (get_connection B self s).1 = Ok conn ->
  class_instances B (computer w, namespace w) class_name = Ok instances ->
  exists results,
    (get_class B self class_name kwargs s).1 = Ok results /\
    results = List.filter (matches kwargs) instances /\
    forall r, In r results <->
      In r instances /\
      forall k v, kwargs !! k = Some v -> obj_getattr r k = Ok v.
Proof.
  intros C Hw Hc Hi.
  pose proof (get_connection_target B self s w conn C Hw Hc) as Ht.
  exists (List.filter (matches kwargs) instances). split; [|split; auto].
  - unfold get_class, bind.
    destruct (get_connection B self s) as [[c|e] s1]; simpl in *; [|discriminate].
    injection Hc as ->. unfold target_of. rewrite Ht.
    unfold lift, class_call. rewrite Hi. reflexivity.
  - intros r. rewrite filter_In, matches_spec. reflexivity.
Qed.

(** Claim C10: each singleton getter returns [None] when the class fetch
    returns an empty sequence, and its first element otherwise. *)
Theorem singleton_getters_first_or_none (B : Backend) (self : nat) (s : state) :
  (forall results,
     (get_class B self "Win32_OperatingSystem" ∅ s).1 = Ok results ->
     (get_operating_system B self s).1
     = Ok (match results with [] => None | x :: _ => Some x end))
  /\ (forall results,
     (get_class B self "Win32_ComputerSystem" ∅ s).1 = Ok results ->
     (get_computer_system B self s).1
     = Ok (match results with [] => None | x :: _ => Some x end))
  /\ (forall results,
     (get_class B self "Win32_BIOS" ∅ s).1 = Ok results ->
     (get_bios B self s).1
     = Ok (match results with [] => None | x :: _ => Some x end)).
Proof.
  repeat split; intros results H;
    unfold get_operating_system, get_computer_system, get_bios, bind;
    match goal with
    | |- context [get_class B self ?c ∅ s] =>
        destruct (get_class B self c ∅ s) as [[r|e] s1]
    end; simpl in *; try discriminate;
    injection H as ->; destruct results; reflexivity.
Qed.

Lemma slice_to_nonneg {A} (l : list A) (k : Z) :
  0 <= k -> slice_to l k = firstn (Z.to_nat k) l.
Proof. intros. unfold slice_to. destruct (Z.leb_spec 0 k); [reflexivity | lia]. Qed.


Section ToDict.
Variable o : wmi_object.

Lemma to_dict_fold_callable props (acc : gmap string pyval) prop :
  obj_getattr o prop = Ok VMethod -> acc !! prop = None ->
  fold_left (to_dict_step o) props acc !! prop = None.
Proof.
  intros Hm. revert acc. induction props as [|p props IH]; intros acc Ha; simpl; auto.
  apply IH. unfold to_dict_step.
  destruct (decide (p = prop)) as [->|Hne].
  - rewrite Hm. simpl. auto.
  - destruct (obj_getattr o p) as [v|e].
    + destruct (callable v); auto. rewrite lookup_insert_ne; auto.
    + rewrite lookup_insert_ne; auto.
Qed.

Lemma to_dict_fold_values props (acc : gmap string pyval) :
  (forall k v, acc !! k = Some v -> callable v = false) ->
  forall k v, fold_left (to_dict_step o) props acc !! k = Some v ->
              callable v = false.
Proof.
  revert acc. induction props as [|p props IH]; intros acc Ha k v; simpl; eauto.
  apply IH. intros k' v'. unfold to_dict_step.
  destruct (obj_getattr o p) as [x|e].
  - destruct (callable x) eqn:Cx; eauto.
    destruct (decide (p = k')) as [->|Hne].
    + rewrite lookup_insert_eq. congruence.
    + rewrite lookup_insert_ne; eauto.
  - destruct (decide (p = k')) as [->|Hne].
    + rewrite lookup_insert_eq. intros [= <-]. reflexivity.
    + rewrite lookup_insert_ne; eauto.
Qed.

Lemma to_dict_fold_keep_none props (acc : gmap string pyval) prop e :
  obj_getattr o prop = Raise e -> acc !! prop = Some VNone ->
  fold_left (to_dict_step o) props acc !! prop = Some VNone.
Proof.
  intros Hr. revert acc. induction props as [|p props IH]; intros acc Ha; simpl; auto.
  apply IH. unfold to_dict_step.
  destruct (decide (p = prop)) as [->|Hne].
  - rewrite Hr. apply lookup_insert_eq.
  - destruct (obj_getattr o p) as [v|e'].
    + destruct (callable v); auto. rewrite lookup_insert_ne; auto.
    + rewrite lookup_insert_ne; auto.
Qed.

Lemma to_dict_fold_raises props (acc : gmap string pyval) prop e :
  obj_getattr o prop = Raise e -> In prop props ->
  fold_left (to_dict_step o) props acc !! prop = Some VNone.
Proof.
  intros Hr. revert acc. induction props as [|p props IH]; intros acc Hin; simpl.
  - destruct Hin.
  - destruct (string_dec p prop) as [->|Hne].
    + apply (to_dict_fold_keep_none _ _ _ e); auto.
      unfold to_dict_step. rewrite Hr. apply lookup_insert_eq.
    + apply IH. destruct Hin; [contradiction | auto].
Qed.

End ToDict.

(** Claim C4: in the mapping [wmi_object_to_dict] returns, no property
    whose value is callable is a key, no value is callable, and every
    requested property whose access raises is mapped to [None]. *)
Theorem to_dict_skips_methods_and_nulls_failures (o : wmi_object)
    (properties : option (list string)) :
  let d := wmi_object_to_dict o properties in
  (forall prop, obj_getattr o prop = Ok VMethod -> d !! prop = None)
  /\ (forall prop v, d !! prop = Some v -> callable v = false)
  /\ (forall prop e, In prop (requested o properties) ->
        obj_getattr o prop = Raise e -> d !! prop = Some VNone).
Proof.
  cbn zeta. unfold wmi_object_to_dict. fold (requested o properties).
  repeat split.
  - intros prop H. apply to_dict_fold_callable; auto.
  - intros prop v. apply to_dict_fold_values. intros k v'.
    rewrite lookup_empty. discriminate.
  - intros prop e Hin Hr. eapply to_dict_fold_raises; eauto.
Qed.

(* ===================================================================== *)
(** ** The tools and the commands *)
(* ===================================================================== *)

Lemma bind_ok {A C} (m : M A) (k : A -> M C) s a s' :
  m s = (Ok a, s') -> bind m k s = k a s'.
Proof. intros H. unfold bind. rewrite H. reflexivity. Qed.

Lemma bind_raise {A C} (m : M A) (k : A -> M C) s e s' :
  m s = (Raise e, s') -> bind m k s = (Raise e, s').
Proof. intros H. unfold bind. rewrite H. reflexivity. Qed.

Lemma bind_raise_fst {A C} (m : M A) (k : A -> M C) s e :
  (m s).1 = Raise e -> (bind m k s).1 = Raise e.
Proof.
  unfold bind. destruct (m s) as [[a|e'] s']; simpl; [discriminate |].
  intros [= ->]. reflexivity.
Qed.

(** Claim C1 (the used percentage of a total of 0), at the inputs where
    the code parts from it: on a machine that reports a total memory of 0,
    [SystemMonitor.get_memory_info] raises [ZeroDivisionError], which the
    agent tool turns into an error text; [SystemMonitor.get_disk_usage]
    raises it for a disk whose [Size] is the text "0"; the computations of
    the [get_disk_info] tool and of the [disks] command return 0. *)
Theorem zero_total_memory_divides_by_zero :
  (SystemMonitor.get_memory_info no_memory 0 (one_wrapper no_memory)).1
    = Raise (Exn ZeroDivisionError "division by zero")
  /\ (Tools.get_memory_info no_memory initial_state).1
    = Ok "Error getting memory info: division by zero"
  /\ (SystemMonitor.get_disk_usage no_memory 0 (one_wrapper no_memory)).1
    = Raise (Exn ZeroDivisionError "division by zero")
  /\ (forall free, Tools.used_pct 0 free = Ok (NInt 0))
  /\ (forall free, Cli.used_pct 0 free = Ok (NInt 0)).
Proof.
  repeat split; vm_compute; reflexivity.
Qed.

(** Claim C5 as stated fails: against a backend that returns the two
    service records, [list_services] with state "Running" returns a text
    that lists both, not the text of the Spooler record alone. *)
Lemma list_services_renders_both_records :
  (Tools.list_services two_services (Some "Running") initial_state).1
  = Ok ("Windows Services (2):" +:+ nl +:+
        "  1. Spooler - Running" +:+ nl +:+
        "     Display: Print Spooler" +:+ nl +:+
        "  2. Fax - Stopped" +:+ nl +:+
        "     Display: Fax" +:+ nl)
  /\ (Tools.list_services two_services (Some "Running") initial_state).1
     <> Ok (one_service_text "Spooler" "Running" "Print Spooler").
Proof.
  split; vm_compute; [reflexivity | discriminate].
Qed.

Lemma tools_init (B : Backend) :
  exists com, Tools._init_wmi B initial_state = (Ok tt, tools_ready com).
Proof.
  unfold Tools._init_wmi, SystemMonitor.init, ProcessManager.init,
    WMIWrapper_init, bind, get_state, modify, ret, initial_state, tools_ready.
  cbn. destruct (CoInitialize B); cbn; eexists; reflexivity.
Qed.

Lemma consistent_tools_ready com : consistent (tools_ready com).
Proof.
  split.
  - intros self w h Hw Hc. unfold tools_ready in Hw. cbn [heap] in Hw.
    destruct self as [|[|[|self]]]; simpl in Hw; try discriminate;
      injection Hw as <-; discriminate Hc.
  - intros h self t H. unfold tools_ready in H. cbn [opened] in H.
    rewrite lookup_nil in H. discriminate.
Qed.

(** What a query through a wrapper returns, once its connection is had. *)
Lemma query_result (B : Backend) self s w wql conn :
  consistent s -> heap s !! self = Some w ->
  (get_connection B self s).1 = Ok conn ->
  (query B self wql s).1 = conn_query B (computer w, namespace w) wql.
Proof.
  intros C Hw Hc.
  pose proof (get_connection_target B self s w conn C Hw Hc) as Ht.
  unfold query, bind.
  destruct (get_connection B self s) as [[c|e] s1]; simpl in *; [|discriminate].
  injection Hc as ->. unfold target_of. rewrite Ht. reflexivity.
Qed.

Lemma append_nil_r s : s +:+ "" = s.
Proof.
  induction s as [|c s IH]; [reflexivity|].
  change (String c s +:+ "") with (String c (s +:+ "")). rewrite IH. reflexivity.
Qed.

Lemma append_assoc s t u : (s +:+ t) +:+ u = s +:+ (t +:+ u).
Proof.
  induction s as [|c s IH]; [reflexivity|].
  change (String c (s +:+ t) +:+ u = String c (s +:+ t +:+ u)).
  change (String c ((s +:+ t) +:+ u) = String c (s +:+ t +:+ u)).
  rewrite IH. reflexivity.
Qed.

(** The lines of the records of a list, ranked from [start + 1]. *)
Lemma service_lines_from (name st display : wmi_object -> string)
    (l : list wmi_object) (start : nat) (acc : string) :
  (forall r, In r l ->
     obj_getattr r "Name" = Ok (VStr (name r))
     /\ obj_getattr r "State" = Ok (VStr (st r))
     /\ obj_getattr r "DisplayName" = Ok (VStr (display r))) ->
  rfor_each (combine (List.map (fun i => Z.of_nat (S i)) (seq start (length l))) l)
            acc Tools.service_line
  = Ok (acc +:+ String.concat ""
          (List.map (fun ir : Z * wmi_object =>
                       service_entry ir.1 (name ir.2) (st ir.2) (display ir.2))
             (combine (List.map (fun i => Z.of_nat (S i)) (seq start (length l))) l))).
Proof.
  revert start acc. induction l as [|r l IH]; intros start acc H.
  - cbn. rewrite append_nil_r. reflexivity.
  - destruct (H r (or_introl eq_refl)) as (Hn & Hs & Hd).
    cbn [length seq List.map combine rfor_each].
    unfold Tools.service_line at 1, fattr, attr. rewrite Hn, Hs, Hd.
    cbn [rbind str].
    rewrite IH by (intros r' Hr'; apply H; right; exact Hr').
    f_equal. cbn [fst snd].
    set (rest := List.map _ (combine _ l)).
    assert (E : forall x ys, String.concat "" (x :: ys) = x +:+ String.concat "" ys).
    { intros x [|y ys]; cbn [String.concat];
        [symmetry; apply append_nil_r | reflexivity]. }
    rewrite E. unfold service_entry. rewrite !append_assoc. reflexivity.
Qed.

(** Claim C5, amended: [list_services] with the state "Running" sends
    the query with the clause [WHERE State = 'Running'] to the backend and
    renders what comes back, filtering nothing itself: the count of the
    records, the two lines of each of the first 20 records, whatever their
    state, and the number of those left out.  Given a backend that answers
    this query with exactly one record, it returns the text of that record
    alone. *)
Theorem list_services_renders_backend_answer (B : Backend)
    (records : list wmi_object) (name st display : wmi_object -> string) :
  wmi_WMI B "." cimv2 0%nat = None ->
  conn_query B (".", cimv2)
    "SELECT Name, DisplayName, State, StartMode, Status FROM Win32_Service WHERE State = 'Running'"
  = Ok records ->
  (forall r, In r (firstn 20 records) ->
     obj_getattr r "Name" = Ok (VStr (name r))
     /\ obj_getattr r "State" = Ok (VStr (st r))
     /\ obj_getattr r "DisplayName" = Ok (VStr (display r))) ->
  (Tools.list_services B (Some "Running") initial_state).1
  = Ok ("Windows Services (" +:+ str_int (Z.of_nat (length records)) +:+ "):" +:+ nl
        +:+ String.concat ""
              (List.map (fun ir : Z * wmi_object =>
                           service_entry ir.1 (name ir.2) (st ir.2) (display ir.2))
                 (enumerate1 (firstn 20 records)))
        +:+ services_left_out (Z.of_nat (length records)))
  /\ (forall record, records = [record] ->
       (Tools.list_services B (Some "Running") initial_state).1
       = Ok (one_service_text (name record) (st record) (display record))).
Proof.
  intros Hconn Hq Hfields.
  destruct (tools_init B) as [com Hinit].
  set (s0 := tools_ready com) in *.
  set (w0 := {| computer := "."; namespace := cimv2; _connection := None |}).
  assert (Hw : heap s0 !! 0%nat = Some w0) by reflexivity.
  assert (Hc : (get_connection B 0 s0).1 = Ok 0%nat).
  { rewrite (get_connection_unfold B _ _ _ Hw). cbn [_connection w0].
    change (attempts s0) with 0%nat. cbn [computer namespace w0].
    rewrite Hconn. reflexivity. }
  pose proof (query_result B 0%nat s0 w0
                "SELECT Name, DisplayName, State, StartMode, Status FROM Win32_Service WHERE State = 'Running'"
                0%nat (consistent_tools_ready com) Hw Hc) as Hres.
  cbn [computer namespace w0] in Hres. rewrite Hq in Hres.
  assert (Htext :
    (Tools.list_services B (Some "Running") initial_state).1
    = match Tools.services_text records with
      | Ok text => Ok text
      | Raise e => Ok ("Error listing services: " +:+ str_exn e +:+ "")
      end).
  { unfold Tools.list_services, Tools.ai_tool, try_except, Tools.list_services_body.
    rewrite (bind_ok _ _ _ _ _ Hinit).
    rewrite (bind_ok _ _ s0 0%nat s0) by reflexivity.
    change (Tools.services_query (Some "Running"))
      with "SELECT Name, DisplayName, State, StartMode, Status FROM Win32_Service WHERE State = 'Running'".
    unfold bind.
    destruct (query B 0 _ s0) as [[r|e] s1]; simpl in Hres; [|discriminate].
    injection Hres as ->. unfold lift.
    destruct (Tools.services_text records); reflexivity. }
  assert (Hgen : Tools.services_text records
    = Ok ("Windows Services (" +:+ str_int (Z.of_nat (length records)) +:+ "):" +:+ nl
          +:+ String.concat ""
                (List.map (fun ir : Z * wmi_object =>
                             service_entry ir.1 (name ir.2) (st ir.2) (display ir.2))
                   (enumerate1 (firstn 20 records)))
          +:+ services_left_out (Z.of_nat (length records)))).
  { unfold Tools.services_text.
    rewrite slice_to_nonneg by lia. change (Z.to_nat 20) with 20%nat.
    unfold enumerate1.
    rewrite (service_lines_from name st display (firstn 20 records) 0 _ Hfields).
    cbn [rbind]. unfold services_left_out.
    destruct (20 <? Z.of_nat (length records)); rewrite ?append_nil_r, ?append_assoc;
      reflexivity. }
  split.
  - rewrite Htext, Hgen. reflexivity.
  - intros record ->. rewrite Htext, Hgen. f_equal.
    cbn [length firstn]. unfold enumerate1. cbn [length seq List.map combine].
    cbn [String.concat fst snd]. unfold services_left_out, service_entry, one_service_text.
    change (20 <? Z.of_nat 1) with false. cbv iota.
    change (str_int (Z.of_nat 1)) with "1". change (str_int (Z.of_nat 1%nat)) with "1".
    rewrite !append_assoc, ?append_nil_r. cbv [String.append nl]. reflexivity.
Qed.


Lemma ai_tool_ok prefix suffix (body : M string) s text :
  (body s).1 = Ok text -> (Tools.ai_tool prefix suffix body s).1 = Ok text.
Proof.
  unfold Tools.ai_tool, try_except.
  destruct (body s) as [[a|e] s']; simpl; [auto | discriminate].
Qed.

Lemma ai_tool_raise prefix suffix (body : M string) s e :
  (body s).1 = Raise e ->
  (Tools.ai_tool prefix suffix body s).1 = Ok (prefix +:+ str_exn e +:+ suffix).
Proof.
  unfold Tools.ai_tool, try_except.
  destruct (body s) as [[a|e'] s']; simpl; [discriminate |].
  intros [= ->]. reflexivity.
Qed.

Lemma run_tool_shape (B : Backend) (t : Tools.tool) :
  exists prefix suffix,
    Tools.run_tool B t = Tools.ai_tool prefix suffix (Tools.tool_body B t)
    /\ forall e, Tools.error_text t e = prefix +:+ str_exn e +:+ suffix.
Proof.
  destruct t; cbn [Tools.run_tool Tools.tool_body Tools.error_text];
    unfold Tools.get_system_info, Tools.get_memory_info, Tools.get_cpu_info,
      Tools.get_disk_info, Tools.get_network_info, Tools.get_uptime,
      Tools.check_admin_privileges, Tools.list_services,
      Tools.get_service_status, Tools.list_processes,
      Tools.get_process_performance, Tools.execute_wql_query;
    do 2 eexists; (split; [reflexivity|]); intros e;
    rewrite ?append_nil_r; reflexivity.
Qed.












(* ===================================================================== *)
(** ** Rounding to binary64, and [format_bytes] *)
(* ===================================================================== *)

Import Float.

Lemma pow2_pos e : (0 < pow2 e)%Q.
Proof.
  unfold pow2. destruct (Z.leb_spec 0 e).
  - assert (0 < 2 ^ e) by (apply Z.pow_pos_nonneg; lia).
    unfold Qlt; simpl; lia.
  - apply Qinv_lt_0_compat.
    assert (0 < 2 ^ (- e)) by (apply Z.pow_pos_nonneg; lia).
    unfold Qlt; simpl; lia.
Qed.

Lemma pow2_nonneg_eq e : 0 <= e -> pow2 e = inject_Z (2 ^ e).
Proof. intros. unfold pow2. destruct (Z.leb_spec 0 e); [reflexivity | lia]. Qed.

Lemma pow2_neg_eq e : e < 0 -> pow2 e = Qinv (inject_Z (2 ^ (- e))).
Proof. intros. unfold pow2. destruct (Z.leb_spec 0 e); [lia | reflexivity]. Qed.

Lemma inject_pow2_nz k : 0 <= k -> ~ (inject_Z (2 ^ k) == 0)%Q.
Proof.
  intros. assert (0 < 2 ^ k) by (apply Z.pow_pos_nonneg; lia).
  unfold Qeq; simpl; lia.
Qed.

Lemma pow2_succ e : (pow2 (e + 1) == 2 * pow2 e)%Q.
Proof.
  destruct (Z.leb_spec 0 e).
  - rewrite !pow2_nonneg_eq by lia. rewrite Z.pow_add_r by lia.
    rewrite inject_Z_mult. change (inject_Z (2 ^ 1)) with 2%Q. ring.
  - destruct (Z.eq_dec e (-1)) as [->|].
    + reflexivity.
    + rewrite !pow2_neg_eq by lia.
      replace (- e) with (- (e + 1) + 1) by lia.
      rewrite Z.pow_add_r by lia. rewrite inject_Z_mult.
      change (inject_Z (2 ^ 1)) with 2%Q.
      replace (- (- (e + 1) + 1) + 1) with (e + 1) by lia.
      pose proof (inject_pow2_nz (- (e + 1)) ltac:(lia)).
      field. auto.
Qed.

Lemma pow2_add_nat e (n : nat) : (pow2 (e + Z.of_nat n) == pow2 e * inject_Z (2 ^ Z.of_nat n))%Q.
Proof.
  induction n.
  - change (Z.of_nat 0) with 0. rewrite Z.add_0_r.
    change (inject_Z (2 ^ 0)) with 1%Q. ring.
  - rewrite Nat2Z.inj_succ. unfold Z.succ. rewrite Z.add_assoc, pow2_succ, IHn.
    rewrite Z.pow_add_r by lia. rewrite inject_Z_mult.
    change (inject_Z (2 ^ 1)) with 2%Q. ring.
Qed.

Lemma pow2_add_nonneg e k : 0 <= k -> (pow2 (e + k) == pow2 e * inject_Z (2 ^ k))%Q.
Proof.
  intros. rewrite <- (Z2Nat.id k) by lia. apply pow2_add_nat.
Qed.

Lemma pow2_add x y : (pow2 (x + y) == pow2 x * pow2 y)%Q.
Proof.
  destruct (Z.leb_spec 0 y).
  - rewrite pow2_add_nonneg by lia. rewrite (pow2_nonneg_eq y) by lia. reflexivity.
  - pose proof (pow2_add_nonneg (x + y) (- y) ltac:(lia)) as E.
    replace (x + y + - y) with x in E by lia.
    rewrite E, (pow2_neg_eq y) by lia.
    pose proof (inject_pow2_nz (- y) ltac:(lia)).
    field. auto.
Qed.

Lemma pow2_le_mono x y : x <= y -> (pow2 x <= pow2 y)%Q.
Proof.
  intros. replace y with (x + (y - x)) by lia.
  rewrite pow2_add_nonneg by lia.
  assert (1 <= 2 ^ (y - x)) by (pose proof (Z.pow_pos_nonneg 2 (y - x)); lia).
  assert (1 <= inject_Z (2 ^ (y - x)))%Q by (unfold Qle; simpl; lia).
  pose proof (pow2_pos x). nra.
Qed.

Lemma pow2_lt_mono x y : x < y -> (pow2 x < pow2 y)%Q.
Proof.
  intros. apply Qlt_le_trans with (pow2 (x + 1)).
  - rewrite pow2_succ. pose proof (pow2_pos x). lra.
  - apply pow2_le_mono. lia.
Qed.

Lemma pow2_lt_inv x y : (pow2 x < pow2 y)%Q -> x < y.
Proof.
  intros. destruct (Z.lt_ge_cases x y); [assumption|].
  pose proof (pow2_le_mono y x ltac:(lia)). lra.
Qed.

Lemma pow2_le_inv x y : (pow2 x <= pow2 y)%Q -> x <= y.
Proof.
  intros. destruct (Z.le_gt_cases x y); [assumption|].
  pose proof (pow2_lt_mono y x ltac:(lia)). lra.
Qed.

Lemma inject_pos b : 0 < b -> (0 < inject_Z b)%Q.
Proof. intros. unfold Qlt; simpl; lia. Qed.

Lemma ratio_ge lo a b : 0 < b -> (inject_Z lo <= ratio a b)%Q <-> lo * b <= a.
Proof.
  intros Hb. unfold ratio. pose proof (inject_pos b Hb).
  split; intros.
  - assert (inject_Z lo * inject_Z b <= inject_Z a)%Q.
    { assert (E : (inject_Z a == inject_Z a / inject_Z b * inject_Z b)%Q)
        by (field; lra).
      set (x := (inject_Z a / inject_Z b)%Q) in *. nra. }
    rewrite <- inject_Z_mult in H1. rewrite <- Zle_Qle in H1. lia.
  - apply Qle_shift_div_l; auto.
    rewrite <- inject_Z_mult. rewrite <- Zle_Qle. lia.
Qed.

Lemma ratio_le hi a b : 0 < b -> (ratio a b <= inject_Z hi)%Q <-> a <= hi * b.
Proof.
  intros Hb. unfold ratio. pose proof (inject_pos b Hb).
  split; intros.
  - assert (inject_Z a <= inject_Z hi * inject_Z b)%Q.
    { assert (E : (inject_Z a == inject_Z a / inject_Z b * inject_Z b)%Q)
        by (field; lra).
      set (x := (inject_Z a / inject_Z b)%Q) in *. nra. }
    rewrite <- inject_Z_mult in H1. rewrite <- Zle_Qle in H1. lia.
  - apply Qle_shift_div_r; auto.
    rewrite <- inject_Z_mult. rewrite <- Zle_Qle. lia.
Qed.

Lemma ratio_eq m a b : 0 < b -> (ratio a b == inject_Z m)%Q <-> a = m * b.
Proof.
  intros Hb. split; intros.
  - assert (m * b <= a) by (apply ratio_ge; auto; lra).
    assert (a <= m * b) by (apply ratio_le; auto; lra). lia.
  - apply Qle_antisym; [apply ratio_le | apply ratio_ge]; auto; lia.
Qed.

Lemma round_half_even_spec a b :
  0 < b -> let M := round_half_even a b in - b <= 2 * (M * b - a) <= b.
Proof.
  intros Hb. unfold round_half_even.
  pose proof (Z.div_mod a b ltac:(lia)) as E.
  pose proof (Z.mod_pos_bound a b Hb) as R.
  destruct (Z.ltb_spec (2 * (a mod b)) b); [cbn zeta; nia|].
  destruct (Z.ltb_spec b (2 * (a mod b))); [cbn zeta; nia|].
  destruct (Z.even (a / b)); cbn zeta; nia.
Qed.

Lemma round_half_even_exact m b : 0 < b -> round_half_even (m * b) b = m.
Proof. intros Hb. pose proof (round_half_even_spec (m * b) b Hb). cbn zeta in H. nia. Qed.

Lemma round_half_even_lower lo a b :
  0 < b -> lo * b <= a -> lo <= round_half_even a b.
Proof. intros Hb H. pose proof (round_half_even_spec a b Hb). cbn zeta in *. nia. Qed.

Lemma round_half_even_upper hi a b :
  0 < b -> a <= hi * b -> round_half_even a b <= hi.
Proof. intros Hb H. pose proof (round_half_even_spec a b Hb). cbn zeta in *. nia. Qed.

Lemma round_half_even_below hi a b :
  0 < b -> 2 * a < (2 * hi - 1) * b -> round_half_even a b <= hi - 1.
Proof. intros Hb H. pose proof (round_half_even_spec a b Hb). cbn zeta in *. nia. Qed.

Lemma round_half_even_tie hi a b :
  0 < b -> (2 * hi - 1) * b <= 2 * a -> Z.even hi = true ->
  hi <= round_half_even a b.
Proof.
  intros Hb H Hev. unfold round_half_even.
  pose proof (Z.div_mod a b ltac:(lia)) as E.
  pose proof (Z.mod_pos_bound a b Hb) as R.
  set (f := a / b) in *. set (r := a mod b) in *.
  assert (Hf : hi <= f + 1) by nia.
  destruct (Z.ltb_spec (2 * r) b); [nia|].
  destruct (Z.ltb_spec b (2 * r)); [lia|].
  destruct (Z.even f) eqn:Ef; [|lia].
  destruct (Z.eq_dec hi (f + 1)) as [->|]; [|lia].
  rewrite Z.even_add, Ef in Hev. discriminate.
Qed.

Lemma scale2_spec a b e :
  0 < b ->
  0 < (scale2 a b e).2 /\ (0 < a -> 0 < (scale2 a b e).1) /\
  (ratio (scale2 a b e).1 (scale2 a b e).2 == ratio a b / pow2 e)%Q.
Proof.
  intros Hb. unfold scale2, ratio. pose proof (inject_pos b Hb).
  destruct (Z.leb_spec 0 e); simpl.
  - assert (0 < 2 ^ e) by (apply Z.pow_pos_nonneg; lia).
    repeat split; try nia.
    rewrite pow2_nonneg_eq by lia. rewrite inject_Z_mult.
    pose proof (inject_pos _ H1). field. split; lra.
  - assert (0 < 2 ^ (- e)) by (apply Z.pow_pos_nonneg; lia).
    repeat split; try nia.
    rewrite pow2_neg_eq by lia. rewrite inject_Z_mult.
    pose proof (inject_pos _ H1). field. split; lra.
Qed.

Lemma flog2_spec a b :
  0 < a -> 0 < b ->
  (pow2 (flog2 a b) <= ratio a b < pow2 (flog2 a b + 1))%Q.
Proof.
  intros Ha Hb.
  pose proof (Z.log2_spec a Ha) as [La Ua].
  pose proof (Z.log2_spec b Hb) as [Lb Ub].
  pose proof (Z.log2_nonneg a). pose proof (Z.log2_nonneg b).
  unfold Z.succ in *.
  (* in Q *)
  assert (QLa : (pow2 (Z.log2 a) <= inject_Z a)%Q)
    by (rewrite pow2_nonneg_eq by lia; rewrite <- Zle_Qle; lia).
  assert (QUa : (inject_Z a < pow2 (Z.log2 a + 1))%Q)
    by (rewrite pow2_nonneg_eq by lia; rewrite <- Zlt_Qlt; lia).
  assert (QLb : (pow2 (Z.log2 b) <= inject_Z b)%Q)
    by (rewrite pow2_nonneg_eq by lia; rewrite <- Zle_Qle; lia).
  assert (QUb : (inject_Z b < pow2 (Z.log2 b + 1))%Q)
    by (rewrite pow2_nonneg_eq by lia; rewrite <- Zlt_Qlt; lia).
  rewrite pow2_succ in QUa, QUb.
  set (e0 := Z.log2 a - Z.log2 b).
  assert (Ee : (pow2 (Z.log2 a) == pow2 e0 * pow2 (Z.log2 b))%Q).
  { unfold e0. rewrite <- pow2_add. f_equiv. lia. }
  pose proof (pow2_pos e0) as Pe. pose proof (pow2_pos (Z.log2 b)) as Pb.
  pose proof (inject_pos b Hb) as Qb. pose proof (inject_pos a Ha) as Qa.
  (* the ratio lies strictly between pow2 e0 / 2 and 2 * pow2 e0 *)
  assert (Hr : (ratio a b * inject_Z b == inject_Z a)%Q)
    by (unfold ratio; field; lra).
  assert (R1 : (ratio a b < 2 * pow2 e0)%Q).
  { apply Qnot_le_lt. intro C.
    assert (2 * pow2 e0 * inject_Z b <= ratio a b * inject_Z b)%Q by nra.
    nra. }
  assert (R0 : (pow2 e0 < 2 * ratio a b)%Q).
  { apply Qnot_le_lt. intro C.
    assert (2 * ratio a b * inject_Z b <= pow2 e0 * inject_Z b)%Q by nra.
    nra. }
  unfold flog2. fold e0.
  pose proof (scale2_spec a b e0 Hb) as (Sb & Sa & Sr).
  destruct (scale2 a b e0) as [a' b'] eqn:Es. simpl in *.
  specialize (Sa Ha).
  assert (T : b' <= a' <-> (pow2 e0 <= ratio a b)%Q).
  { rewrite <- (Z.mul_1_l b') at 1. rewrite <- ratio_ge by auto.
    rewrite Sr. change (inject_Z 1) with 1%Q.
    split; intros.
    - assert (E : (ratio a b == ratio a b / pow2 e0 * pow2 e0)%Q)
        by (field; lra).
      set (x := (ratio a b / pow2 e0)%Q) in *. nra.
    - apply Qle_shift_div_l; auto. lra. }
  destruct (Z.leb_spec b' a').
  - apply T in H1. rewrite pow2_succ. split; lra.
  - assert (~ (pow2 e0 <= ratio a b)%Q) by (intro C; apply T in C; lia).
    replace (e0 - 1 + 1) with e0 by lia.
    assert (pow2 e0 == 2 * pow2 (e0 - 1))%Q.
    { rewrite <- pow2_succ. f_equiv. lia. }
    split; lra.
Qed.

Lemma Qabs_ratio q :
  (Qabs q == ratio (Z.abs (Qnum q)) (Zpos (Qden q)))%Q.
Proof.
  destruct q as [n d]. unfold ratio, Qabs. simpl.
  rewrite (Qmake_Qdiv (Z.abs n) d). reflexivity.
Qed.

Lemma Qred_zero q : Qnum q = 0 -> Qred q = 0%Q.
Proof.
  intros H. change 0%Q with (Qred 0). apply Qred_complete.
  unfold Qeq. simpl. lia.
Qed.

Lemma q_sign q : (q == inject_Z (Z.sgn (Qnum q)) * Qabs q)%Q.
Proof.
  destruct q as [n d]. unfold Qabs, Qeq. simpl.
  destruct n; simpl; lia.
Qed.

(** The shape of a rounded value. *)
Lemma round_b64_form q :
  Qnum q <> 0 ->
  let a := Z.abs (Qnum q) in
  let b := Zpos (Qden q) in
  let e := ulp_exp a b in
  let M := round_half_even (scale2 a b e).1 (scale2 a b e).2 in
  round_b64 q = Qred (inject_Z (Z.sgn (Qnum q) * M) * pow2 e).
Proof.
  intros H. unfold round_b64.
  destruct (Z.eqb_spec (Qnum q) 0); [contradiction|].
  cbn zeta. destruct (scale2 _ _ _); reflexivity.
Qed.

Lemma round_b64_exact q m E :
  Z.abs m < 2 ^ 53 -> -1074 <= E -> (q == inject_Z m * pow2 E)%Q ->
  round_b64 q = Qred q.
Proof.
  intros Hm HE Hq.
  destruct (Z.eq_dec (Qnum q) 0) as [Z0|NZ].
  { assert (round_b64 q = 0%Q) as ->
      by (unfold round_b64; rewrite Z0; reflexivity).
    symmetry. apply Qred_zero. auto. }
  rewrite round_b64_form by auto. cbn zeta.
  set (a := Z.abs (Qnum q)). set (b := Zpos (Qden q)).
  assert (Ha : 0 < a) by (unfold a; lia).
  assert (Hb : 0 < b) by (unfold b; lia).
  pose proof (pow2_pos E) as PE.
  (* the magnitude of q is |m| * 2^E *)
  assert (Habs : (ratio a b == inject_Z (Z.abs m) * pow2 E)%Q).
  { unfold a, b. rewrite <- Qabs_ratio. rewrite Hq, Qabs_Qmult.
    rewrite (Qabs_pos (pow2 E)) by lra.
    f_equiv. destruct m; reflexivity. }
  pose proof (flog2_spec a b Ha Hb) as [FL FU].
  set (fl := flog2 a b) in *.
  assert (Hfl : fl < 53 + E).
  { apply pow2_lt_inv. eapply Qle_lt_trans; [apply FL|].
    rewrite Habs, pow2_add. rewrite (pow2_nonneg_eq 53) by lia.
    assert (inject_Z (Z.abs m) < inject_Z (2 ^ 53))%Q by (rewrite <- Zlt_Qlt; lia).
    nra. }
  set (e := ulp_exp a b).
  assert (He : e <= E) by (unfold e, ulp_exp; fold fl; lia).
  pose proof (scale2_spec a b e Hb) as (Sb & Sa & Sr).
  set (K := Z.abs m * 2 ^ (E - e)).
  assert (HK : (scale2 a b e).1 = K * (scale2 a b e).2).
  { apply ratio_eq; auto. rewrite Sr, Habs. unfold K.
    rewrite inject_Z_mult, <- pow2_nonneg_eq by lia.
    pose proof (pow2_pos e).
    assert (pow2 E == pow2 (E - e) * pow2 e)%Q
      by (rewrite <- pow2_add; f_equiv; lia).
    rewrite H0. field. lra. }
  rewrite HK, round_half_even_exact by auto.
  apply Qred_complete.
  rewrite (q_sign q) at 2. rewrite Qabs_ratio. fold a b. rewrite Habs.
  unfold K. rewrite !inject_Z_mult, <- pow2_nonneg_eq by lia.
  assert (pow2 E == pow2 (E - e) * pow2 e)%Q
    by (rewrite <- pow2_add; f_equiv; lia).
  rewrite H. ring.
Qed.

(** The magnitude of a rounded value. *)
Lemma round_b64_abs q :
  Qnum q <> 0 ->
  let a := Z.abs (Qnum q) in
  let b := Zpos (Qden q) in
  let e := ulp_exp a b in
  let M := round_half_even (scale2 a b e).1 (scale2 a b e).2 in
  0 <= M /\ (Qabs (round_b64 q) == inject_Z M * pow2 e)%Q.
Proof.
  intros NZ. cbn zeta. rewrite round_b64_form by auto. cbn zeta.
  set (a := Z.abs (Qnum q)). set (b := Zpos (Qden q)). set (e := ulp_exp a b).
  assert (Ha : 0 < a) by (unfold a; lia).
  assert (Hb : 0 < b) by (unfold b; lia).
  pose proof (scale2_spec a b e Hb) as (Sb & Sa & Sr). specialize (Sa Ha).
  set (M := round_half_even _ _).
  assert (HM : 0 <= M).
  { apply round_half_even_lower; auto. lia. }
  split; auto.
  rewrite Qred_correct, Qabs_Qmult. pose proof (pow2_pos e).
  rewrite (Qabs_pos (pow2 e)) by lra.
  f_equiv. unfold Qabs. simpl. unfold inject_Z. f_equiv.
  destruct (Qnum q); try contradiction; simpl; lia.
Qed.

Lemma round_b64_upper q k :
  -1074 <= k -> (Qabs q <= pow2 k)%Q -> (Qabs (round_b64 q) <= pow2 k)%Q.
Proof.
  intros Hk Hq.
  destruct (Z.eq_dec (Qnum q) 0) as [Z0|NZ].
  { assert (round_b64 q = 0%Q) as ->
      by (unfold round_b64; rewrite Z0; reflexivity).
    pose proof (pow2_pos k). change (Qabs 0) with 0%Q. lra. }
  pose proof (round_b64_abs q NZ) as [HM Habs]. cbn zeta in *.
  rewrite Habs. clear Habs.
  set (a := Z.abs (Qnum q)) in *. set (b := Zpos (Qden q)) in *.
  assert (Ha : 0 < a) by (unfold a; lia).
  assert (Hb : 0 < b) by (unfold b; lia).
  rewrite Qabs_ratio in Hq. fold a b in Hq.
  pose proof (flog2_spec a b Ha Hb) as [FL FU].
  set (fl := flog2 a b) in *.
  assert (Hfl : fl <= k) by (apply pow2_le_inv; lra).
  set (e := ulp_exp a b) in *.
  assert (He : e <= k) by (unfold e, ulp_exp; fold fl; lia).
  pose proof (scale2_spec a b e Hb) as (Sb & Sa & Sr).
  pose proof (pow2_pos e) as Pe.
  assert (Ek : (pow2 k == inject_Z (2 ^ (k - e)) * pow2 e)%Q).
  { rewrite <- pow2_nonneg_eq by lia. rewrite <- pow2_add. f_equiv. lia. }
  assert (round_half_even (scale2 a b e).1 (scale2 a b e).2 <= 2 ^ (k - e)).
  { apply round_half_even_upper; auto. apply ratio_le; auto.
    rewrite Sr. apply Qle_shift_div_r; auto. lra. }
  rewrite Ek. rewrite Zle_Qle in H.
  apply Qmult_le_compat_r; [exact H | lra].
Qed.

Lemma round_b64_lower q k :
  -1074 <= k -> (pow2 k <= Qabs q)%Q ->
  (pow2 k <= Qabs (round_b64 q))%Q /\ dyadic53 (round_b64 q) (k - 52).
Proof.
  intros Hk Hq.
  pose proof (pow2_pos k) as Pk.
  assert (NZ : Qnum q <> 0).
  { intro Z0. destruct q as [n d]. simpl in Z0. subst.
    unfold Qabs in Hq. simpl in Hq. unfold Qle in Hq. simpl in Hq.
    unfold Qlt in Pk. simpl in Pk. lia. }
  pose proof (round_b64_abs q NZ) as [HM Habs]. cbn zeta in *.
  pose proof (round_b64_form q NZ) as Hform. cbn zeta in *.
  set (a := Z.abs (Qnum q)) in *. set (b := Zpos (Qden q)) in *.
  assert (Ha : 0 < a) by (unfold a; lia).
  assert (Hb : 0 < b) by (unfold b; lia).
  rewrite Qabs_ratio in Hq. fold a b in Hq.
  pose proof (flog2_spec a b Ha Hb) as [FL FU].
  set (fl := flog2 a b) in *.
  assert (Hfl : k <= fl).
  { assert (k < fl + 1) by (apply pow2_lt_inv; lra). lia. }
  set (e := ulp_exp a b) in *.
  assert (He : fl - 52 <= e) by (unfold e, ulp_exp; fold fl; lia).
  assert (He' : k - 52 <= e) by lia.
  pose proof (scale2_spec a b e Hb) as (Sb & Sa & Sr).
  pose proof (pow2_pos e) as Pe.
  set (M := round_half_even _ _) in *.
  assert (HMu : M <= 2 ^ 53).
  { apply round_half_even_upper; auto. apply ratio_le; auto.
    rewrite Sr. apply Qle_shift_div_r; auto.
    rewrite <- pow2_nonneg_eq by lia. rewrite <- pow2_add.
    apply Qlt_le_weak. eapply Qlt_le_trans; [apply FU|].
    apply pow2_le_mono. lia. }
  split.
  - rewrite Habs.
    destruct (Z.le_gt_cases e k) as [Hek|Hek].
    + assert (Ek : (pow2 k == inject_Z (2 ^ (k - e)) * pow2 e)%Q).
      { rewrite <- pow2_nonneg_eq by lia. rewrite <- pow2_add. f_equiv. lia. }
      assert (2 ^ (k - e) <= M).
      { apply round_half_even_lower; auto. apply ratio_ge; auto.
        rewrite Sr. apply Qle_shift_div_l; auto. lra. }
      rewrite Ek. rewrite Zle_Qle in H.
      apply Qmult_le_compat_r; [exact H | lra].
    + assert (Ee : e = fl - 52)
        by (revert Hek; unfold e, ulp_exp; fold fl; lia).
      assert (2 ^ 52 <= M).
      { apply round_half_even_lower; auto. apply ratio_ge; auto.
        rewrite Sr. apply Qle_shift_div_l; auto.
        rewrite <- pow2_nonneg_eq by lia. rewrite <- pow2_add.
        replace (52 + e) with fl by lia. lra. }
      apply Qle_trans with (pow2 fl); [apply pow2_le_mono; lia|].
      assert (pow2 fl == inject_Z (2 ^ 52) * pow2 e)%Q.
      { rewrite <- pow2_nonneg_eq by lia. rewrite <- pow2_add. f_equiv. lia. }
      rewrite H0. rewrite Zle_Qle in H.
      apply Qmult_le_compat_r; [exact H | lra].
  - rewrite Hform.
    destruct (Z.eq_dec M (2 ^ 53)) as [EM|NM].
    + exists (Z.sgn (Qnum q) * 2 ^ 52), (e + 1). repeat split.
      * destruct (Qnum q); simpl; lia.
      * lia.
      * rewrite Qred_correct, EM, pow2_succ, !inject_Z_mult.
        change (inject_Z (2 ^ 53)) with (2 * inject_Z (2 ^ 52))%Q. ring.
    + exists (Z.sgn (Qnum q) * M), e. repeat split.
      * destruct (Qnum q); simpl; try contradiction; lia.
      * lia.
      * apply Qred_correct.
Qed.

Lemma Qltb_lt x y : Qltb x y = true <-> (x < y)%Q.
Proof. unfold Qltb, Qlt. apply Z.ltb_lt. Qed.

Lemma Qltb_ge x y : Qltb x y = false <-> (y <= x)%Q.
Proof. unfold Qltb, Qle. rewrite Z.ltb_ge. reflexivity. Qed.

Lemma pow2_1024 : inject_Z (2 ^ 1024) = pow2 1024.
Proof. reflexivity. Qed.

Lemma not_overflows q : (Qabs q <= pow2 1023)%Q -> overflows q = false.
Proof.
  intros H. unfold overflows. rewrite pow2_1024.
  apply negb_false_iff, Qltb_lt.
  eapply Qle_lt_trans; [apply H|]. apply pow2_lt_mono. lia.
Qed.

Lemma not_overflows_lt q : (Qabs q < pow2 1024)%Q -> overflows q = false.
Proof.
  intros H. unfold overflows. rewrite pow2_1024.
  apply negb_false_iff, Qltb_lt. exact H.
Qed.

Lemma pow2_1024_971 : (pow2 1024 == inject_Z (2 ^ 53) * pow2 971)%Q.
Proof.
  rewrite <- (pow2_nonneg_eq 53) by lia. rewrite <- pow2_add. reflexivity.
Qed.

Lemma pow2_971_970 : (pow2 971 == 2 * pow2 970)%Q.
Proof. rewrite <- pow2_succ. reflexivity. Qed.

Lemma ratio_double a b : 0 < b -> (ratio (2 * a) b == 2 * ratio a b)%Q.
Proof.
  intros Hb. unfold ratio. rewrite inject_Z_mult.
  pose proof (inject_pos b Hb). change (inject_Z 2) with 2%Q. field. lra.
Qed.

(** The shape of the rounding of a magnitude in the last binade. *)
Lemma round_b64_last_binade q :
  (pow2 1023 <= Qabs q < pow2 1024)%Q ->
  let a := Z.abs (Qnum q) in
  let b := Zpos (Qden q) in
  let M := round_half_even (scale2 a b 971).1 (scale2 a b 971).2 in
  (Qabs (round_b64 q) == inject_Z M * pow2 971)%Q
  /\ 0 < (scale2 a b 971).2
  /\ (ratio (2 * (scale2 a b 971).1) (scale2 a b 971).2 * pow2 971
      == 2 * Qabs q)%Q.
Proof.
  intros [Hl Hu]. cbn zeta.
  pose proof (pow2_pos 1023) as P1023.
  assert (NZ : Qnum q <> 0).
  { intro Z0. destruct q as [n d]. simpl in Z0. subst.
    unfold Qabs in Hl. simpl in Hl. unfold Qle in Hl. simpl in Hl.
    unfold Qlt in P1023. simpl in P1023. lia. }
  pose proof (round_b64_abs q NZ) as [HM Habs]. cbn zeta in *.
  set (a := Z.abs (Qnum q)) in *. set (b := Zpos (Qden q)) in *.
  assert (Ha : 0 < a) by (unfold a; lia).
  assert (Hb : 0 < b) by (unfold b; lia).
  pose proof (Qabs_ratio q) as Eq. fold a b in Eq.
  pose proof (flog2_spec a b Ha Hb) as [FL FU].
  set (fl := flog2 a b) in *.
  assert (Hfl : fl = 1023).
  { assert (1023 < fl + 1) by (apply pow2_lt_inv; lra).
    assert (fl < 1024) by (apply pow2_lt_inv; lra). lia. }
  assert (He : ulp_exp a b = 971) by (unfold ulp_exp; fold fl; lia).
  rewrite He in Habs.
  pose proof (scale2_spec a b 971 Hb) as (Sb & Sa & Sr).
  split; [exact Habs|]. split; [exact Sb|].
  rewrite ratio_double by exact Sb. rewrite Sr, Eq.
  pose proof (pow2_pos 971). field. lra.
Qed.

Lemma round_b64_below_max q :
  (Qabs q < pow2 1024 - pow2 970)%Q -> (Qabs (round_b64 q) < pow2 1024)%Q.
Proof.
  intros Hq. pose proof (pow2_pos 970) as P970. pose proof (pow2_pos 971) as P971.
  destruct (Qlt_le_dec (Qabs q) (pow2 1023)) as [Hsmall|Hbig].
  { apply Qle_lt_trans with (pow2 1023);
      [apply round_b64_upper; [lia | apply Qlt_le_weak, Hsmall]
      | apply pow2_lt_mono; lia]. }
  assert (Hlt : (Qabs q < pow2 1024)%Q) by lra.
  destruct (round_b64_last_binade q (conj Hbig Hlt)) as (Habs & Sb & Sr).
  cbn zeta in *. rewrite Habs.
  set (a' := (scale2 (Z.abs (Qnum q)) (Z.pos (Qden q)) 971).1) in *.
  set (b' := (scale2 (Z.abs (Qnum q)) (Z.pos (Qden q)) 971).2) in *.
  assert (HM : round_half_even a' b' <= 2 ^ 53 - 1).
  { apply round_half_even_below; [exact Sb|].
    apply Z.nle_gt. intro C.
    apply (ratio_ge (2 * 2 ^ 53 - 1) (2 * a') b' Sb) in C.
    change (inject_Z (2 * 2 ^ 53 - 1)) with (18014398509481983 # 1)%Q in C.
    pose proof pow2_1024_971 as E1. pose proof pow2_971_970 as E2.
    change (inject_Z (2 ^ 53)) with (9007199254740992 # 1)%Q in E1.
    set (x := ratio (2 * a') b') in *. nra. }
  rewrite pow2_1024_971. rewrite Zle_Qle in HM.
  change (inject_Z (2 ^ 53 - 1)) with (9007199254740991 # 1)%Q in HM.
  change (inject_Z (2 ^ 53)) with (9007199254740992 # 1)%Q.
  nra.
Qed.

Lemma round_b64_above_max q :
  (pow2 1024 - pow2 970 <= Qabs q)%Q -> (pow2 1024 <= Qabs (round_b64 q))%Q.
Proof.
  intros Hq. pose proof (pow2_pos 970) as P970. pose proof (pow2_pos 971) as P971.
  destruct (Qlt_le_dec (Qabs q) (pow2 1024)) as [Hsmall|Hbig].
  2: { apply (round_b64_lower q 1024 ltac:(lia) Hbig). }
  pose proof pow2_1024_971 as E1. pose proof pow2_971_970 as E2.
  change (inject_Z (2 ^ 53)) with (9007199254740992 # 1)%Q in E1.
  assert (E3 : (pow2 1024 == 2 * pow2 1023)%Q) by (rewrite <- pow2_succ; reflexivity).
  assert (L : (pow2 970 <= pow2 1023)%Q) by (apply pow2_le_mono; lia).
  assert (Hge : (pow2 1023 <= Qabs q)%Q) by lra.
  destruct (round_b64_last_binade q (conj Hge Hsmall)) as (Habs & Sb & Sr).
  cbn zeta in *. rewrite Habs.
  set (a' := (scale2 (Z.abs (Qnum q)) (Z.pos (Qden q)) 971).1) in *.
  set (b' := (scale2 (Z.abs (Qnum q)) (Z.pos (Qden q)) 971).2) in *.
  assert (HM : 2 ^ 53 <= round_half_even a' b').
  { apply round_half_even_tie; [exact Sb | | reflexivity].
    apply (ratio_ge (2 * 2 ^ 53 - 1) (2 * a') b' Sb).
    change (inject_Z (2 * 2 ^ 53 - 1)) with (18014398509481983 # 1)%Q.
    set (x := ratio (2 * a') b') in *.
    apply Qnot_lt_le. intro C. nra. }
  rewrite E1. rewrite Zle_Qle in HM.
  change (inject_Z (2 ^ 53)) with (9007199254740992 # 1)%Q in HM.
  nra.
Qed.

Lemma Qred_inject n : Qred (inject_Z n) = inject_Z n.
Proof.
  unfold inject_Z, Qred. simpl.
  pose proof (Z.ggcd_gcd n 1) as G. pose proof (Z.ggcd_correct_divisors n 1) as D.
  destruct (Z.ggcd n 1) as [g [aa bb]]. simpl in *.
  rewrite Z.gcd_1_r in G. subst g. destruct D as [D1 D2].
  rewrite Z.mul_1_l in D1, D2. subst. reflexivity.
Qed.

Lemma round_b64_nonneg q : (0 <= q)%Q -> (0 <= round_b64 q)%Q.
Proof.
  intros H. destruct (Z.eq_dec (Qnum q) 0) as [Z0|NZ].
  - assert (round_b64 q = 0%Q) as ->
      by (unfold round_b64; rewrite Z0; reflexivity). lra.
  - rewrite round_b64_form by auto. cbn zeta.
    pose proof (round_b64_abs q NZ) as [HM _]. cbn zeta in HM.
    rewrite Qred_correct. pose proof (pow2_pos (ulp_exp (Z.abs (Qnum q)) (Z.pos (Qden q)))).
    assert (0 < Qnum q).
    { unfold Qle in H. simpl in H. lia. }
    assert (0 <= inject_Z (Z.sgn (Qnum q) * round_half_even
       (scale2 (Z.abs (Qnum q)) (Z.pos (Qden q)) (ulp_exp (Z.abs (Qnum q)) (Z.pos (Qden q)))).1
       (scale2 (Z.abs (Qnum q)) (Z.pos (Qden q)) (ulp_exp (Z.abs (Qnum q)) (Z.pos (Qden q)))).2))%Q.
    { change 0%Q with (inject_Z 0). rewrite <- Zle_Qle.
      destruct (Qnum q); simpl; lia. }
    nra.
Qed.

Lemma round_b64_small n : Z.abs n < 2 ^ 53 -> round_b64 (inject_Z n) = inject_Z n.
Proof.
  intros. rewrite (round_b64_exact (inject_Z n) n 0); auto; try lia.
  - apply Qred_inject.
  - change (pow2 0) with 1%Q. ring.
Qed.

Lemma max_int_Q :
  (inject_Z (2 ^ 1024 - 2 ^ 970) == pow2 1024 - pow2 970)%Q.
Proof.
  rewrite !pow2_nonneg_eq by lia. unfold Zminus.
  rewrite inject_Z_plus, inject_Z_opp. reflexivity.
Qed.

(** What the conversion of a byte count gives. *)
Lemma of_int_bytes n :
  0 <= n < 2 ^ 1024 - 2 ^ 970 ->
  let r := round_b64 (inject_Z n) in
  of_int n = Ok (Fin r) /\ (0 <= r < pow2 1024)%Q /\ dyadic53 r (-52) /\
  (forall k, 0 <= k -> 2 ^ k <= n -> (pow2 k <= r)%Q).
Proof.
  intros [H0 H1]. cbn zeta.
  assert (Hq : (0 <= inject_Z n)%Q) by (change 0%Q with (inject_Z 0); rewrite <- Zle_Qle; lia).
  pose proof (round_b64_nonneg _ Hq) as Hr.
  assert (Hu : (Qabs (round_b64 (inject_Z n)) < pow2 1024)%Q).
  { apply round_b64_below_max. rewrite Qabs_pos by auto.
    rewrite <- max_int_Q, <- Zlt_Qlt. exact H1. }
  repeat split.
  - unfold of_int. rewrite not_overflows_lt; auto.
  - auto.
  - rewrite Qabs_pos in Hu; auto.
  - destruct (Z.eq_dec n 0) as [->|].
    + exists 0, 0. repeat split; (lia || reflexivity).
    + assert (P : (pow2 0 <= Qabs (inject_Z n))%Q).
      { rewrite Qabs_pos by auto. change (pow2 0) with (inject_Z 1).
        rewrite <- Zle_Qle. lia. }
      apply (round_b64_lower (inject_Z n) 0 ltac:(lia) P).
  - intros k Hk Hn.
    assert (P : (pow2 k <= Qabs (inject_Z n))%Q).
    { rewrite Qabs_pos by auto. rewrite pow2_nonneg_eq by lia.
      rewrite <- Zle_Qle. lia. }
    assert (-1074 <= k) by lia.
    destruct (round_b64_lower (inject_Z n) k H P) as [L _].
    rewrite Qabs_pos in L; auto.
Qed.

Lemma p1024_pos k : 0 < 1024 ^ Z.of_nat k.
Proof. apply Z.pow_pos_nonneg; lia. Qed.

Lemma p1024_pow2 k : inject_Z (1024 ^ Z.of_nat k) = pow2 (10 * Z.of_nat k).
Proof.
  rewrite pow2_nonneg_eq by lia. f_equal.
  change 1024 with (2 ^ 10). rewrite <- Z.pow_mul_r by lia. reflexivity.
Qed.

Lemma pow2_opp k : (pow2 (- k) == / pow2 k)%Q.
Proof.
  pose proof (pow2_pos k).
  apply Qmult_inj_l with (pow2 k); [lra|].
  rewrite Qmult_inv_r by lra. rewrite <- pow2_add.
  replace (k + - k) with 0 by lia. reflexivity.
Qed.

Lemma mantissa_eq x k : (mantissa x k == x / pow2 (10 * Z.of_nat k))%Q.
Proof. unfold mantissa. rewrite Qred_correct, p1024_pow2. reflexivity. Qed.

Lemma pow2_10_succ i :
  (pow2 (10 * Z.of_nat (S i)) == pow2 10 * pow2 (10 * Z.of_nat i))%Q.
Proof. rewrite <- pow2_add. f_equiv. lia. Qed.

Lemma mantissa_succ r i :
  Qred (mantissa r i / inject_Z 1024) = mantissa r (S i).
Proof.
  unfold mantissa at 2. apply Qred_complete.
  rewrite mantissa_eq, p1024_pow2, pow2_10_succ.
  change (inject_Z 1024) with (pow2 10).
  pose proof (pow2_pos 10). pose proof (pow2_pos (10 * Z.of_nat i)).
  field. split; lra.
Qed.

Lemma mantissa_dyadic r E0 i :
  dyadic53 r E0 -> dyadic53 (mantissa r i) (E0 - 10 * Z.of_nat i).
Proof.
  intros (m & E & Hm & HE & Hr). exists m, (E - 10 * Z.of_nat i).
  repeat split; try lia.
  rewrite mantissa_eq, Hr.
  replace (E - 10 * Z.of_nat i) with (E + - (10 * Z.of_nat i)) by lia.
  rewrite pow2_add, pow2_opp. unfold Qdiv. ring.
Qed.

Lemma mantissa_bounds r i :
  (0 <= r < pow2 1024)%Q -> (0 <= mantissa r i < pow2 1024)%Q.
Proof.
  intros [H0 H1]. rewrite mantissa_eq.
  pose proof (pow2_pos (10 * Z.of_nat i)) as P.
  assert (1 <= pow2 (10 * Z.of_nat i))%Q.
  { change 1%Q with (pow2 0). apply pow2_le_mono. lia. }
  split.
  - apply Qle_shift_div_l; auto. lra.
  - apply Qlt_shift_div_r; auto.
    pose proof (pow2_pos 1024). nra.
Qed.

Lemma mantissa_lt r i :
  (mantissa r i < inject_Z 1024)%Q <-> (r < pow2 (10 * Z.of_nat (S i)))%Q.
Proof.
  rewrite mantissa_eq, pow2_10_succ. change (inject_Z 1024) with (pow2 10).
  pose proof (pow2_pos 10). pose proof (pow2_pos (10 * Z.of_nat i)) as P.
  split; intros.
  - assert (E : (r == r / pow2 (10 * Z.of_nat i) * pow2 (10 * Z.of_nat i))%Q)
      by (field; lra).
    set (x := (r / pow2 (10 * Z.of_nat i))%Q) in *. nra.
  - apply Qlt_shift_div_r; auto.
Qed.

Lemma div_1024 x E0 :
  dyadic53 x E0 -> -1064 <= E0 -> (0 <= x < pow2 1024)%Q ->
  Float.div (Fin x) (lit 1024) = Ok (Fin (Qred (x / inject_Z 1024))).
Proof.
  intros (m & E & Hm & HE & Hx) H0 [Hx0 Hx1].
  unfold Float.div, lit.
  change (Qzero (inject_Z 1024)) with false. cbv iota.
  assert (R : round_b64 (x / inject_Z 1024) = Qred (x / inject_Z 1024)).
  { apply (round_b64_exact _ m (E - 10)); auto; try lia.
    rewrite Hx. replace (E - 10) with (E + - (10)) by lia.
    rewrite pow2_add, pow2_opp. change (pow2 10) with (inject_Z 1024).
    unfold Qdiv. ring. }
  rewrite R. unfold finite_or_inf. rewrite not_overflows_lt; auto.
  rewrite Qred_correct.
  assert (0 <= x / inject_Z 1024)%Q.
  { apply Qle_shift_div_l; [reflexivity | lra]. }
  rewrite Qabs_pos by auto.
  apply Qlt_shift_div_r; [reflexivity|].
  pose proof (pow2_pos 1024). change (inject_Z 1024) with (1024 # 1). lra.
Qed.

Lemma loop_nil x :
  format_bytes_loop [] (NFloat (Fin x)) = Ok (fmt_f 2 (Fin x) +:+ " " +:+ "PB").
Proof. reflexivity. Qed.

Lemma loop_lt u rest r i :
  (r < pow2 (10 * Z.of_nat (S i)))%Q ->
  format_bytes_loop (u :: rest) (NFloat (Fin (mantissa r i)))
  = Ok (fmt_f 2 (Fin (mantissa r i)) +:+ " " +:+ u).
Proof.
  intros H. apply mantissa_lt in H. apply Qltb_lt in H.
  unfold format_bytes_loop, num_ltb, Float.ltb, lit. rewrite H. reflexivity.
Qed.

Lemma loop_ge u rest r i :
  dyadic53 r (-52) -> (i <= 100)%nat -> (0 <= r < pow2 1024)%Q ->
  (pow2 (10 * Z.of_nat (S i)) <= r)%Q ->
  format_bytes_loop (u :: rest) (NFloat (Fin (mantissa r i)))
  = format_bytes_loop rest (NFloat (Fin (mantissa r (S i)))).
Proof.
  intros D Hi B H.
  assert (L : Qltb (mantissa r i) (inject_Z 1024) = false).
  { apply Qltb_ge. apply Qnot_lt_le. intro C. apply mantissa_lt in C. lra. }
  cbn [format_bytes_loop]. unfold num_ltb, Float.ltb, lit at 1. rewrite L.
  unfold num_div, to_float, rbind.
  rewrite (div_1024 _ (-52 - 10 * Z.of_nat i)).
  - rewrite mantissa_succ. reflexivity.
  - apply mantissa_dyadic; auto.
  - lia.
  - apply mantissa_bounds; auto.
Qed.

Lemma mantissa_0_small n : mantissa (inject_Z n) 0 = inject_Z n.
Proof.
  unfold mantissa. rewrite <- (Qred_inject n) at 2. apply Qred_complete.
  change (inject_Z (1024 ^ Z.of_nat 0)) with 1%Q. field.
Qed.

Lemma first_ge n r :
  of_int n = Ok (Fin r) -> dyadic53 r (-52) -> (0 <= r < pow2 1024)%Q ->
  1024 <= n ->
  format_bytes n
  = format_bytes_loop ["KB"; "MB"; "GB"; "TB"] (NFloat (Fin (mantissa r 1))).
Proof.
  intros Ho D B H.
  unfold format_bytes. cbn [format_bytes_loop]. unfold num_ltb.
  destruct (Z.ltb_spec n 1024); [lia|].
  unfold num_div, to_float. rewrite Ho. cbn [rbind].
  rewrite (div_1024 _ (-52)); auto; try lia.
Qed.

Lemma unit_index_cases n :
  (n < 1024 /\ unit_index n = 0%nat)
  \/ (1024 <= n < 1048576 /\ unit_index n = 1%nat)
  \/ (1048576 <= n < 1073741824 /\ unit_index n = 2%nat)
  \/ (1073741824 <= n < 1099511627776 /\ unit_index n = 3%nat)
  \/ (1099511627776 <= n < 1125899906842624 /\ unit_index n = 4%nat)
  \/ (1125899906842624 <= n /\ unit_index n = 5%nat).
Proof.
  unfold unit_index.
  change (1024 ^ 2) with 1048576. change (1024 ^ 3) with 1073741824.
  change (1024 ^ 4) with 1099511627776. change (1024 ^ 5) with 1125899906842624.
  repeat (match goal with
          | |- context [if ?a <? ?c then _ else _] => destruct (Z.ltb_spec a c)
          end; [lia|]).
  lia.
Qed.

Lemma format_bytes_with n r :
  of_int n = Ok (Fin r) -> dyadic53 r (-52) -> (0 <= r < pow2 1024)%Q ->
  (forall k, 0 <= k -> 2 ^ k <= n -> (pow2 k <= r)%Q) ->
  (forall e, 0 <= e <= 50 -> n < 2 ^ e -> (r < pow2 e)%Q) ->
  (n < 1024 -> r = inject_Z n) ->
  format_bytes n
  = Ok (fmt_f 2 (Fin (mantissa r (unit_index n))) +:+ " " +:+ unit_name (unit_index n)).
Proof.
  intros Ho D B L Lt Small.
  destruct (unit_index_cases n) as [[C ->]|[[C ->]|[[C ->]|[[C ->]|[[C ->]|[C ->]]]]]].
  - unfold format_bytes. cbn [format_bytes_loop]. unfold num_ltb.
    destruct (Z.ltb_spec n 1024); [|lia].
    unfold fmt_unit, to_float. rewrite Ho. cbn [rbind].
    rewrite Small by lia. rewrite mantissa_0_small. reflexivity.
  - rewrite (first_ge n r) by (auto; lia).
    rewrite loop_lt; [reflexivity|].
    apply Lt; [lia|]. change (2 ^ (10 * Z.of_nat 2)) with 1048576. lia.
  - rewrite (first_ge n r) by (auto; lia).
    rewrite loop_ge; [| exact D | lia | exact B |
      apply L; [lia | change (2 ^ (10 * Z.of_nat 2)) with 1048576; lia]].
    rewrite loop_lt; [reflexivity|].
    apply Lt; [lia|]. change (2 ^ (10 * Z.of_nat 3)) with 1073741824. lia.
  - rewrite (first_ge n r) by (auto; lia).
    rewrite loop_ge; [| exact D | lia | exact B |
      apply L; [lia | change (2 ^ (10 * Z.of_nat 2)) with 1048576; lia]].
    rewrite loop_ge; [| exact D | lia | exact B |
      apply L; [lia | change (2 ^ (10 * Z.of_nat 3)) with 1073741824; lia]].
    rewrite loop_lt; [reflexivity|].
    apply Lt; [lia|]. change (2 ^ (10 * Z.of_nat 4)) with 1099511627776. lia.
  - rewrite (first_ge n r) by (auto; lia).
    rewrite loop_ge; [| exact D | lia | exact B |
      apply L; [lia | change (2 ^ (10 * Z.of_nat 2)) with 1048576; lia]].
    rewrite loop_ge; [| exact D | lia | exact B |
      apply L; [lia | change (2 ^ (10 * Z.of_nat 3)) with 1073741824; lia]].
    rewrite loop_ge; [| exact D | lia | exact B |
      apply L; [lia | change (2 ^ (10 * Z.of_nat 4)) with 1099511627776; lia]].
    rewrite loop_lt; [reflexivity|].
    apply Lt; [lia|]. change (2 ^ (10 * Z.of_nat 5)) with 1125899906842624. lia.
  - rewrite (first_ge n r) by (auto; lia).
    rewrite loop_ge; [| exact D | lia | exact B |
      apply L; [lia | change (2 ^ (10 * Z.of_nat 2)) with 1048576; lia]].
    rewrite loop_ge; [| exact D | lia | exact B |
      apply L; [lia | change (2 ^ (10 * Z.of_nat 3)) with 1073741824; lia]].
    rewrite loop_ge; [| exact D | lia | exact B |
      apply L; [lia | change (2 ^ (10 * Z.of_nat 4)) with 1099511627776; lia]].
    rewrite loop_ge; [| exact D | lia | exact B |
      apply L; [lia | change (2 ^ (10 * Z.of_nat 5)) with 1125899906842624; lia]].
    rewrite loop_nil. reflexivity.
Qed.

Lemma of_int_beyond n :
  2 ^ 1024 - 2 ^ 970 <= n ->
  of_int n = Raise (Exn OverflowError "int too large to convert to float").
Proof.
  intros H. unfold of_int.
  assert (P : (pow2 1024 - pow2 970 <= Qabs (inject_Z n))%Q).
  { assert (0 < 2 ^ 1024 - 2 ^ 970).
    { assert (2 ^ 970 < 2 ^ 1024) by (apply Z.pow_lt_mono_r; lia). lia. }
    rewrite Qabs_pos
      by (change 0%Q with (inject_Z 0); rewrite <- Zle_Qle; lia).
    rewrite <- max_int_Q, <- Zle_Qle. exact H. }
  pose proof (round_b64_above_max _ P) as L.
  assert (O : overflows (round_b64 (inject_Z n)) = true).
  { unfold overflows. rewrite pow2_1024. apply negb_true_iff, Qltb_ge. exact L. }
  rewrite O. reflexivity.
Qed.

(** Claim C2, amended: for [0 <= n < 2^1024 - 2^970], the integers that
    convert to a double, [format_bytes] renders [n] with the unit of index
    [unit_index n]: below [1024^6] this is the first unit of the ladder
    under which [n] divided by 1024 once per step is below 1024, and from
    [1024^6] on it is PB.  The number shown is the double of [n], exact up
    to [2^53], divided by 1024 once per step and rounded to two decimals.
    From [2^1024 - 2^970] on the conversion overflows and [format_bytes]
    raises [OverflowError]. *)
Theorem format_bytes_unit n :
  0 <= n ->
  let k := unit_index n in
  let r := round_b64 (inject_Z n) in
  (n < 2 ^ 1024 - 2 ^ 970 ->
   format_bytes n = Ok (fmt_f 2 (Fin (mantissa r k)) +:+ " " +:+ unit_name k))
  /\ (2 ^ 1024 - 2 ^ 970 <= n ->
      format_bytes n
      = Raise (Exn OverflowError "int too large to convert to float"))
  /\ (n < 1024 ^ 6 -> n < 1024 * 1024 ^ Z.of_nat k)
  /\ (k <> 0%nat -> 1024 ^ Z.of_nat k <= n)
  /\ (n < 2 ^ 53 -> r = inject_Z n).
Proof.
  intros H. cbn zeta.
  assert (Small : n < 2 ^ 53 -> round_b64 (inject_Z n) = inject_Z n)
    by (intros; apply round_b64_small; lia).
  assert (P50 : 2 ^ 50 < 2 ^ 53) by (apply Z.pow_lt_mono_r; lia).
  split; [| split; [| split; [| split]]].
  - intros Hmax. destruct (of_int_bytes n (conj H Hmax)) as (Ho & B & D & L).
    apply format_bytes_with; auto.
    + intros e He Hn.
      assert (2 ^ e <= 2 ^ 50) by (apply Z.pow_le_mono_r; lia).
      rewrite Small by lia. rewrite pow2_nonneg_eq by lia.
      rewrite <- Zlt_Qlt. lia.
    + intros Hn. apply Small.
      assert (1024 < 2 ^ 50) by (change 1024 with (2 ^ 10); apply Z.pow_lt_mono_r; lia).
      lia.
  - intros Hmax.
    assert (1024 <= n).
    { assert (2 ^ 10 < 2 ^ 1023) by (apply Z.pow_lt_mono_r; lia).
      assert (2 * 2 ^ 970 <= 2 ^ 1023).
      { change (2 * 2 ^ 970) with (2 ^ 1 * 2 ^ 970). rewrite <- Z.pow_add_r by lia.
        apply Z.pow_le_mono_r; lia. }
      assert (2 ^ 1024 = 2 * 2 ^ 1023).
      { change (2 * 2 ^ 1023) with (2 ^ 1 * 2 ^ 1023). rewrite <- Z.pow_add_r by lia.
        reflexivity. }
      assert (0 < 2 ^ 970) by (apply Z.pow_pos_nonneg; lia).
      change (2 ^ 10) with 1024 in *. lia. }
    unfold format_bytes. cbn [format_bytes_loop]. unfold num_ltb.
    destruct (Z.ltb_spec n 1024); [lia|].
    unfold num_div, to_float. rewrite of_int_beyond by exact Hmax. reflexivity.
  - intros Hn. change (1024 ^ 6) with 1152921504606846976 in Hn.
    destruct (unit_index_cases n) as [[C ->]|[[C ->]|[[C ->]|[[C ->]|[[C ->]|[C ->]]]]]].
    + change (1024 ^ Z.of_nat 0) with 1. lia.
    + change (1024 ^ Z.of_nat 1) with 1024. lia.
    + change (1024 ^ Z.of_nat 2) with 1048576. lia.
    + change (1024 ^ Z.of_nat 3) with 1073741824. lia.
    + change (1024 ^ Z.of_nat 4) with 1099511627776. lia.
    + change (1024 ^ Z.of_nat 5) with 1125899906842624. lia.
  - intros Hk.
    destruct (unit_index_cases n) as [[C E]|[[C ->]|[[C ->]|[[C ->]|[[C ->]|[C ->]]]]]].
    + contradiction.
    + change (1024 ^ Z.of_nat 1) with 1024. lia.
    + change (1024 ^ Z.of_nat 2) with 1048576. lia.
    + change (1024 ^ Z.of_nat 3) with 1073741824. lia.
    + change (1024 ^ Z.of_nat 4) with 1099511627776. lia.
    + change (1024 ^ Z.of_nat 5) with 1125899906842624. lia.
  - exact Small.
Qed.

(* ===================================================================== *)
(** ** Timestamps and uptime *)
(* ===================================================================== *)

Lemma digit_cases d :
  0 <= d < 10 ->
  d = 0 \/ d = 1 \/ d = 2 \/ d = 3 \/ d = 4 \/ d = 5 \/ d = 6 \/ d = 7 \/ d = 8 \/ d = 9.
Proof. lia. Qed.

Ltac each_digit H :=
  apply digit_cases in H;
  destruct H as [->|[->|[->|[->|[->|[->|[->|[->|[->| ->]]]]]]]]].

Lemma is_digit_digit_char d : 0 <= d < 10 -> is_digit (digit_char d) = true.
Proof. intros H. each_digit H; reflexivity. Qed.

Lemma digit_val_digit_char d : 0 <= d < 10 -> digit_val (digit_char d) = d.
Proof. intros H. each_digit H; reflexivity. Qed.

Lemma dig09_digit_char d : 0 <= d < 10 -> DT.dig 0 9 (digit_char d) = true.
Proof. intros H. each_digit H; reflexivity. Qed.

Lemma digit_not_space c : is_digit c = true -> is_space c = false.
Proof.
  destruct c as [[] [] [] [] [] [] [] []]; intros H;
    solve [reflexivity | discriminate H].
Qed.

Lemma digit_not_point c : is_digit c = true -> Ascii.eqb c "."%char = false.
Proof.
  destruct c as [[] [] [] [] [] [] [] []]; intros H;
    solve [reflexivity | discriminate H].
Qed.

Lemma all_digits_app s t :
  DT.all_digits (s +:+ t) = DT.all_digits s && DT.all_digits t.
Proof.
  induction s as [|c s IH]; simpl; auto. rewrite IH, andb_assoc. reflexivity.
Qed.

Lemma all_digits_fixed_width w v : DT.all_digits (DT.fixed_width w v) = true.
Proof.
  revert v. induction w as [|w IH]; intros v; cbn [DT.fixed_width]; auto.
  rewrite all_digits_app, IH. cbn [DT.all_digits andb].
  rewrite is_digit_digit_char; auto. apply Z.mod_pos_bound. lia.
Qed.

Lemma value_of_app s t acc :
  DT.value_of (s +:+ t) acc = DT.value_of t (DT.value_of s acc).
Proof. revert acc. induction s as [|c s IH]; intros acc; simpl; auto. Qed.

Lemma value_of_fixed_width w v :
  0 <= v -> DT.value_of (DT.fixed_width w v) 0 = v mod 10 ^ Z.of_nat w.
Proof.
  revert v. induction w as [|w IH]; intros v Hv.
  - cbn [DT.fixed_width DT.value_of]. change (10 ^ Z.of_nat 0) with 1.
    rewrite Z.mod_1_r. reflexivity.
  - cbn [DT.fixed_width]. rewrite value_of_app. cbn [DT.value_of].
    rewrite IH by (apply Z.div_pos; lia).
    rewrite digit_val_digit_char by (apply Z.mod_pos_bound; lia).
    rewrite Nat2Z.inj_succ, Z.pow_succ_r by lia.
    rewrite Z.rem_mul_r by (try apply Z.pow_nonzero; lia). lia.
Qed.

Lemma before_point_digits s rest :
  DT.all_digits s = true -> DT.before_point (s +:+ "." +:+ rest) = s.
Proof.
  induction s as [|c s IH]; intros H.
  - reflexivity.
  - simpl in *. apply andb_true_iff in H as [Hc Hs].
    rewrite digit_not_point by auto. rewrite IH; auto.
Qed.

Lemma rstrip_digits s : DT.all_digits s = true -> rstrip s = s.
Proof.
  induction s as [|c s IH]; intros H; auto.
  simpl in *. apply andb_true_iff in H as [Hc Hs].
  rewrite IH by auto. destruct s; auto.
  rewrite digit_not_space; auto.
Qed.

Lemma parse_all_digits s acc :
  DT.all_digits s = true -> parse_digits s acc true = Some (DT.value_of s acc).
Proof.
  revert acc. induction s as [|c s IH]; intros acc H; auto.
  simpl in *. apply andb_true_iff in H as [Hc Hs].
  rewrite Hc. apply IH; auto.
Qed.

Lemma int_of_digits c s :
  DT.all_digits (String c s) = true ->
  int_of_str_opt (String c s) = Some (DT.value_of (String c s) 0).
Proof.
  intros H. pose proof H as H'. simpl in H'.
  apply andb_true_iff in H' as [Hc Hs].
  unfold int_of_str_opt. cbn [lstrip]. rewrite digit_not_space by auto.
  rewrite rstrip_digits by auto.
  assert (E : parse_digits (String c s) 0 false = Some (DT.value_of (String c s) 0)).
  { cbn [parse_digits DT.value_of]. rewrite Hc. apply parse_all_digits; auto. }
  rewrite <- E.
  destruct c as [[] [] [] [] [] [] [] []]; try reflexivity; discriminate Hc.
Qed.

Lemma field_int_fixed_width w v :
  0 <= v < 10 ^ Z.of_nat (S w) ->
  DT.field_int (DT.fixed_width (S w) v) = v.
Proof.
  intros H. unfold DT.field_int.
  pose proof (all_digits_fixed_width (S w) v) as A.
  pose proof (value_of_fixed_width (S w) v ltac:(lia)) as V.
  destruct (DT.fixed_width (S w) v) as [|c s] eqn:E.
  - exfalso. cbn [DT.fixed_width] in E.
    destruct (DT.fixed_width w (v / 10)); discriminate E.
  - rewrite int_of_digits by auto. rewrite V. apply Z.mod_small. lia.
Qed.

Ltac field_case :=
  intros k rest ms r Hk; cbv; rewrite Hk; reflexivity.

Ltac enum_from v lo n :=
  lazymatch n with
  | O => exfalso; lia
  | S ?n' =>
      let H := fresh "E" in
      destruct (Z.eq_dec v lo) as [H|H];
      [ subst v; field_case
      | let lo' := eval vm_compute in (lo + 1) in enum_from v lo' n' ]
  end.

Lemma month_ok v : 1 <= v <= 12 -> field_ok DT.re_m v.
Proof. intros H. enum_from v 1 12%nat. Qed.

Lemma day_ok v : 1 <= v <= 31 -> field_ok DT.re_d v.
Proof. intros H. enum_from v 1 31%nat. Qed.

Lemma hour_ok v : 0 <= v <= 23 -> field_ok DT.re_H v.
Proof. intros H. enum_from v 0 24%nat. Qed.

Lemma minute_ok v : 0 <= v <= 59 -> field_ok DT.re_M v.
Proof. intros H. enum_from v 0 60%nat. Qed.

Lemma second_ok v : 0 <= v <= 59 -> field_ok DT.re_S v.
Proof. intros H. enum_from v 0 60%nat. Qed.

Lemma year_ok v (k : string -> option (list string * string)) rest ms r :
  k rest = Some (ms, r) ->
  DT.try_alts DT.re_Y k (DT.fixed_width 4 v +:+ rest)
  = Some (DT.fixed_width 4 v :: ms, r).
Proof.
  intros Hk. cbv [DT.fixed_width String.append].
  unfold DT.re_Y. cbn [DT.try_alts DT.match_alt].
  rewrite !dig09_digit_char by (apply Z.mod_pos_bound; lia).
  rewrite Hk. reflexivity.
Qed.

Lemma match_timestamp y m d hh mm ss :
  1 <= m <= 12 -> 1 <= d <= 31 -> 0 <= hh <= 23 -> 0 <= mm <= 59 ->
  0 <= ss <= 59 ->
  DT.match_fields DT.boot_format (DT.wmi_timestamp y m d hh mm ss)
  = Some ([DT.fixed_width 4 y; DT.fixed_width 2 m; DT.fixed_width 2 d;
           DT.fixed_width 2 hh; DT.fixed_width 2 mm; DT.fixed_width 2 ss], "").
Proof.
  intros Hm Hd Hh Hmi Hs. unfold DT.wmi_timestamp, DT.boot_format.
  rewrite <- (append_nil_r (DT.fixed_width 2 ss)) at 1.
  cbn [DT.match_fields].
  apply year_ok. apply month_ok; auto. apply day_ok; auto.
  apply hour_ok; auto. apply minute_ok; auto. apply second_ok; auto.
Qed.

Lemma strptime_timestamp y m d hh mm ss :
  0 <= y <= 9999 -> 1 <= m <= 12 -> 1 <= d <= 31 -> 0 <= hh <= 23 ->
  0 <= mm <= 59 -> 0 <= ss <= 59 ->
  DT.strptime (DT.wmi_timestamp y m d hh mm ss)
  = DT.make_datetime y m d hh mm ss 0.
Proof.
  intros Hy Hm Hd Hh Hmi Hs. unfold DT.strptime.
  rewrite match_timestamp by auto.
  change (negb (String.eqb "" "")) with false. cbv iota.
  cbn [List.map].
  rewrite !field_int_fixed_width; auto;
    match goal with
    | |- _ <= _ < 10 ^ Z.of_nat 2 => change (10 ^ Z.of_nat 2) with 100; lia
    | |- _ <= _ < 10 ^ Z.of_nat 4 => change (10 ^ Z.of_nat 4) with 10000; lia
    end.
Qed.

Lemma days_in_month_bounds y m : 28 <= DT.days_in_month y m <= 31.
Proof.
  unfold DT.days_in_month.
  destruct (m =? 2); [destruct (DT.is_leap y); lia|].
  destruct ((m =? 4) || (m =? 6) || (m =? 9) || (m =? 11)); lia.
Qed.

Lemma make_datetime_valid y m d hh mm ss us :
  DT.valid_datetime (DateTime y m d hh mm ss us) ->
  DT.make_datetime y m d hh mm ss us = Ok (DateTime y m d hh mm ss us).
Proof.
  intros (Hy & Hm & Hd & Hh & Hmi & Hs & Hus). simpl in *.
  unfold DT.make_datetime.
  repeat match goal with
  | |- context [?a <=? ?b] =>
      destruct (Z.leb_spec a b); [| lia]
  end.
  reflexivity.
Qed.

Lemma days_before_month_go_bounds y k :
  0 <= DT.days_before_month_go y k <= 31 * Z.of_nat k.
Proof.
  induction k as [|k IH].
  - simpl. lia.
  - cbn [DT.days_before_month_go].
    pose proof (days_in_month_bounds y (Z.of_nat (S k))). lia.
Qed.

Lemma toordinal_bounds t :
  DT.valid_datetime t -> 1 <= DT.toordinal t <= 4000000.
Proof.
  intros (Hy & Hm & Hd & _).
  pose proof (days_in_month_bounds (year t) (month t)).
  unfold DT.toordinal, DT.days_before_year, DT.days_before_month.
  pose proof (days_before_month_go_bounds (year t) (Z.to_nat (month t - 1))).
  assert (Z.of_nat (Z.to_nat (month t - 1)) <= 11) by lia.
  set (g := DT.days_before_month_go _ _) in *.
  Z.div_mod_to_equations. lia.
Qed.

Lemma micros_bounds t :
  DT.valid_datetime t -> 0 <= DT.micros t <= 400000000000000000.
Proof.
  intros V. pose proof (toordinal_bounds t V).
  destruct V as (_ & _ & _ & Hh & Hmi & Hs & Hus).
  unfold DT.micros, DT.secs_of_day. lia.
Qed.

Lemma sub_spec a b :
  let e := DT.micros a - DT.micros b in
  let td := DT.sub a b in
  DT.days td = e / 86400000000
  /\ DT.seconds td = (e / 1000000) mod 86400
  /\ (DT.days td * 86400 + DT.seconds td) * 1000000 + DT.microseconds td = e.
Proof.
  cbn zeta. unfold DT.sub, DT.make_timedelta, DT.micros.
  cbn [DT.days DT.seconds DT.microseconds].
  set (D := DT.toordinal a - DT.toordinal b).
  set (S := DT.secs_of_day a - DT.secs_of_day b).
  set (U := microsecond a - microsecond b).
  replace ((DT.toordinal a * 86400 + DT.secs_of_day a) * 1000000 + microsecond a
           - ((DT.toordinal b * 86400 + DT.secs_of_day b) * 1000000 + microsecond b))
    with ((D * 86400 + S) * 1000000 + U) by (unfold D, S, U; lia).
  clearbody D S U.
  Z.div_mod_to_equations. lia.
Qed.

Lemma truediv_small a b :
  0 < b -> Z.abs a <= 2 ^ 62 ->
  truediv_int a b = Ok (Fin (round_b64 (ratio a b))).
Proof.
  intros Hb Ha. unfold truediv_int.
  destruct (Z.eqb_spec b 0); [lia|].
  fold (ratio a b). rewrite not_overflows; auto.
  apply Qle_trans with (pow2 62); [|apply pow2_le_mono; lia].
  apply round_b64_upper; [lia|].
  rewrite pow2_nonneg_eq by lia.
  assert (Hq : (Qabs (ratio a b) <= inject_Z (Z.abs a))%Q).
  { unfold ratio. unfold Qdiv. rewrite Qabs_Qmult.
    assert (E : (Qabs (inject_Z a) == inject_Z (Z.abs a))%Q) by reflexivity.
    rewrite E.
    assert (0 <= inject_Z (Z.abs a))%Q
      by (change 0%Q with (inject_Z 0); rewrite <- Zle_Qle; lia).
    assert (Qabs (/ inject_Z b) <= 1)%Q.
    { destruct b as [|p|p]; try lia. unfold Qle. simpl. lia. }
    set (x := inject_Z (Z.abs a)) in *. set (z := Qabs (/ inject_Z b)) in *.
    assert (0 <= z)%Q by (unfold z; apply Qabs_nonneg).
    nra. }
  eapply Qle_trans; [apply Hq|]. rewrite <- Zle_Qle. auto.
Qed.

(** Claim C8: for an operating-system record whose [LastBootUpTime] is
    the 14 digits of a valid date and time, a point, and any further
    characters, [get_uptime] reports that date and time as the boot time
    and, as the uptime, the span from it to the current time: its days, its
    hours and minutes within the day, and its seconds rounded to a
    double. *)
Theorem uptime_from_boot_timestamp (B : Backend) (self : nat) (s : state)
    (os : wmi_object) (y m d hh mm ss : Z) (rest : string) :
  (get_operating_system B self s).1 = Ok (Some os) ->
  obj_getattr os "LastBootUpTime"
    = Ok (VStr (DT.wmi_timestamp y m d hh mm ss +:+ "." +:+ rest)) ->
  DT.valid_datetime (DateTime y m d hh mm ss 0) ->
  DT.valid_datetime (datetime_now B) ->
  let boot := DateTime y m d hh mm ss 0 in
  let elapsed := DT.micros (datetime_now B) - DT.micros boot in
  exists info,
    (SystemMonitor.get_uptime B self s).1 = Ok info
    /\ SystemMonitor.boot_time info = DT.isoformat boot
    /\ SystemMonitor.last_boot_time info = DT.isoformat boot
    /\ SystemMonitor.current_time info = DT.isoformat (datetime_now B)
    /\ SystemMonitor.uptime_seconds info
       = Fin (round_b64 (ratio elapsed 1000000))
    /\ SystemMonitor.uptime_days info = elapsed / 86400000000
    /\ SystemMonitor.uptime_hours info = (elapsed / 1000000) mod 86400 / 3600
    /\ SystemMonitor.uptime_minutes info = (elapsed / 1000000) mod 3600 / 60.
Proof.
  intros Hos Hattr Vb Vn. cbn zeta.
  set (now := datetime_now B) in *.
  set (boot := DateTime y m d hh mm ss 0) in *.
  pose proof (sub_spec now boot) as (Sd & Ss & Se). cbn zeta in *.
  pose proof (micros_bounds now Vn) as Bn.
  pose proof (micros_bounds boot Vb) as Bb.
  set (elapsed := DT.micros now - DT.micros boot) in *.
  assert (Hparse : DT.strptime (DT.wmi_timestamp y m d hh mm ss) = Ok boot).
  { pose proof Vb as (Hy & Hm & Hd & Hh & Hmi & Hs & _). simpl in *.
    pose proof (days_in_month_bounds y m).
    rewrite strptime_timestamp by lia. apply make_datetime_valid, Vb. }
  assert (Hsecs : DT.total_seconds (DT.sub now boot)
                  = Ok (Fin (round_b64 (ratio elapsed 1000000)))).
  { unfold DT.total_seconds. rewrite Se. apply truediv_small; [lia|].
    change (2 ^ 62) with 4611686018427387904. lia. }
  eexists. split.
  - unfold SystemMonitor.get_uptime, bind.
    destruct (get_operating_system B self s) as [[o|e] s1]; simpl in Hos;
      [|discriminate].
    injection Hos as ->. unfold lift, SystemMonitor.boot_time_str, attr.
    rewrite Hattr. cbn [rbind].
    rewrite before_point_digits.
    2: { unfold DT.wmi_timestamp. rewrite !all_digits_app.
         rewrite !all_digits_fixed_width. reflexivity. }
    rewrite Hparse. cbn [rbind]. fold now. rewrite Hsecs. cbn [rbind fst].
    reflexivity.
  - cbn [SystemMonitor.boot_time SystemMonitor.last_boot_time
         SystemMonitor.current_time SystemMonitor.uptime_seconds
         SystemMonitor.uptime_days SystemMonitor.uptime_hours
         SystemMonitor.uptime_minutes].
    repeat split; auto.
    + rewrite Ss. reflexivity.
    + rewrite Ss. f_equal.
      generalize (elapsed / 1000000). intros q.
      Z.div_mod_to_equations. lia.
Qed.

(* ===================================================================== *)
(** ** The theorems at concrete inputs *)
(* ===================================================================== *)

(** Closed comparisons of integer constants. *)
Ltac constants :=
  vm_compute; repeat split; try reflexivity;
  let H := fresh in intros H; discriminate H.

(** Claim C2 as stated fails from [1024^6] on: [format_bytes] renders
    [1024^6] as "1024.00 PB", and no unit of the ladder brings this input
    below 1024. *)
Lemma format_bytes_no_unit_below_1024 :
  format_bytes (1024 ^ 6) = Ok "1024.00 PB"
  /\ ~ (exists k : nat, (k <= 5)%nat /\ 1024 ^ 6 < 1024 * 1024 ^ Z.of_nat k).
Proof.
  split; [vm_compute; reflexivity|].
  intros (k & Hk & H).
  assert (C : (k = 0 \/ k = 1 \/ k = 2 \/ k = 3 \/ k = 4 \/ k = 5)%nat) by lia.
  destruct C as [->|[->|[->|[->|[->| ->]]]]]; vm_compute in H; discriminate H.
Qed.

Lemma format_bytes_unit_witness :
  format_bytes 1536 = Ok "1.50 KB"
  /\ format_bytes 0 = Ok "0.00 B"
  /\ format_bytes 1048575 = Ok "1024.00 KB"
  /\ format_bytes (2 ^ 1024 - 2 ^ 970)
     = Raise (Exn OverflowError "int too large to convert to float").
Proof.
  split; [|split; [|split]].
  - assert (R : 0 <= 1536) by lia.
    destruct (format_bytes_unit 1536 R) as [H _].
    rewrite H; [vm_compute; reflexivity | constants].
  - assert (R : 0 <= 0) by lia.
    destruct (format_bytes_unit 0 R) as [H _].
    rewrite H; [vm_compute; reflexivity | constants].
  - assert (R : 0 <= 1048575) by lia.
    destruct (format_bytes_unit 1048575 R) as [H _].
    rewrite H; [vm_compute; reflexivity | constants].
  - assert (R : 0 <= 2 ^ 1024 - 2 ^ 970) by constants.
    destruct (format_bytes_unit (2 ^ 1024 - 2 ^ 970) R) as (_ & H & _).
    apply H. apply Z.le_refl.
Defined.

Lemma consistent_one_wrapper B : consistent (one_wrapper B).
Proof. apply consistent_init, consistent_initial. Qed.

Lemma get_class_exact_match_witness :
  exists results,
    (get_class two_services 0 "Win32_Service" {[ "Name" := VStr "Spooler" ]}
       (one_wrapper two_services)).1 = Ok results
    /\ results = [spooler].
Proof.
  destruct (get_class_exact_match two_services 0 "Win32_Service"
              {[ "Name" := VStr "Spooler" ]} (one_wrapper two_services)
              {| computer := "."; namespace := cimv2; _connection := None |}
              0%nat [spooler; fax]
              (consistent_one_wrapper two_services)
              eq_refl eq_refl eq_refl) as (results & Hr & Hf & _).
  exists results. split; [exact Hr|]. rewrite Hf. vm_compute. reflexivity.
Defined.

Lemma to_dict_witness :
  wmi_object_to_dict mixed_object None !! "StartService" = None
  /\ wmi_object_to_dict mixed_object None !! "Broken" = Some VNone.
Proof.
  destruct (to_dict_skips_methods_and_nulls_failures mixed_object None)
    as (Hm & _ & Hr).
  split.
  - apply Hm. reflexivity.
  - apply (Hr "Broken" (Exn x_wmi "access denied")).
    + vm_compute. right. right. left. reflexivity.
    + reflexivity.
Defined.

Lemma list_services_witness :
  (Tools.list_services two_services_filtering (Some "Running") initial_state).1
  = Ok (one_service_text "Spooler" "Running" "Print Spooler").
Proof.
  destruct (list_services_renders_backend_answer two_services_filtering [spooler]
              (text_of "Name") (text_of "State") (text_of "DisplayName"))
    as [_ H].
  - reflexivity.
  - reflexivity.
  - intros r [<-|[]]. repeat split; reflexivity.
  - exact (H spooler eq_refl).
Defined.


Lemma connection_witness :
  (length (opened_by 0 (run_calls two_services
             [New "." cimv2; Query 0%nat "SELECT * FROM Win32_Service";
              GetConnection 0%nat; GetClass 0%nat "Win32_Service" ∅]
             initial_state)) <= 1)%nat
  /\ opened (one_wrapper two_services) = []
  /\ (get_connection two_services 0 (one_wrapper two_services)).1 = Ok 0%nat
  /\ opened (get_connection two_services 0 (one_wrapper two_services)).2
     = [(0%nat, (".", cimv2))]
  /\ get_connection two_services 0
       (run_calls two_services [Query 0%nat "SELECT * FROM Win32_BIOS"]
          (get_connection two_services 0 (one_wrapper two_services)).2)
     = (Ok 0%nat,
        run_calls two_services [Query 0%nat "SELECT * FROM Win32_BIOS"]
          (get_connection two_services 0 (one_wrapper two_services)).2).
Proof.
  split; [|split; [|split; [|split]]].
  - apply (connection_created_at_most_once two_services
             [New "." cimv2; Query 0%nat "SELECT * FROM Win32_Service";
              GetConnection 0%nat; GetClass 0%nat "Win32_Service" ∅] 0%nat).
  - destruct (connection_created_at_most_once two_services [] 0%nat)
      as (_ & H & _).
    destruct (H "." cimv2) as (_ & _ & Ho). exact Ho.
  - destruct (connection_created_at_most_once two_services [New "." cimv2] 0%nat)
      as (_ & _ & H & _).
    destruct (H {| computer := "."; namespace := cimv2; _connection := None |}
                eq_refl eq_refl) as [_ Hfirst].
    destruct (Hfirst eq_refl) as (Hr & _). exact Hr.
  - destruct (connection_created_at_most_once two_services [New "." cimv2] 0%nat)
      as (_ & _ & H & _).
    destruct (H {| computer := "."; namespace := cimv2; _connection := None |}
                eq_refl eq_refl) as [_ Hfirst].
    destruct (Hfirst eq_refl) as (_ & Ho & _). exact Ho.
  - destruct (connection_created_at_most_once two_services [New "." cimv2] 0%nat)
      as (_ & _ & _ & H).
    apply (H 0%nat eq_refl [Query 0%nat "SELECT * FROM Win32_BIOS"]).
Defined.

Lemma uptime_witness :
  exists info,
    (SystemMonitor.get_uptime no_memory 0 (one_wrapper no_memory)).1 = Ok info
    /\ SystemMonitor.boot_time info = "2023-11-06T12:00:00"
    /\ SystemMonitor.uptime_days info = 1
    /\ SystemMonitor.uptime_hours info = 1
    /\ SystemMonitor.uptime_minutes info = 30.
Proof.
  destruct (uptime_from_boot_timestamp no_memory 0 (one_wrapper no_memory)
              (mk_object [("FreePhysicalMemory", VStr "0");
                          ("LastBootUpTime", VStr "20231106120000.000000+000")])
              2023 11 6 12 0 0 "000000+000")
    as (info & H & Hb & _ & _ & _ & Hd & Hh & Hm).
  - vm_compute. reflexivity.
  - vm_compute. reflexivity.
  - constants.
  - constants.
  - exists info. split; [exact H|].
    rewrite Hb, Hd, Hh, Hm. vm_compute. repeat split; reflexivity.
Defined.


Lemma singleton_getters_witness :
  (get_operating_system two_services 0 (one_wrapper two_services)).1 = Ok None
  /\ (get_computer_system no_memory 0 (one_wrapper no_memory)).1
     = Ok (Some (mk_object [("TotalPhysicalMemory", VStr "0")])).
Proof.
  split.
  - destruct (singleton_getters_first_or_none two_services 0
                (one_wrapper two_services)) as (H & _).
    apply (H []). vm_compute. reflexivity.
  - destruct (singleton_getters_first_or_none no_memory 0
                (one_wrapper no_memory)) as (_ & H & _).
    apply (H [mk_object [("TotalPhysicalMemory", VStr "0")]]).
    vm_compute. reflexivity.
Defined.

(* ===================================================================== *)
(** ** Further properties of the shim *)
(* ===================================================================== *)

(** Extra X1: constructing a [WMIWrapper] never fails and opens no
    connection.  It returns a fresh reference to a wrapper without a
    connection, leaves the wrappers and connections made so far as they
    are, and COM counts as initialised afterwards exactly when it was
    before or its initialisation succeeded now: a failure is swallowed and
    tried again by the next construction. *)
Theorem wrapper_construction_never_fails (B : Backend) (comp ns : string)
    (s : state) :
  let r := WMIWrapper_init B comp ns s in
  r.1 = Ok (length (heap s))
  /\ heap r.2 = (heap s ++ [{| computer := comp; namespace := ns;
                              _connection := None |}])%list
  /\ opened r.2 = opened s
  /\ attempts r.2 = attempts s
  /\ _com_initialized r.2
     = (_com_initialized s
        || match CoInitialize B with None => true | Some _ => false end).
Proof.
  cbn zeta. unfold WMIWrapper_init, bind, get_state, modify, ret. simpl.
  destruct (_com_initialized s) eqn:E; simpl.
  - rewrite E. repeat split; reflexivity.
  - destruct (CoInitialize B); simpl; rewrite ?E; repeat split; reflexivity.
Qed.

(** Extra X2: a failed attempt to connect is not remembered.  When the
    constructor of the connection raises, [get_connection] raises the same
    exception, the wrapper still has no connection and nothing was opened;
    the next call tries again, and if that attempt succeeds the wrapper
    holds the new connection. *)
Theorem failed_connection_is_not_kept (B : Backend) (self : nat) (s : state)
    (w : WMIWrapper) (e : exn) :
  heap s !! self = Some w ->
  _connection w = None ->
  wmi_WMI B (computer w) (namespace w) (attempts s) = Some e ->
  let r := get_connection B self s in
  r.1 = Raise e
  /\ heap r.2 = heap s /\ opened r.2 = opened s
  /\ attempts r.2 = S (attempts s)
  /\ (wmi_WMI B (computer w) (namespace w) (S (attempts s)) = None ->
      (get_connection B self r.2).1 = Ok (length (opened s))
      /\ holds self (length (opened s)) (get_connection B self r.2).2).
Proof.
  intros Hw Hc He. cbn zeta.
  rewrite (get_connection_unfold B _ _ _ Hw), Hc, He. cbn [fst snd].
  repeat split.
  - assert (Hw' : heap (count_attempt s) !! self = Some w) by exact Hw.
    rewrite (get_connection_unfold B _ _ _ Hw'), Hc.
    change (attempts (count_attempt s)) with (S (attempts s)).
    rewrite H. reflexivity.
  - apply get_connection_holds.
    assert (Hw' : heap (count_attempt s) !! self = Some w) by exact Hw.
    rewrite (get_connection_unfold B _ _ _ Hw'), Hc.
    change (attempts (count_attempt s)) with (S (attempts s)).
    rewrite H. reflexivity.
Qed.

(* ---- the conversion to a dictionary, key by key ---- *)

Lemma to_dict_fold_lookup (o : wmi_object) (prop : string) props
    (acc : gmap string pyval) :
  fold_left (to_dict_step o) props acc !! prop
  = if bool_decide (prop ∈ props) then
      match obj_getattr o prop with
      | Ok v => if callable v then acc !! prop else Some v
      | Raise _ => Some VNone
      end
    else acc !! prop.
Proof.
  revert acc. induction props as [|p props IH]; intros acc.
  - rewrite bool_decide_eq_false_2 by apply not_elem_of_nil. reflexivity.
  - cbn [fold_left]. rewrite IH.
    destruct (decide (p = prop)) as [->|Hne].
    + rewrite (bool_decide_eq_true_2 (prop ∈ prop :: props))
        by (apply elem_of_cons; left; reflexivity).
      unfold to_dict_step.
      destruct (obj_getattr o prop) as [v|e].
      * destruct (callable v) eqn:Cv.
        -- destruct (bool_decide (prop ∈ props)); reflexivity.
        -- rewrite lookup_insert_eq.
           destruct (bool_decide (prop ∈ props)); reflexivity.
      * rewrite lookup_insert_eq.
        destruct (bool_decide (prop ∈ props)); reflexivity.
    + assert (E : to_dict_step o acc p !! prop = acc !! prop).
      { unfold to_dict_step. destruct (obj_getattr o p) as [v|e].
        - destruct (callable v); [reflexivity|].
          rewrite lookup_insert_ne; auto.
        - rewrite lookup_insert_ne; auto. }
      rewrite E.
      destruct (decide (prop ∈ props)) as [Hin|Hnin].
      * rewrite !bool_decide_eq_true_2; auto. apply elem_of_cons; right; exact Hin.
      * rewrite !bool_decide_eq_false_2; auto.
        intros Hin. apply elem_of_cons in Hin as [->|Hin]; auto.
Qed.

(** Extra X3: [wmi_object_to_dict], key by key.  A name is a key exactly
    when it is among the requested names (the allow-list, or without one
    the names [dir] lists that do not start with an underscore) and reading
    it does not give a callable; its value is the value read, or [None]
    when the reading raises. *)
Theorem to_dict_lookup (o : wmi_object) (properties : option (list string))
    (prop : string) :
  wmi_object_to_dict o properties !! prop
  = if bool_decide (prop ∈ requested o properties) then
      match obj_getattr o prop with
      | Ok v => if callable v then None else Some v
      | Raise _ => Some VNone
      end
    else None.
Proof.
  unfold wmi_object_to_dict. fold (requested o properties).
  rewrite to_dict_fold_lookup, lookup_empty. reflexivity.
Qed.

(* ---- the order of strings, and [sorted] ---- *)

Lemma ascii_compare_spec (a b : ascii) :
  match Ascii.compare a b with
  | Eq => a = b
  | Lt => (N_of_ascii a < N_of_ascii b)%N
  | Gt => (N_of_ascii b < N_of_ascii a)%N
  end.
Proof.
  unfold Ascii.compare.
  destruct (N.compare_spec (N_of_ascii a) (N_of_ascii b)) as [E|L|G]; auto.
  rewrite <- (ascii_N_embedding a), <- (ascii_N_embedding b), E. reflexivity.
Qed.

Lemma ascii_compare_refl (a : ascii) : Ascii.compare a a = Eq.
Proof. unfold Ascii.compare. apply N.compare_refl. Qed.

Lemma string_compare_trans (a b c : string) :
  String.compare a b <> Gt -> String.compare b c <> Gt ->
  String.compare a c <> Gt.
Proof.
  revert b c. induction a as [|x a IH]; intros [|y b] [|z c]; simpl;
    try congruence.
  pose proof (ascii_compare_spec x y) as Hxy.
  pose proof (ascii_compare_spec y z) as Hyz.
  pose proof (ascii_compare_spec x z) as Hxz.
  destruct (Ascii.compare x y) eqn:Exy; try congruence;
    destruct (Ascii.compare y z) eqn:Eyz; try congruence;
    destruct (Ascii.compare x z) eqn:Exz; try congruence;
    subst; try lia;
    rewrite ?ascii_compare_refl in *; try congruence; auto.
  - intros H1 H2. apply (IH b c); auto.
Qed.

Lemma leb_trans (a b c : string) :
  String.leb a b = true -> String.leb b c = true -> String.leb a c = true.
Proof.
  unfold String.leb. intros H1 H2.
  pose proof (string_compare_trans a b c) as T.
  destruct (String.compare a b); destruct (String.compare b c);
    destruct (String.compare a c); try discriminate; auto;
    exfalso; apply T; congruence.
Qed.

Lemma string_compare_refl (a : string) : String.compare a a = Eq.
Proof.
  induction a as [|x a IH]; simpl; auto. rewrite ascii_compare_refl. exact IH.
Qed.

Lemma ltb_leb_ne (a b : string) :
  String.ltb a b = true <-> String.leb a b = true /\ a <> b.
Proof.
  unfold String.ltb, String.leb. split.
  - destruct (String.compare a b) eqn:E; try discriminate.
    intros _. split; auto. intros ->.
    rewrite string_compare_refl in E. discriminate.
  - intros [H Hne]. destruct (String.compare a b) eqn:E; auto.
    apply String.compare_eq_iff in E. contradiction.
Qed.

Lemma insert_sorted_perm x l : Permutation (insert_sorted x l) (x :: l).
Proof.
  induction l as [|y l IH]; simpl; auto.
  destruct (String.leb x y); auto.
  rewrite IH. apply perm_swap.
Qed.

Lemma sorted_perm l : Permutation (sorted l) l.
Proof.
  induction l as [|x l IH]; simpl; auto.
  rewrite insert_sorted_perm. auto.
Qed.

Lemma insert_sorted_sorted x l :
  StronglySorted (fun a b => String.leb a b = true) l ->
  StronglySorted (fun a b => String.leb a b = true) (insert_sorted x l).
Proof.
  induction 1 as [|y l Hs IH Hy]; simpl.
  - repeat constructor.
  - destruct (String.leb x y) eqn:E.
    + constructor; [constructor; auto|].
      constructor; auto.
      apply List.Forall_forall. intros z Hz.
      rewrite List.Forall_forall in Hy. eapply leb_trans; eauto.
    + constructor; auto.
      apply List.Forall_forall. intros z Hz.
      apply (Permutation_in _ (insert_sorted_perm x l)) in Hz.
      destruct Hz as [<-|Hz].
      * destruct (String.leb_total x y) as [H|H]; congruence.
      * rewrite List.Forall_forall in Hy. auto.
Qed.

Lemma sorted_sorted l :
  StronglySorted (fun a b => String.leb a b = true) (sorted l).
Proof.
  induction l as [|x l IH]; simpl; [constructor|].
  apply insert_sorted_sorted, IH.
Qed.

Lemma sorted_strict l :
  NoDup l -> StronglySorted (fun a b => String.ltb a b = true) (sorted l).
Proof.
  intros Hn.
  assert (Hn' : NoDup (sorted l)).
  { rewrite sorted_perm. exact Hn. }
  pose proof (sorted_sorted l) as Hs.
  induction Hs as [|x r Hs IH Hx]; [constructor|].
  apply NoDup_cons in Hn' as [Hnx Hn'].
  constructor; auto.
  apply List.Forall_forall. intros z Hz. apply ltb_leb_ne. split.
  - rewrite List.Forall_forall in Hx. auto.
  - intros ->. apply Hnx. apply list_elem_of_In. exact Hz.
Qed.

(* ---- [list_classes] ---- *)

Section ListClasses.
Variable B : Backend.
Variable Path_Class : wmi_object -> result string.

Lemma list_classes_loop rows raw acc :
  Forall2 (fun row name => Path_Class row = Ok name) rows raw ->
  rfor_each rows acc (list_classes_step Path_Class)
  = Ok (acc ++ List.filter (fun name => negb (String.eqb name "")) raw)%list.
Proof.
  intros H. revert acc. induction H as [|row name rows raw Hrow _ IH]; intros acc.
  - simpl. rewrite app_nil_r. reflexivity.
  - cbn [rfor_each]. unfold list_classes_step at 1. rewrite Hrow. cbn [rbind].
    rewrite IH. cbn [List.filter].
    destruct (String.eqb name ""); cbn [negb]; [reflexivity|].
    rewrite <- app_assoc. reflexivity.
Qed.

Lemma list_classes_loop_raises rows row e acc :
  In row rows -> Path_Class row = Raise e ->
  exists e', rfor_each rows acc (list_classes_step Path_Class) = Raise e'.
Proof.
  intros Hin Hr. revert acc. induction rows as [|r rows IH]; intros acc.
  - destruct Hin.
  - cbn [rfor_each]. unfold list_classes_step at 1.
    destruct (Path_Class r) as [name|e0] eqn:E; cbn [rbind].
    + destruct Hin as [->|Hin]; [congruence|]. apply IH, Hin.
    + eexists. reflexivity.
Qed.

Lemma list_classes_run self s w conn :
  consistent s -> heap s !! self = Some w ->
  (get_connection B self s).1 = Ok conn ->
  (list_classes B Path_Class self s).1
  = Ok (sorted (remove_dups
          match (rows <~ conn_query B (computer w, namespace w)
                           "SELECT * FROM meta_class" ;;
                 rfor_each rows [] (list_classes_step Path_Class))%py with
          | Ok classes => classes
          | Raise _ => fallback_classes
          end)).
Proof.
  intros C Hw Hc.
  pose proof (get_connection_target B self s w conn C Hw Hc) as Ht.
  unfold list_classes, bind.
  destruct (get_connection B self s) as [[c|e] s1]; simpl in *; [|discriminate].
  injection Hc as ->. unfold target_of. rewrite Ht. reflexivity.
Qed.

End ListClasses.

(** Extra X4: when the classes can be enumerated and every class name
    can be read, [list_classes] returns the names that are not empty, each
    once, in strictly ascending order. *)
Theorem list_classes_sorted_distinct (B : Backend)
    (Path_Class : wmi_object -> result string) (self : nat) (s : state)
    (w : WMIWrapper) (conn : nat) (rows : list wmi_object) (raw : list string) :
  consistent s ->
  heap s !! self = Some w ->
  (get_connection B self s).1 = Ok conn ->
  conn_query B (computer w, namespace w) "SELECT * FROM meta_class" = Ok rows ->
  Forall2 (fun row name => Path_Class row = Ok name) rows raw ->
  exists names,
    (list_classes B Path_Class self s).1 = Ok names
    /\ StronglySorted (fun a b => String.ltb a b = true) names
    /\ forall name, In name names <-> In name raw /\ name <> "".
Proof.
  intros C Hw Hc Hq Hraw. eexists. split; [|split].
  - rewrite (list_classes_run B Path_Class self s w conn C Hw Hc), Hq.
    cbn [rbind]. rewrite (list_classes_loop Path_Class rows raw [] Hraw).
    reflexivity.
  - apply sorted_strict, NoDup_remove_dups.
  - intros name. cbn [app].
    rewrite <- !list_elem_of_In, sorted_perm, elem_of_remove_dups.
    rewrite !list_elem_of_In, filter_In, negb_true_iff, String.eqb_neq.
    reflexivity.
Qed.

(** Extra X5: when the enumeration query raises, or the name of one
    record cannot be read, [list_classes] drops whatever it had collected
    and returns the 23 built-in class names, sorted. *)
Theorem list_classes_falls_back (B : Backend)
    (Path_Class : wmi_object -> result string) (self : nat) (s : state)
    (w : WMIWrapper) (conn : nat) :
  consistent s ->
  heap s !! self = Some w ->
  (get_connection B self s).1 = Ok conn ->
  ((exists e, conn_query B (computer w, namespace w) "SELECT * FROM meta_class"
              = Raise e)
   \/ (exists rows row e,
         conn_query B (computer w, namespace w) "SELECT * FROM meta_class"
         = Ok rows
         /\ In row rows /\ Path_Class row = Raise e)) ->
  (list_classes B Path_Class self s).1
  = Ok ["Win32_BIOS"; "Win32_BaseBoard"; "Win32_Battery";
        "Win32_ComputerSystem"; "Win32_DiskDrive"; "Win32_Group";
        "Win32_LogicalDisk"; "Win32_NTEventlogFile"; "Win32_NetworkAdapter";
        "Win32_NetworkAdapterConfiguration"; "Win32_OperatingSystem";
        "Win32_PerfRawData_Tcpip_NetworkInterface"; "Win32_PhysicalMemory";
        "Win32_Printer"; "Win32_Process"; "Win32_Processor"; "Win32_Service";
        "Win32_Share"; "Win32_SoundDevice"; "Win32_StartupCommand";
        "Win32_USBController"; "Win32_UserAccount"; "Win32_VideoController"].
Proof.
  intros C Hw Hc H.
  rewrite (list_classes_run B Path_Class self s w conn C Hw Hc).
  assert (E : match (rows <~ conn_query B (computer w, namespace w)
                               "SELECT * FROM meta_class" ;;
                     rfor_each rows [] (list_classes_step Path_Class))%py with
              | Ok classes => classes
              | Raise _ => fallback_classes
              end = fallback_classes).
  { destruct H as [[e ->]|(rows & row & e & -> & Hin & Hr)]; [reflexivity|].
    cbn [rbind].
    destruct (list_classes_loop_raises Path_Class rows row e [] Hin Hr) as [e' ->].
    reflexivity. }
  rewrite E. vm_compute. reflexivity.
Qed.

(** Extra X6: [get_class_properties] returns no name for a class without
    instances, and otherwise the names [dir] lists for the first instance
    that do not start with an underscore; every key of the dictionary made
    from that instance is one of them. *)
Theorem class_properties_are_public_names (B : Backend) (self : nat)
    (class_name : string) (s : state) (instances : list wmi_object) :
  (get_class B self class_name ∅ s).1 = Ok instances ->
  exists props,
    (get_class_properties B self class_name s).1 = Ok props
    /\ (instances = [] -> props = [])
    /\ forall first_instance rest,
         instances = first_instance :: rest ->
         (forall prop, In prop props <->
            In prop (obj_dir first_instance)
            /\ starts_with_underscore prop = false)
         /\ (forall prop v,
               wmi_object_to_dict first_instance None !! prop = Some v ->
               In prop props).
Proof.
  intros H. unfold get_class_properties, bind.
  destruct (get_class B self class_name ∅ s) as [[r|e] s1]; simpl in H;
    [|discriminate].
  injection H as ->. destruct instances as [|o rest].
  - exists []. split; [reflexivity|]. split; [reflexivity|]. intros ? ? [=].
  - eexists. split; [reflexivity|]. split; [intros [=]|].
    intros first_instance rest' [= <- <-]. split.
    + intros prop. rewrite filter_In, negb_true_iff. reflexivity.
    + intros prop v Hd. unfold wmi_object_to_dict in Hd.
      fold (requested o None) in Hd.
      rewrite to_dict_fold_lookup, lookup_empty in Hd.
      destruct (bool_decide (prop ∈ requested o None)) eqn:E; [|discriminate].
      apply bool_decide_eq_true in E. apply list_elem_of_In in E. exact E.
Qed.

(** Extra X7: [require_admin] fails closed.  When the administrator check
    answers 0 or raises, the wrapped function is not run: the call raises
    [PermissionError] and the state is untouched.  When the check answers
    anything else, the call is the function itself. *)
Theorem require_admin_fails_closed (B : Backend) {A} (func : M A) (s : state) :
  (IsUserAnAdmin B = Ok 0 \/ (exists e, IsUserAnAdmin B = Raise e) ->
   require_admin B func s
   = (Raise (Exn PermissionError
        "This operation requires administrator privileges. Please run as administrator."),
      s))
  /\ (forall z, IsUserAnAdmin B = Ok z -> z <> 0 ->
      require_admin B func s = func s).
Proof.
  unfold require_admin, is_admin. split.
  - intros [->|[e ->]]; reflexivity.
  - intros z -> Hz. destruct (Z.eqb_spec z 0); [contradiction|]. reflexivity.
Qed.

(* ---- [format_bytes] below the first step and beyond the doubles ---- *)

Lemma round_half_even_one a : round_half_even a 1 = a.
Proof.
  unfold round_half_even. rewrite Z.mod_1_r, Z.div_1_r. reflexivity.
Qed.

Lemma fmt_f_int n : fmt_f 2 (Fin (inject_Z n)) = str_int n +:+ ".00".
Proof.
  unfold fmt_f. cbn [Qnum Qden inject_Z].
  change (10 ^ Z.of_nat 2) with 100.
  rewrite round_half_even_one, Z.div_mul, Z.mod_mul by lia.
  change (zpad 2 0) with "00". unfold Qneg, str_int. cbn [Qnum inject_Z].
  destruct (Z.ltb_spec n 0).
  - rewrite Z.abs_neq by lia. rewrite append_assoc. reflexivity.
  - rewrite Z.abs_eq by lia. reflexivity.
Qed.

Lemma of_int_small n : Z.abs n < 2 ^ 53 -> of_int n = Ok (Fin (inject_Z n)).
Proof.
  intros H. unfold of_int. rewrite round_b64_small by auto.
  rewrite not_overflows; auto.
  rewrite pow2_nonneg_eq by lia.
  assert (E : (Qabs (inject_Z n) == inject_Z (Z.abs n))%Q) by reflexivity.
  rewrite E, <- Zle_Qle.
  assert (2 ^ 53 <= 2 ^ 1023) by (apply Z.pow_le_mono_r; lia). lia.
Qed.

(** Extra X8: below 1024, negative numbers included, [format_bytes] never
    scales: for [-2^53 < n < 1024] the text is the decimal text of [n]
    followed by ".00 B". *)
Theorem format_bytes_below_1024 (n : Z) :
  - 2 ^ 53 < n < 1024 ->
  format_bytes n = Ok (str_int n +:+ ".00 B").
Proof.
  intros [Hl Hu]. unfold format_bytes. cbn [format_bytes_loop]. unfold num_ltb.
  destruct (Z.ltb_spec n 1024); [|lia].
  unfold fmt_unit, to_float.
  assert (1024 < 2 ^ 53) by (change 1024 with (2 ^ 10); apply Z.pow_lt_mono_r; lia).
  rewrite of_int_small by lia. cbn [rbind].
  rewrite fmt_f_int, append_assoc. reflexivity.
Qed.

Lemma of_int_overflow n :
  2 ^ 1024 <= Z.abs n ->
  of_int n = Raise (Exn OverflowError "int too large to convert to float").
Proof.
  intros H. unfold of_int.
  assert (P : (pow2 1024 <= Qabs (inject_Z n))%Q).
  { rewrite pow2_nonneg_eq by lia.
    assert (E : (Qabs (inject_Z n) == inject_Z (Z.abs n))%Q) by reflexivity.
    rewrite E, <- Zle_Qle. exact H. }
  destruct (round_b64_lower (inject_Z n) 1024 ltac:(lia) P) as [L _].
  assert (O : overflows (round_b64 (inject_Z n)) = true).
  { unfold overflows. rewrite pow2_1024. apply negb_true_iff, Qltb_ge. exact L. }
  rewrite O. reflexivity.
Qed.

(** Extra X9: an integer of magnitude [2^1024] or more does not fit a
    double, and [format_bytes] raises [OverflowError] for it. *)
Theorem format_bytes_overflow (n : Z) :
  2 ^ 1024 <= Z.abs n ->
  format_bytes n = Raise (Exn OverflowError "int too large to convert to float").
Proof.
  intros H. unfold format_bytes. cbn [format_bytes_loop]. unfold num_ltb.
  destruct (Z.ltb_spec n 1024).
  - unfold fmt_unit, to_float. rewrite of_int_overflow by auto. reflexivity.
  - unfold num_div, to_float. rewrite of_int_overflow by auto. reflexivity.
Qed.

(* ===================================================================== *)
(** ** Further properties of the domain modules *)
(* ===================================================================== *)

(* ---- a service or a process that is not there ---- *)

(** Extra X10: when no service has the given name, [start_service],
    [stop_service], [get_service_status] and [restart_service] all raise
    [ValueError] with the text "Service '<name>' not found". *)
Theorem missing_service_raises (B : Backend) (self : nat) (service_name : string)
    (s : state) :
  (get_services B self {[ "Name" := VStr service_name ]} s).1 = Ok [] ->
  let e := Exn ValueError ("Service '" +:+ service_name +:+ "' not found") in
  (ServiceManager.start_service B self service_name s).1 = Raise e
  /\ (ServiceManager.stop_service B self service_name s).1 = Raise e
  /\ (ServiceManager.get_service_status B self service_name s).1 = Raise e
  /\ (ServiceManager.restart_service B self service_name s).1 = Raise e.
Proof.
  intros H. cbn zeta.
  assert (Hstop : (ServiceManager.stop_service B self service_name s).1
                  = Raise (Exn ValueError
                             ("Service '" +:+ service_name +:+ "' not found"))).
  { unfold ServiceManager.stop_service, bind.
    destruct (get_services B self _ s) as [[r|e] s1]; simpl in H; [|discriminate].
    injection H as ->. reflexivity. }
  repeat split.
  - unfold ServiceManager.start_service, bind.
    destruct (get_services B self _ s) as [[r|e] s1]; simpl in H; [|discriminate].
    injection H as ->. reflexivity.
  - exact Hstop.
  - unfold ServiceManager.get_service_status, bind.
    destruct (get_services B self _ s) as [[r|e] s1]; simpl in H; [|discriminate].
    injection H as ->. reflexivity.
  - unfold ServiceManager.restart_service. apply bind_raise_fst, Hstop.
Qed.


(* ---- processes above a threshold of memory ---- *)

Lemma rfilter_all_ok {A} (f : A -> result bool) (g : A -> bool) (l : list A) :
  (forall x, In x l -> f x = Ok (g x)) ->
  ProcessManager.rfilter f l = Ok (List.filter g l).
Proof.
  induction l as [|x l IH]; intros H; [reflexivity|].
  cbn [ProcessManager.rfilter List.filter].
  rewrite (H x) by (left; reflexivity). cbn [rbind].
  rewrite IH by (intros; apply H; right; assumption). cbn [rbind].
  destruct (g x); reflexivity.
Qed.

Lemma uses_more_reads (min_bytes : Z) (p : wmi_object) (v : pyval) (n : Z) :
  obj_getattr p "WorkingSetSize" = Ok v ->
  (truthy v = true -> int v = Ok n) ->
  ProcessManager.uses_more min_bytes p = Ok (truthy v && (min_bytes <? n)).
Proof.
  intros Hw Hi. unfold ProcessManager.uses_more. rewrite Hw. cbn [rbind].
  destruct (truthy v); [|reflexivity].
  rewrite Hi by reflexivity. reflexivity.
Qed.

(** Extra X12: when the working set of every process can be read,
    [get_high_memory_processes] returns, in their order, exactly the
    processes whose working set is truthy and, as an integer, greater than
    the threshold in bytes; a process without a working set is never
    returned, whatever the threshold. *)
Theorem high_memory_processes_filter (B : Backend) (self : nat)
    (min_memory_mb : Z) (s : state) (all_processes : list wmi_object)
    (working_set : wmi_object -> pyval) (size : wmi_object -> Z) :
  (get_processes B self ∅ s).1 = Ok all_processes ->
  (forall p, In p all_processes ->
     obj_getattr p "WorkingSetSize" = Ok (working_set p)
     /\ (truthy (working_set p) = true -> int (working_set p) = Ok (size p))) ->
  (ProcessManager.get_high_memory_processes B self min_memory_mb s).1
  = Ok (List.filter
          (fun p => truthy (working_set p)
                    && (min_memory_mb * 1024 * 1024 <? size p))
          all_processes).
Proof.
  intros Hall Hread. unfold ProcessManager.get_high_memory_processes, bind.
  destruct (get_processes B self ∅ s) as [[r|e] s1]; simpl in Hall; [|discriminate].
  injection Hall as ->. unfold lift. cbn [fst].
  apply rfilter_all_ok. intros p Hp.
  destruct (Hread p Hp) as [Hw Hi]. apply uses_more_reads; assumption.
Qed.

(* ---- percentages ---- *)

Lemma round_b64_le_int q N :
  0 < N < 2 ^ 53 -> (Qabs q <= inject_Z N)%Q ->
  (Qabs (round_b64 q) <= inject_Z N)%Q.
Proof.
  intros [HN0 HN] Hq.
  assert (QN : (0 < inject_Z N)%Q) by (apply inject_pos; lia).
  destruct (Z.eq_dec (Qnum q) 0) as [Z0|NZ].
  { assert (round_b64 q = 0%Q) as ->
      by (unfold round_b64; rewrite Z0; reflexivity).
    change (Qabs 0) with 0%Q. lra. }
  pose proof (round_b64_abs q NZ) as [HM Habs]. cbn zeta in *.
  rewrite Habs. clear Habs.
  set (a := Z.abs (Qnum q)) in *. set (b := Zpos (Qden q)) in *.
  assert (Ha : 0 < a) by (unfold a; lia).
  assert (Hb : 0 < b) by (unfold b; lia).
  rewrite Qabs_ratio in Hq. fold a b in Hq.
  pose proof (flog2_spec a b Ha Hb) as [FL FU].
  set (fl := flog2 a b) in *.
  assert (Hfl : fl < 53).
  { apply pow2_lt_inv. eapply Qle_lt_trans; [apply FL|].
    eapply Qle_lt_trans; [apply Hq|].
    rewrite pow2_nonneg_eq by lia. rewrite <- Zlt_Qlt. exact HN. }
  set (e := ulp_exp a b) in *.
  assert (He : e <= 0) by (unfold e, ulp_exp; fold fl; lia).
  pose proof (scale2_spec a b e Hb) as (Sb & Sa & Sr).
  pose proof (pow2_pos e) as Pe.
  assert (EN : (inject_Z N == inject_Z (N * 2 ^ (- e)) * pow2 e)%Q).
  { rewrite inject_Z_mult. rewrite <- pow2_nonneg_eq by lia.
    rewrite <- Qmult_assoc, <- pow2_add.
    replace (- e + e) with 0 by lia. change (pow2 0) with 1%Q. ring. }
  assert (round_half_even (scale2 a b e).1 (scale2 a b e).2 <= N * 2 ^ (- e)).
  { apply round_half_even_upper; auto. apply ratio_le; auto.
    rewrite Sr. apply Qle_shift_div_r; auto. lra. }
  rewrite EN. rewrite Zle_Qle in H.
  apply Qmult_le_compat_r; [exact H | lra].
Qed.

Lemma percentage_bounds used total :
  0 <= used <= total -> 0 < total ->
  exists p, SystemMonitor.percentage used total = Ok (Fin p)
            /\ (0 <= p <= 100)%Q.
Proof.
  intros Hu Ht. unfold SystemMonitor.percentage, truediv_int.
  destruct (Z.eqb_spec total 0); [lia|].
  fold (ratio used total).
  assert (R0 : (0 <= ratio used total)%Q).
  { change 0%Q with (inject_Z 0). apply ratio_ge; lia. }
  assert (R1 : (ratio used total <= 1)%Q).
  { change 1%Q with (inject_Z 1). apply ratio_le; lia. }
  set (r := round_b64 (ratio used total)).
  assert (Hr0 : (0 <= r)%Q) by (apply round_b64_nonneg; auto).
  assert (Hr1 : (r <= 1)%Q).
  { assert (Qabs r <= pow2 0)%Q.
    { apply round_b64_upper; [lia|]. rewrite Qabs_pos by auto. exact R1. }
    rewrite Qabs_pos in H by auto. exact H. }
  assert (O1 : overflows r = false).
  { apply not_overflows. rewrite Qabs_pos by auto.
    apply Qle_trans with (pow2 0); [exact Hr1 | apply pow2_le_mono; lia]. }
  rewrite O1. cbn [rbind]. unfold mul, lit, finite_or_inf.
  set (p := round_b64 (r * inject_Z 100)).
  assert (X0 : (0 <= r * inject_Z 100)%Q).
  { change (inject_Z 100) with 100%Q. nra. }
  assert (Hp0 : (0 <= p)%Q) by (apply round_b64_nonneg; auto).
  assert (Hp1 : (p <= 100)%Q).
  { assert (Qabs p <= inject_Z 100)%Q.
    { apply round_b64_le_int.
      - split; [lia|].
        apply Z.lt_trans with (2 ^ 7); [reflexivity|].
        apply Z.pow_lt_mono_r; lia.
      - rewrite Qabs_pos by auto. change (inject_Z 100) with 100%Q. nra. }
    rewrite Qabs_pos in H by auto. exact H. }
  assert (O2 : overflows p = false).
  { apply not_overflows. rewrite Qabs_pos by auto.
    apply Qle_trans with (pow2 7).
    - eapply Qle_trans; [exact Hp1|]. rewrite pow2_nonneg_eq by lia.
      change 100%Q with (inject_Z 100). rewrite <- Zle_Qle.
      change (2 ^ 7) with 128. lia.
    - apply pow2_le_mono. lia. }
  rewrite O2. exists p. split; [reflexivity | split; assumption].
Qed.

(** Extra X13: for a machine that reports a total memory above 0 and a
    free memory (in KB) that fits in it, [get_memory_info] returns the
    total, the free memory in bytes, a used memory that adds up with the
    free memory to the total, and a used percentage between 0 and 100. *)
Theorem memory_info_accounts (B : Backend) (self : nat) (s : state)
    (cs os : wmi_object) (vt vf : pyval) (total free_kb : Z) :
  (get_computer_system B self s).1 = Ok (Some cs) ->
  (get_operating_system B self (get_computer_system B self s).2).1
  = Ok (Some os) ->
  obj_getattr cs "TotalPhysicalMemory" = Ok vt -> int vt = Ok total ->
  obj_getattr os "FreePhysicalMemory" = Ok vf -> int vf = Ok free_kb ->
  0 <= free_kb * 1024 <= total -> 0 < total ->
  exists info p,
    (SystemMonitor.get_memory_info B self s).1 = Ok info
    /\ SystemMonitor.total_bytes info = total
    /\ SystemMonitor.free_bytes info = free_kb * 1024
    /\ SystemMonitor.used_bytes info + SystemMonitor.free_bytes info
       = SystemMonitor.total_bytes info
    /\ SystemMonitor.used_percentage info = Fin p
    /\ (0 <= p <= 100)%Q.
Proof.
  intros Hcs Hos Ht Hti Hf Hfi Hfree Htotal.
  destruct (percentage_bounds (total - free_kb * 1024) total) as (p & Hp & Hb);
    [lia | lia |].
  assert (E : (SystemMonitor.get_memory_info B self s).1
              = Ok {| SystemMonitor.total_bytes := total;
                      SystemMonitor.used_bytes := total - free_kb * 1024;
                      SystemMonitor.free_bytes := free_kb * 1024;
                      SystemMonitor.used_percentage := Fin p |}).
  { unfold SystemMonitor.get_memory_info, bind.
    destruct (get_computer_system B self s) as [[c|e] s1]; simpl in Hcs, Hos;
      [|discriminate].
    injection Hcs as ->.
    destruct (get_operating_system B self s1) as [[o|e] s2]; simpl in Hos;
      [|discriminate].
    injection Hos as ->. unfold lift, attr. cbn [fst].
    rewrite Ht. cbn [rbind]. rewrite Hti. cbn [rbind].
    rewrite Hf. cbn [rbind]. rewrite Hfi. cbn [rbind].
    rewrite Hp. reflexivity. }
  eexists _, p. split; [exact E|].
  cbn [SystemMonitor.total_bytes SystemMonitor.used_bytes
       SystemMonitor.free_bytes SystemMonitor.used_percentage].
  split; [reflexivity|]. split; [reflexivity|]. split; [lia|].
  split; [reflexivity | exact Hb].
Qed.

(* ---- disk usage ---- *)

Lemma disk_usage_step_spec (acc acc' : list SystemMonitor.disk_usage)
    (disk : wmi_object) :
  SystemMonitor.disk_usage_step acc disk = Ok acc' ->
  acc' = acc
  \/ exists entry,
       acc' = (acc ++ [entry])%list
       /\ SystemMonitor.size_bytes entry
          = SystemMonitor.disk_used_bytes entry + SystemMonitor.disk_free_bytes entry
       /\ SystemMonitor.percentage (SystemMonitor.disk_used_bytes entry)
                                   (SystemMonitor.size_bytes entry)
          = Ok (SystemMonitor.disk_used_percentage entry).
Proof.
  unfold SystemMonitor.disk_usage_step.
  destruct (obj_getattr disk "Size") as [sz|e]; cbn [rbind]; [|discriminate].
  destruct (truthy sz); [|intros [= <-]; left; reflexivity].
  destruct (int sz) as [size|e]; cbn [rbind]; [|discriminate].
  destruct (int_or_zero disk "FreeSpace") as [free|e]; cbn [rbind]; [|discriminate].
  destruct (obj_getattr disk "DeviceID") as [dev|e]; cbn [rbind]; [|discriminate].
  destruct (obj_getattr disk "VolumeName") as [vol|e]; cbn [rbind]; [|discriminate].
  destruct (obj_getattr disk "FileSystem") as [fs|e]; cbn [rbind]; [|discriminate].
  destruct (SystemMonitor.percentage (size - free) size) as [pct|e] eqn:E;
    cbn [rbind]; [|discriminate].
  intros [= <-]. right. eexists. split; [reflexivity|].
  cbn [SystemMonitor.size_bytes SystemMonitor.disk_used_bytes
       SystemMonitor.disk_free_bytes SystemMonitor.disk_used_percentage].
  split; [lia | exact E].
Qed.

Lemma disk_usage_loop_spec (P : SystemMonitor.disk_usage -> Prop) disks :
  (forall entry,
     SystemMonitor.size_bytes entry
     = SystemMonitor.disk_used_bytes entry + SystemMonitor.disk_free_bytes entry ->
     SystemMonitor.percentage (SystemMonitor.disk_used_bytes entry)
                              (SystemMonitor.size_bytes entry)
     = Ok (SystemMonitor.disk_used_percentage entry) ->
     P entry) ->
  forall acc res,
    rfor_each disks acc SystemMonitor.disk_usage_step = Ok res ->
    List.Forall P acc ->
    List.Forall P res /\ (length res <= length acc + length disks)%nat.
Proof.
  intros HP. induction disks as [|d disks IH]; intros acc res H Hacc.
  - injection H as <-. split; [exact Hacc | simpl; lia].
  - cbn [rfor_each] in H.
    destruct (SystemMonitor.disk_usage_step acc d) as [acc'|e] eqn:E;
      cbn [rbind] in H; [|discriminate].
    apply disk_usage_step_spec in E as [->|(entry & -> & H1 & H2)].
    + destruct (IH _ _ H Hacc) as [F L]. split; [exact F | simpl; lia].
    + destruct (IH _ _ H) as [F L].
      * apply List.Forall_app. split; [exact Hacc|]. constructor; auto.
      * split; [exact F|]. rewrite length_app in L. simpl in *. lia.
Qed.

Lemma disk_usage_loop_skips disks acc :
  (forall d, In d disks ->
     exists v, obj_getattr d "Size" = Ok v /\ truthy v = false) ->
  rfor_each disks acc SystemMonitor.disk_usage_step = Ok acc.
Proof.
  induction disks as [|d disks IH]; intros H; [reflexivity|].
  cbn [rfor_each]. destruct (H d) as (v & Hv & Tv); [left; reflexivity|].
  unfold SystemMonitor.disk_usage_step at 1. rewrite Hv. cbn [rbind].
  rewrite Tv. cbn [rbind]. apply IH. intros; apply H; right; assumption.
Qed.

(** Extra X14: [get_disk_usage] returns at most one entry per disk; in
    every entry the size is the sum of the used and the free bytes and is
    not 0, and the used percentage lies between 0 and 100 when the free
    bytes lie between 0 and the size; disks whose [Size] is falsy give no
    entry. *)
Theorem disk_usage_entries (B : Backend) (self : nat) (s : state)
    (disks : list wmi_object) (entries : list SystemMonitor.disk_usage) :
  (get_logical_disks B self {[ "DriveType" := VInt 3 ]} s).1 = Ok disks ->
  (SystemMonitor.get_disk_usage B self s).1 = Ok entries ->
  (length entries <= length disks)%nat
  /\ (forall entry, In entry entries ->
        SystemMonitor.size_bytes entry
        = SystemMonitor.disk_used_bytes entry + SystemMonitor.disk_free_bytes entry
        /\ SystemMonitor.size_bytes entry <> 0
        /\ (0 <= SystemMonitor.disk_free_bytes entry
                 <= SystemMonitor.size_bytes entry ->
            exists p, SystemMonitor.disk_used_percentage entry = Fin p
                      /\ (0 <= p <= 100)%Q))
  /\ ((forall d, In d disks ->
         exists v, obj_getattr d "Size" = Ok v /\ truthy v = false) ->
      entries = []).
Proof.
  intros Hd He. unfold SystemMonitor.get_disk_usage, bind in He.
  destruct (get_logical_disks B self _ s) as [[r|e] s1]; simpl in Hd; [|discriminate].
  injection Hd as ->. unfold lift in He. cbn [fst] in He.
  set (P := fun entry =>
        SystemMonitor.size_bytes entry
        = SystemMonitor.disk_used_bytes entry + SystemMonitor.disk_free_bytes entry
        /\ SystemMonitor.size_bytes entry <> 0
        /\ (0 <= SystemMonitor.disk_free_bytes entry
                 <= SystemMonitor.size_bytes entry ->
            exists p, SystemMonitor.disk_used_percentage entry = Fin p
                      /\ (0 <= p <= 100)%Q)).
  assert (HP : forall entry,
     SystemMonitor.size_bytes entry
     = SystemMonitor.disk_used_bytes entry + SystemMonitor.disk_free_bytes entry ->
     SystemMonitor.percentage (SystemMonitor.disk_used_bytes entry)
                              (SystemMonitor.size_bytes entry)
     = Ok (SystemMonitor.disk_used_percentage entry) ->
     P entry).
  { intros entry H1 H2. unfold P. split; [exact H1|]. split.
    - intros Z0. rewrite Z0 in H2. unfold SystemMonitor.percentage, truediv_int in H2.
      cbn in H2. discriminate.
    - intros Hr.
      destruct (percentage_bounds (SystemMonitor.disk_used_bytes entry)
                  (SystemMonitor.size_bytes entry)) as (p & Hp & Hb).
      + lia.
      + assert (SystemMonitor.size_bytes entry <> 0).
        { intros Z0. rewrite Z0 in H2.
          unfold SystemMonitor.percentage, truediv_int in H2.
          cbn in H2. discriminate. }
        lia.
      + rewrite Hp in H2. injection H2 as <-. exists p. split; [reflexivity|exact Hb]. }
  destruct (disk_usage_loop_spec P disks HP [] entries He) as [F L];
    [constructor|].
  split; [simpl in L; lia|]. split.
  - intros entry Hin. rewrite List.Forall_forall in F. apply (F entry Hin).
  - intros Hs. rewrite (disk_usage_loop_skips disks [] Hs) in He.
    injection He as <-. reflexivity.
Qed.

(* ---- uptime ---- *)

(** Extra X15: whenever [get_uptime] returns, the hours lie in 0..23 and
    the minutes in 0..59 (also when the boot time lies in the future), the
    two boot-time fields are equal, and the current time is the clock's. *)
Theorem uptime_fields_in_range (B : Backend) (self : nat) (s : state)
    (info : SystemMonitor.uptime_info) :
  (SystemMonitor.get_uptime B self s).1 = Ok info ->
  0 <= SystemMonitor.uptime_hours info <= 23
  /\ 0 <= SystemMonitor.uptime_minutes info <= 59
  /\ SystemMonitor.last_boot_time info = SystemMonitor.boot_time info
  /\ SystemMonitor.current_time info = DT.isoformat (datetime_now B).
Proof.
  unfold SystemMonitor.get_uptime, bind.
  destruct (get_operating_system B self s) as [[os|e] s1]; [|discriminate].
  unfold lift. cbn [fst].
  destruct (SystemMonitor.boot_time_str os) as [text|e]; cbn [rbind]; [|discriminate].
  destruct (DT.strptime text) as [boot|e]; cbn [rbind]; [|discriminate].
  destruct (DT.total_seconds _) as [secs|e]; cbn [rbind]; [|discriminate].
  intros [= <-].
  cbn [SystemMonitor.uptime_hours SystemMonitor.uptime_minutes
       SystemMonitor.last_boot_time SystemMonitor.boot_time
       SystemMonitor.current_time].
  unfold DT.sub, DT.make_timedelta. cbn [DT.seconds].
  generalize (DT.secs_of_day (datetime_now B) - DT.secs_of_day boot
              + (microsecond (datetime_now B) - microsecond boot) / 1000000).
  intros q. repeat split; try (Z.div_mod_to_equations; lia).
Qed.

(** Extra X16: [get_uptime] raises [AttributeError] when there is no
    operating-system record or when [LastBootUpTime] is [None], and
    [ValueError] when the text before the first point does not match the
    timestamp format. *)
Theorem uptime_without_boot_time (B : Backend) (self : nat) (s : state) :
  ((get_operating_system B self s).1 = Ok None ->
   (SystemMonitor.get_uptime B self s).1
   = Raise (Exn AttributeError
              "'NoneType' object has no attribute 'LastBootUpTime'"))
  /\ (forall os,
        (get_operating_system B self s).1 = Ok (Some os) ->
        obj_getattr os "LastBootUpTime" = Ok VNone ->
        (SystemMonitor.get_uptime B self s).1
        = Raise (Exn AttributeError
                   "'NoneType' object has no attribute 'split'"))
  /\ (forall os text,
        (get_operating_system B self s).1 = Ok (Some os) ->
        obj_getattr os "LastBootUpTime" = Ok (VStr text) ->
        DT.match_fields DT.boot_format (DT.before_point text) = None ->
        (SystemMonitor.get_uptime B self s).1
        = Raise (Exn ValueError
                   ("time data " +:+ repr_str (DT.before_point text)
                    +:+ " does not match format '%Y%m%d%H%M%S'"))).
Proof.
  unfold SystemMonitor.get_uptime, bind. repeat split.
  - intros H. destruct (get_operating_system B self s) as [[os|e] s1];
      simpl in H; [|discriminate].
    injection H as ->. reflexivity.
  - intros os H Ha. destruct (get_operating_system B self s) as [[o|e] s1];
      simpl in H; [|discriminate].
    injection H as ->. unfold lift, SystemMonitor.boot_time_str, attr. cbn [fst].
    rewrite Ha. reflexivity.
  - intros os text H Ha Hm.
    destruct (get_operating_system B self s) as [[o|e] s1];
      simpl in H; [|discriminate].
    injection H as ->. unfold lift, SystemMonitor.boot_time_str, attr. cbn [fst].
    rewrite Ha. cbn [rbind]. unfold DT.strptime. rewrite Hm. reflexivity.
Qed.

(* ---- the events of a log ---- *)


(* ---- what is returned when nothing is found ---- *)

(** Extra X18: when nothing is found, [get_motherboard_info] returns an
    empty dictionary, while [get_battery_status] and
    [get_adapter_by_description] return [None]; otherwise the first record
    is converted. *)
Theorem nothing_found_defaults (B : Backend) (self : nat) (s : state) :
  ((get_class B self "Win32_BaseBoard" ∅ s).1 = Ok [] ->
   (HardwareInfo.get_motherboard_info B self s).1 = Ok ∅)
  /\ ((get_class B self "Win32_Battery" ∅ s).1 = Ok [] ->
      (HardwareInfo.get_battery_status B self s).1 = Ok None)
  /\ (forall description,
        (get_network_adapters B self
           (<[ "Description" := VStr description ]>
              {[ "IPEnabled" := VBool true ]}) s).1 = Ok [] ->
        (NetworkManager.get_adapter_by_description B self description s).1
        = Ok None)
  /\ (forall board rest,
        (get_class B self "Win32_BaseBoard" ∅ s).1 = Ok (board :: rest) ->
        (HardwareInfo.get_motherboard_info B self s).1
        = Ok (wmi_object_to_dict board None))
  /\ (forall battery rest,
        (get_class B self "Win32_Battery" ∅ s).1 = Ok (battery :: rest) ->
        (HardwareInfo.get_battery_status B self s).1
        = Ok (Some (wmi_object_to_dict battery None))).
Proof.
  unfold HardwareInfo.get_motherboard_info, HardwareInfo.get_battery_status,
    NetworkManager.get_adapter_by_description, bind.
  repeat split.
  - intros H. destruct (get_class B self "Win32_BaseBoard" ∅ s) as [[r|e] s1];
      simpl in H; [|discriminate]. injection H as ->. reflexivity.
  - intros H. destruct (get_class B self "Win32_Battery" ∅ s) as [[r|e] s1];
      simpl in H; [|discriminate]. injection H as ->. reflexivity.
  - intros description H.
    destruct (get_network_adapters B self _ s) as [[r|e] s1];
      simpl in H; [|discriminate]. injection H as ->. reflexivity.
  - intros board rest H.
    destruct (get_class B self "Win32_BaseBoard" ∅ s) as [[r|e] s1];
      simpl in H; [|discriminate]. injection H as ->. reflexivity.
  - intros battery rest H.
    destruct (get_class B self "Win32_Battery" ∅ s) as [[r|e] s1];
      simpl in H; [|discriminate]. injection H as ->. reflexivity.
Qed.

(* ===================================================================== *)
(** ** Invariants of the shim and of the tool layer *)
(* ===================================================================== *)

(* ---- connections and wrappers ---- *)

Lemma consistent_opened_le_heap (s : state) :
  consistent s -> (length (opened s) <= length (heap s))%nat.
Proof.
  intros [C1 C2].
  assert (Hn : NoDup (fst <$> opened s)).
  { apply NoDup_alt. intros i j self Hi Hj.
    apply list_lookup_fmap_Some_1 in Hi as ([self1 t1] & E1 & Hi).
    apply list_lookup_fmap_Some_1 in Hj as ([self2 t2] & E2 & Hj).
    simpl in *. subst.
    destruct (C2 _ _ _ Hi) as (w1 & Hw1 & Hc1).
    destruct (C2 _ _ _ Hj) as (w2 & Hw2 & Hc2).
    congruence. }
  apply NoDup_ListNoDup in Hn.
  rewrite <- (length_fmap fst (opened s)), <- (List.length_seq (length (heap s)) 0).
  apply NoDup_incl_length; [exact Hn|].
  intros self Hin. apply in_seq.
  apply list_elem_of_In, list_elem_of_fmap in Hin as ([self' t] & -> & Hin).
  apply list_elem_of_lookup in Hin as [h Hh].
  destruct (C2 _ _ _ Hh) as (w & Hw & _). simpl.
  apply lookup_lt_Some in Hw. lia.
Qed.

Lemma consistent_target (s : state) h self t :
  consistent s -> opened s !! h = Some (self, t) ->
  exists w, heap s !! self = Some w /\ _connection w = Some h
            /\ t = (computer w, namespace w).
Proof.
  intros [C1 C2] H. destruct (C2 _ _ _ H) as (w & Hw & Hc).
  exists w. repeat split; auto.
  pose proof (C1 _ _ _ Hw Hc) as E. congruence.
Qed.

(** Extra X19: after any sequence of constructions and calls, there are
    at most as many connections as wrappers, and every connection is held
    by the wrapper that made it and was made for that wrapper's computer
    and namespace. *)
Theorem connections_belong_to_wrappers (B : Backend) (cs : list call) :
  let s := run_calls B cs initial_state in
  (length (opened s) <= length (heap s))%nat
  /\ forall h self t,
       opened s !! h = Some (self, t) ->
       exists w, heap s !! self = Some w
                 /\ _connection w = Some h
                 /\ t = (computer w, namespace w).
Proof.
  cbn zeta.
  pose proof (consistent_run_calls B cs _ consistent_initial) as C.
  split.
  - apply consistent_opened_le_heap, C.
  - intros h self t H. eapply consistent_target; eauto.
Qed.

(* ---- what the tools keep ---- *)

Section Keeps.
Variable B : Backend.

Lemma keeps_ret {A} (a : A) : keeps_tools (ret a).
Proof. intros s H. exact H. Qed.

Lemma keeps_raise {A} (e : exn) : keeps_tools (@raise A e).
Proof. intros s H. exact H. Qed.

Lemma keeps_lift {A} (r : result A) : keeps_tools (lift r).
Proof. intros s H. exact H. Qed.

Lemma keeps_bind {A C} (m : M A) (k : A -> M C) :
  keeps_tools m -> (forall a, keeps_tools (k a)) -> keeps_tools (bind m k).
Proof.
  intros Hm Hk s H. specialize (Hm s H). unfold bind.
  destruct (m s) as [[a|e] s1]; simpl in *; [apply Hk, Hm | exact Hm].
Qed.

Lemma keeps_global field method : keeps_tools (Tools.global field method).
Proof.
  intros s H. unfold Tools.global, bind, get_state. simpl.
  destruct (field (globals s)); exact H.
Qed.

Lemma keeps_get_connection self : keeps_tools (get_connection B self).
Proof.
  intros s [(Hg & Hl & Ht) C]. split; [|apply consistent_get_connection, C].
  destruct (heap s !! self) as [w|] eqn:Hw.
  2: { rewrite get_connection_dangling by auto. exact (conj Hg (conj Hl Ht)). }
  rewrite (get_connection_unfold B _ _ _ Hw).
  destruct (_connection w); [exact (conj Hg (conj Hl Ht))|].
  destruct (wmi_WMI B _ _ _); cbn [snd]; [exact (conj Hg (conj Hl Ht))|].
  unfold tools_made.
  cbn [globals heap set_connection record_opened count_attempt].
  split; [exact Hg|]. split; [rewrite length_alter; exact Hl|].
  intros self' w' H.
  destruct (decide (self' = self)) as [->|Hne].
  - rewrite list_lookup_alter_eq, Hw in H. cbn in H. injection H as <-.
    cbn [computer namespace]. apply (Ht _ _ Hw).
  - rewrite list_lookup_alter_ne in H by auto. apply (Ht _ _ H).
Qed.

Lemma keeps_query self wql : keeps_tools (query B self wql).
Proof.
  intros s H. rewrite query_state. apply keeps_get_connection, H.
Qed.

Lemma keeps_get_class self cls kw : keeps_tools (get_class B self cls kw).
Proof.
  intros s H. rewrite get_class_state. apply keeps_get_connection, H.
Qed.

Lemma keeps_ai_tool prefix suffix (body : M string) :
  keeps_tools body -> keeps_tools (Tools.ai_tool prefix suffix body).
Proof.
  intros Hb s H. specialize (Hb s H). unfold Tools.ai_tool, try_except.
  destruct (body s) as [[a|e] s1]; exact Hb.
Qed.

Lemma keeps_init_wmi : keeps_tools (Tools._init_wmi B).
Proof.
  intros s H. pose proof H as [(Hg & _) _].
  unfold Tools._init_wmi, bind, get_state. simpl. rewrite Hg. exact H.
Qed.

End Keeps.

Create HintDb keeps discriminated.
#[export] Hint Resolve keeps_ret keeps_raise keeps_lift keeps_global
  keeps_get_connection keeps_query keeps_get_class keeps_init_wmi : keeps.

(** Goes through the binds of a computation built from the calls above. *)
Ltac keeps :=
  repeat first
    [ solve [auto with keeps]
    | apply keeps_ai_tool
    | apply keeps_bind; [|intros ?]
    | match goal with
      | |- keeps_tools (match ?x with _ => _ end) => destruct x
      | |- keeps_tools (let '(_, _) := ?x in _) => destruct x
      end ].

Lemma keeps_tool_body (B : Backend) (t : Tools.tool) :
  keeps_tools (Tools.tool_body B t).
Proof.
  destruct t; cbn [Tools.tool_body];
    unfold Tools.get_system_info_body, Tools.get_memory_info_body,
      Tools.get_cpu_info_body, Tools.get_disk_info_body,
      Tools.get_network_info_body, Tools.get_uptime_body,
      Tools.check_admin_privileges_body, Tools.list_services_body,
      Tools.get_service_status_body, Tools.list_processes_body,
      Tools.get_process_performance_body, Tools.execute_wql_query_body,
      get_operating_system, get_computer_system, get_bios,
      SystemMonitor.get_memory_info, SystemMonitor.get_uptime,
      ProcessManager.get_high_memory_processes, get_processes,
      get_operating_system, get_computer_system;
    keeps.
Qed.

Lemma keeps_run_tool (B : Backend) (t : Tools.tool) :
  keeps_tools (Tools.run_tool B t).
Proof.
  destruct (run_tool_shape B t) as (p & q & -> & _).
  apply keeps_ai_tool, keeps_tool_body.
Qed.

Lemma tools_made_ready com : tools_made (tools_ready com).
Proof.
  split; [reflexivity|]. split; [reflexivity|].
  intros self w H. unfold tools_ready in H. cbn [heap] in H.
  destruct self as [|[|[|self]]]; simpl in H; try discriminate;
    injection H as <-; split; reflexivity.
Qed.

(** From the start of the process, a tool either leaves the state as it
    was or makes the module objects. *)
Lemma run_tool_from_start (B : Backend) (t : Tools.tool) :
  (Tools.run_tool B t initial_state).2 = initial_state
  \/ (tools_made (Tools.run_tool B t initial_state).2
      /\ consistent (Tools.run_tool B t initial_state).2).
Proof.
  destruct (tools_init B) as [com Hinit].
  assert (K : forall (rest : M string) prefix suffix,
            keeps_tools rest ->
            let r := Tools.ai_tool prefix suffix
                       (bind (Tools._init_wmi B) (fun _ => rest)) initial_state in
            tools_made r.2 /\ consistent r.2).
  { intros rest prefix suffix Hk. cbn zeta.
    unfold Tools.ai_tool, try_except. rewrite (bind_ok _ _ _ _ _ Hinit).
    specialize (Hk (tools_ready com)
                  (conj (tools_made_ready com) (consistent_tools_ready com))).
    destruct (rest (tools_ready com)) as [[a|e] s1]; exact Hk. }
  destruct t; cbn [Tools.run_tool];
    try (right;
         unfold Tools.get_system_info, Tools.get_memory_info, Tools.get_cpu_info,
           Tools.get_disk_info, Tools.get_network_info, Tools.get_uptime,
           Tools.list_services, Tools.get_service_status, Tools.list_processes,
           Tools.get_process_performance, Tools.execute_wql_query,
           Tools.get_system_info_body, Tools.get_memory_info_body,
           Tools.get_cpu_info_body, Tools.get_disk_info_body,
           Tools.get_network_info_body, Tools.get_uptime_body,
           Tools.list_services_body, Tools.get_service_status_body,
           Tools.list_processes_body, Tools.get_process_performance_body,
           Tools.execute_wql_query_body;
         apply K;
         unfold get_operating_system, get_computer_system, get_bios,
           SystemMonitor.get_memory_info, SystemMonitor.get_uptime,
           ProcessManager.get_high_memory_processes, get_processes;
         keeps).
  left. reflexivity.
Qed.

Lemma run_tools_inv (B : Backend) (ts : list Tools.tool) (s : state) :
  s = initial_state \/ (tools_made s /\ consistent s) ->
  run_tools B ts s = initial_state
  \/ (tools_made (run_tools B ts s) /\ consistent (run_tools B ts s)).
Proof.
  revert s. induction ts as [|t ts IH]; intros s H; [exact H|].
  cbn [run_tools fold_left]. apply IH.
  destruct H as [->|H].
  - apply run_tool_from_start.
  - right. apply keeps_run_tool, H.
Qed.

Lemma consistent_opened_by (s : state) self :
  consistent s -> (length (opened_by self s) <= 1)%nat.
Proof.
  intros [C1 C2]. unfold opened_by. apply filter_at_most_one.
  intros i j [o1 t1] [o2 t2] Hi Hj P1 P2. simpl in *.
  apply Nat.eqb_eq in P1, P2. subst.
  destruct (C2 _ _ _ Hi) as (w1 & Hw1 & Hc1).
  destruct (C2 _ _ _ Hj) as (w2 & Hw2 & Hc2).
  congruence.
Qed.

(** Extra X20: however many tools are run, in any order, from the start
    of the process, the tool layer has made either no wrapper or exactly
    three, never more connections than wrappers and at most one per
    wrapper, and every connection is to the local machine and the default
    namespace. *)
Theorem tools_share_three_wrappers (B : Backend) (ts : list Tools.tool) :
  let s := run_tools B ts initial_state in
  (length (heap s) = 0 \/ length (heap s) = 3)%nat
  /\ (length (opened s) <= length (heap s))%nat
  /\ (forall self, length (opened_by self s) <= 1)%nat
  /\ (forall h self t, opened s !! h = Some (self, t) -> t = (".", cimv2)).
Proof.
  cbn zeta.
  destruct (run_tools_inv B ts initial_state (or_introl eq_refl))
    as [->|[(Hg & Hl & Ht) C]].
  - split; [left; reflexivity|]. split; [reflexivity|]. split.
    + intros self. cbn. lia.
    + intros h self t H. cbn in H. rewrite lookup_nil in H. discriminate.
  - split; [right; exact Hl|]. split; [apply consistent_opened_le_heap, C|].
    split.
    + intros self. apply consistent_opened_by, C.
    + intros h self t H.
      destruct (consistent_target _ _ _ _ C H) as (w & Hw & _ & ->).
      destruct (Ht _ _ Hw) as [-> ->]. reflexivity.
Qed.

(* ===================================================================== *)
(** ** Further properties of the tools *)
(* ===================================================================== *)

(* ---- a tool that queries through [_wrapper], in a fresh process ---- *)

Lemma query_tools_ready (B : Backend) com wql :
  wmi_WMI B "." cimv2 0%nat = None ->
  query B 0 wql (tools_ready com)
  = (conn_query B (".", cimv2) wql, tools_connected com).
Proof.
  intros Hc. unfold query, bind.
  assert (Hw : heap (tools_ready com) !! 0%nat
               = Some {| computer := "."; namespace := cimv2;
                         _connection := None |}) by reflexivity.
  rewrite (get_connection_unfold B _ _ _ Hw). cbn [_connection computer namespace].
  change (attempts (tools_ready com)) with 0%nat. rewrite Hc.
  unfold target_of, lift. cbn.
  destruct (conn_query B (".", cimv2) wql); reflexivity.
Qed.

Lemma fresh_query (B : Backend) com wql (k : list wmi_object -> M string) :
  wmi_WMI B "." cimv2 0%nat = None ->
  Tools._init_wmi B initial_state = (Ok tt, tools_ready com) ->
  bind (Tools._init_wmi B) (fun _ =>
    bind (Tools.global _wrapper "query") (fun w =>
      bind (query B w wql) k)) initial_state
  = match conn_query B (".", cimv2) wql with
    | Ok r => k r (tools_connected com)
    | Raise e => (Raise e, tools_connected com)
    end.
Proof.
  intros Hc Hinit.
  rewrite (bind_ok _ _ _ _ _ Hinit).
  rewrite (bind_ok _ _ (tools_ready com) 0%nat (tools_ready com)) by reflexivity.
  unfold bind at 1. rewrite (query_tools_ready B com wql Hc).
  destruct (conn_query B (".", cimv2) wql); reflexivity.
Qed.

Lemma disk_info_loop_skips disks acc :
  (forall d, In d disks ->
     exists v, obj_getattr d "Size" = Ok v /\ truthy v = false) ->
  rfor_each disks acc Tools.disk_info_step = Ok acc.
Proof.
  induction disks as [|d disks IH]; intros H; [reflexivity|].
  cbn [rfor_each]. destruct (H d) as (v & Hv & Tv); [left; reflexivity|].
  unfold Tools.disk_info_step at 1. rewrite Hv. cbn [rbind].
  rewrite Tv. cbn [rbind]. apply IH. intros; apply H; right; assumption.
Qed.

(** Extra X21: in a fresh process whose connection succeeds, a tool
    whose query returns nothing says so instead of failing: [get_cpu_info],
    [get_network_info], [get_service_status], [list_services],
    [execute_wql_query]; and [get_disk_info] says so when no disk has a
    truthy [Size]. *)
Theorem tools_report_empty_results (B : Backend) :
  wmi_WMI B "." cimv2 0%nat = None ->
  (conn_query B (".", cimv2) "SELECT * FROM Win32_Processor" = Ok [] ->
   (Tools.get_cpu_info B initial_state).1 = Ok "No CPU information available")
  /\ (conn_query B (".", cimv2)
        "SELECT * FROM Win32_NetworkAdapterConfiguration WHERE IPEnabled=True"
      = Ok [] ->
      (Tools.get_network_info B initial_state).1
      = Ok "No active network adapters found")
  /\ (forall service_name,
        conn_query B (".", cimv2)
          (Tools.services_columns +:+ " WHERE Name = '" +:+ service_name +:+ "'")
        = Ok [] ->
        (Tools.get_service_status B service_name initial_state).1
        = Ok ("Service '" +:+ service_name +:+ "' not found"))
  /\ (forall state,
        conn_query B (".", cimv2) (Tools.services_query state) = Ok [] ->
        (Tools.list_services B state initial_state).1
        = Ok ("Windows Services (0):" +:+ nl))
  /\ (forall wql,
        conn_query B (".", cimv2) wql = Ok [] ->
        (Tools.execute_wql_query B wql initial_state).1
        = Ok "Query returned no results")
  /\ (forall disks,
        conn_query B (".", cimv2)
          "SELECT * FROM Win32_LogicalDisk WHERE DriveType=3" = Ok disks ->
        (forall d, In d disks ->
           exists v, obj_getattr d "Size" = Ok v /\ truthy v = false) ->
        (Tools.get_disk_info B initial_state).1
        = Ok "No disk information available").
Proof.
  intros Hc. destruct (tools_init B) as [com Hinit]. repeat split.
  - intros Hq. unfold Tools.get_cpu_info, Tools.ai_tool, try_except,
      Tools.get_cpu_info_body.
    rewrite (fresh_query B com _ _ Hc Hinit).
    rewrite Hq. reflexivity.
  - intros Hq. unfold Tools.get_network_info, Tools.ai_tool, try_except,
      Tools.get_network_info_body.
    rewrite (fresh_query B com _ _ Hc Hinit).
    rewrite Hq. reflexivity.
  - intros service_name Hq.
    unfold Tools.get_service_status, Tools.ai_tool, try_except,
      Tools.get_service_status_body.
    rewrite (fresh_query B com _ _ Hc Hinit).
    rewrite Hq. reflexivity.
  - intros state Hq.
    unfold Tools.list_services, Tools.ai_tool, try_except,
      Tools.list_services_body.
    rewrite (fresh_query B com _ _ Hc Hinit).
    rewrite Hq. reflexivity.
  - intros wql Hq.
    unfold Tools.execute_wql_query, Tools.ai_tool, try_except,
      Tools.execute_wql_query_body.
    rewrite (fresh_query B com _ _ Hc Hinit).
    rewrite Hq. reflexivity.
  - intros disks Hq Hs.
    unfold Tools.get_disk_info, Tools.ai_tool, try_except,
      Tools.get_disk_info_body.
    rewrite (fresh_query B com _ _ Hc Hinit).
    rewrite Hq. unfold lift. rewrite (disk_info_loop_skips disks _ Hs).
    reflexivity.
Qed.

(* ---- [sorted(..., key=..., reverse=True)] ---- *)

Lemma insert_desc_perm {A} (kx : Z * A) l :
  Permutation (insert_desc kx l) (kx :: l).
Proof.
  induction l as [|ky l IH]; simpl; auto.
  destruct (ky.1 <=? kx.1); auto.
  rewrite IH. apply perm_swap.
Qed.

Lemma isort_desc_perm {A} (l : list (Z * A)) :
  Permutation (fold_right insert_desc [] l) l.
Proof.
  induction l as [|x l IH]; simpl; auto.
  rewrite insert_desc_perm. auto.
Qed.

Lemma insert_desc_sorted {A} (kx : Z * A) l :
  StronglySorted (fun a b => b.1 <= a.1) l ->
  StronglySorted (fun a b => b.1 <= a.1) (insert_desc kx l).
Proof.
  induction 1 as [|ky l Hs IH Hy]; simpl.
  - repeat constructor.
  - destruct (Z.leb_spec ky.1 kx.1).
    + constructor; [constructor; auto|].
      constructor; auto.
      apply List.Forall_forall. intros z Hz.
      rewrite List.Forall_forall in Hy. specialize (Hy z Hz). lia.
    + constructor; auto.
      apply List.Forall_forall. intros z Hz.
      apply (Permutation_in _ (insert_desc_perm kx l)) in Hz.
      destruct Hz as [<-|Hz]; [lia|].
      rewrite List.Forall_forall in Hy. auto.
Qed.

Lemma isort_desc_sorted {A} (l : list (Z * A)) :
  StronglySorted (fun a b => b.1 <= a.1) (fold_right insert_desc [] l).
Proof.
  induction l as [|x l IH]; simpl; [constructor|].
  apply insert_desc_sorted, IH.
Qed.

Lemma rmap_keys {A} (key : A -> result Z) (size : A -> Z) (l : list A) :
  (forall x, In x l -> key x = Ok (size x)) ->
  rmap (fun x => (k <~ key x ;; Ok (k, x))%py) l
  = Ok (List.map (fun x => (size x, x)) l).
Proof.
  induction l as [|x l IH]; intros H; [reflexivity|].
  cbn [rmap List.map]. rewrite (H x) by (left; reflexivity). cbn [rbind].
  rewrite IH by (intros; apply H; right; assumption). reflexivity.
Qed.

Lemma sorted_keys_snd {A} (size : A -> Z) (l : list (Z * A)) :
  List.Forall (fun a => a.1 = size a.2) l ->
  StronglySorted (fun a b => b.1 <= a.1) l ->
  StronglySorted (fun p q => size q <= size p) (List.map snd l).
Proof.
  intros Hk Hs. induction Hs as [|a l Hs IH Ha]; simpl; [constructor|].
  inversion Hk as [|? ? Ka Kl]; subst.
  constructor; [apply IH, Kl|].
  apply List.Forall_forall. intros q Hq.
  apply in_map_iff in Hq as (b & <- & Hb).
  rewrite List.Forall_forall in Ha, Kl.
  rewrite <- Ka, <- (Kl b Hb). apply Ha, Hb.
Qed.

(** What [sorted(l, key=..., reverse=True)] gives when every key can be
    computed: the elements of [l], by descending key. *)
Lemma sorted_desc_spec {A} (key : A -> result Z) (size : A -> Z) (l : list A) :
  (forall x, In x l -> key x = Ok (size x)) ->
  exists ranked,
    sorted_desc key l = Ok ranked
    /\ Permutation ranked l
    /\ StronglySorted (fun p q => size q <= size p) ranked.
Proof.
  intros H. unfold sorted_desc. rewrite (rmap_keys key size l H). cbn [rbind].
  eexists. split; [reflexivity|]. split.
  - rewrite isort_desc_perm, map_map. simpl. rewrite map_id. reflexivity.
  - apply sorted_keys_snd; [|apply isort_desc_sorted].
    rewrite (isort_desc_perm (List.map (fun x => (size x, x)) l)).
    apply List.Forall_forall. intros a Ha.
    apply in_map_iff in Ha as (x & <- & _). reflexivity.
Qed.

(* ---- the classes a wrapper of the tools fetches ---- *)

Lemma matches_empty (o : wmi_object) : matches ∅ o = true.
Proof. unfold matches. rewrite map_to_list_empty. reflexivity. Qed.

Lemma class_call_all (B : Backend) target cls :
  class_call B target cls ∅ = class_instances B target cls.
Proof.
  unfold class_call. destruct (class_instances B target cls) as [l|e];
    [|reflexivity].
  cbn [rbind]. f_equal. induction l as [|x l IH]; [reflexivity|].
  cbn [List.filter]. rewrite matches_empty, IH. reflexivity.
Qed.

Lemma get_class_tools_ready (B : Backend) com (self : nat) cls kw :
  (self < 3)%nat ->
  wmi_WMI B "." cimv2 0%nat = None ->
  (get_class B self cls kw (tools_ready com)).1
  = class_call B (".", cimv2) cls kw.
Proof.
  intros Hs Hc.
  assert (Hw : heap (tools_ready com) !! self
               = Some {| computer := "."; namespace := cimv2;
                         _connection := None |}).
  { destruct self as [|[|[|self]]]; try reflexivity. lia. }
  assert (Hconn : (get_connection B self (tools_ready com)).1 = Ok 0%nat).
  { rewrite (get_connection_unfold B _ _ _ Hw).
    cbn [_connection computer namespace].
    change (attempts (tools_ready com)) with 0%nat. rewrite Hc. reflexivity. }
  pose proof (get_connection_target B self _ _ _
                (consistent_tools_ready com) Hw Hconn) as Ht.
  unfold get_class, bind.
  destruct (get_connection B self (tools_ready com)) as [[c|e] s1];
    simpl in *; [|discriminate].
  injection Hconn as ->. unfold target_of. rewrite Ht. reflexivity.
Qed.

(** Extra X22: in a fresh process, [list_processes] shows only processes
    whose working set is truthy and above 0; it returns "No processes
    found" when there is none, and otherwise the lines of the first 15 of
    them in descending order of memory. *)
Theorem list_processes_ranks_by_memory (B : Backend)
    (all_processes : list wmi_object)
    (working_set : wmi_object -> pyval) (size : wmi_object -> Z) :
  wmi_WMI B "." cimv2 0%nat = None ->
  class_instances B (".", cimv2) "Win32_Process" = Ok all_processes ->
  (forall p, In p all_processes ->
     obj_getattr p "WorkingSetSize" = Ok (working_set p)
     /\ (truthy (working_set p) = true -> int (working_set p) = Ok (size p))) ->
  let shown := List.filter (fun p => truthy (working_set p) && (0 <? size p))
                           all_processes in
  (shown = [] ->
   (Tools.list_processes B initial_state).1 = Ok "No processes found")
  /\ (shown <> [] ->
      exists ranked,
        Permutation ranked shown
        /\ StronglySorted (fun p q => size q <= size p) ranked
        /\ (Tools.list_processes B initial_state).1
           = Ok match process_lines (firstn 15 ranked) with
                | Ok text => text
                | Raise e => "Error listing processes: " +:+ str_exn e
                end).
Proof.
  intros Hc Hall Hread shown.
  destruct (tools_init B) as [com Hinit].
  assert (Hhigh : (ProcessManager.get_high_memory_processes B 2 0
                     (tools_ready com)).1 = Ok shown).
  { pose proof (get_class_tools_ready B com 2 "Win32_Process" ∅
                  ltac:(lia) Hc) as Hg.
    rewrite class_call_all, Hall in Hg.
    unfold ProcessManager.get_high_memory_processes, get_processes, bind.
    destruct (get_class B 2 "Win32_Process" ∅ (tools_ready com)) as [[r|e] s2];
      simpl in Hg; [|discriminate].
    injection Hg as ->. unfold lift. cbn [fst].
    apply rfilter_all_ok. intros p Hp.
    destruct (Hread p Hp) as [Hw Hi]. apply uses_more_reads; assumption. }
  assert (Hbody : forall k : list wmi_object -> M string,
     (bind (Tools._init_wmi B) (fun _ =>
        bind (Tools.global _process_mgr "get_high_memory_processes") (fun p =>
          bind (ProcessManager.get_high_memory_processes B p 0) k))
        initial_state).1
     = (k shown (ProcessManager.get_high_memory_processes B 2 0
                   (tools_ready com)).2).1).
  { intros k. rewrite (bind_ok _ _ _ _ _ Hinit).
    rewrite (bind_ok _ _ (tools_ready com) 2%nat (tools_ready com)) by reflexivity.
    unfold bind at 1.
    destruct (ProcessManager.get_high_memory_processes B 2 0 (tools_ready com))
      as [[r|e] s2]; simpl in Hhigh; [|discriminate].
    injection Hhigh as ->. reflexivity. }
  split.
  - intros E. apply ai_tool_ok. unfold Tools.list_processes_body.
    rewrite Hbody, E. reflexivity.
  - intros NE.
    destruct (sorted_desc_spec (fun p => int_or_zero p "WorkingSetSize") size shown)
      as (ranked & Hsort & Hperm & Hsorted).
    { intros p Hp. apply filter_In in Hp as [Hin Hk].
      apply andb_true_iff in Hk as [Ht _].
      destruct (Hread p Hin) as [Hw Hi]. unfold int_or_zero.
      rewrite Hw. cbn [rbind]. rewrite Ht. cbn [rbind]. apply Hi, Ht. }
    exists ranked. split; [exact Hperm|]. split; [exact Hsorted|].
    assert (Hb : (Tools.list_processes_body B initial_state).1
                 = process_lines (firstn 15 ranked)).
    { unfold Tools.list_processes_body. rewrite Hbody.
      destruct shown as [|p0 rest] eqn:Es; [contradiction|].
      unfold lift. cbn [fst]. rewrite Hsort. cbn [rbind].
      rewrite slice_to_nonneg by lia. reflexivity. }
    unfold Tools.list_processes.
    destruct (process_lines (firstn 15 ranked)) as [text|e] eqn:El.
    + apply ai_tool_ok. rewrite Hb. reflexivity.
    + rewrite (ai_tool_raise _ _ _ _ e) by (rewrite Hb; reflexivity).
      rewrite append_nil_r. reflexivity.
Qed.

(* ---- [get_system_info] without a BIOS or an operating-system record ---- *)

Lemma get_class_ready (B : Backend) com cls kw :
  wmi_WMI B "." cimv2 0%nat = None ->
  get_class B 0 cls kw (tools_ready com)
  = (class_call B (".", cimv2) cls kw, tools_connected com).
Proof.
  intros Hc. unfold get_class, bind.
  assert (Hw : heap (tools_ready com) !! 0%nat
               = Some {| computer := "."; namespace := cimv2;
                         _connection := None |}) by reflexivity.
  rewrite (get_connection_unfold B _ _ _ Hw). cbn [_connection computer namespace].
  change (attempts (tools_ready com)) with 0%nat. rewrite Hc.
  unfold target_of, lift. cbn.
  destruct (class_call B (".", cimv2) cls kw); reflexivity.
Qed.

Lemma get_class_connected (B : Backend) com cls kw :
  get_class B 0 cls kw (tools_connected com)
  = (class_call B (".", cimv2) cls kw, tools_connected com).
Proof.
  unfold get_class, bind.
  assert (Hw : heap (tools_connected com) !! 0%nat
               = Some {| computer := "."; namespace := cimv2;
                         _connection := Some 0%nat |}) by reflexivity.
  rewrite (get_connection_unfold B _ _ _ Hw). cbn [_connection].
  unfold target_of, lift. cbn.
  destruct (class_call B (".", cimv2) cls kw); reflexivity.
Qed.

Lemma system_info_fetches (B : Backend) com os_list cs_list bios_list
    (k : option wmi_object -> option wmi_object -> option wmi_object -> M string) :
  wmi_WMI B "." cimv2 0%nat = None ->
  Tools._init_wmi B initial_state = (Ok tt, tools_ready com) ->
  class_instances B (".", cimv2) "Win32_OperatingSystem" = Ok os_list ->
  class_instances B (".", cimv2) "Win32_ComputerSystem" = Ok cs_list ->
  class_instances B (".", cimv2) "Win32_BIOS" = Ok bios_list ->
  bind (Tools._init_wmi B) (fun _ =>
    bind (Tools.global _wrapper "get_operating_system") (fun w =>
      bind (get_operating_system B w) (fun os_info =>
        bind (Tools.global _wrapper "get_computer_system") (fun w =>
          bind (get_computer_system B w) (fun cs_info =>
            bind (Tools.global _wrapper "get_bios") (fun w =>
              bind (get_bios B w) (fun bios_info =>
                k os_info cs_info bios_info)))))))
    initial_state
  = k (first_or_none os_list) (first_or_none cs_list) (first_or_none bios_list)
      (tools_connected com).
Proof.
  intros Hc Hinit Hos Hcs Hbios.
  rewrite (bind_ok _ _ _ _ _ Hinit).
  rewrite (bind_ok _ _ (tools_ready com) 0%nat (tools_ready com)) by reflexivity.
  rewrite (bind_ok _ _ (tools_ready com) (first_or_none os_list)
             (tools_connected com)).
  2: { unfold get_operating_system.
       rewrite (bind_ok _ _ _ os_list (tools_connected com)); [reflexivity|].
       rewrite get_class_ready by auto. rewrite class_call_all, Hos. reflexivity. }
  rewrite (bind_ok _ _ (tools_connected com) 0%nat (tools_connected com))
    by reflexivity.
  rewrite (bind_ok _ _ (tools_connected com) (first_or_none cs_list)
             (tools_connected com)).
  2: { unfold get_computer_system.
       rewrite (bind_ok _ _ _ cs_list (tools_connected com)); [reflexivity|].
       rewrite get_class_connected. rewrite class_call_all, Hcs. reflexivity. }
  rewrite (bind_ok _ _ (tools_connected com) 0%nat (tools_connected com))
    by reflexivity.
  rewrite (bind_ok _ _ (tools_connected com) (first_or_none bios_list)
             (tools_connected com)).
  2: { unfold get_bios.
       rewrite (bind_ok _ _ _ bios_list (tools_connected com)); [reflexivity|].
       rewrite get_class_connected. rewrite class_call_all, Hbios. reflexivity. }
  reflexivity.
Qed.

(** Extra X23: [get_system_info] guards a missing BIOS record but not a
    missing operating-system record: without the latter it returns the
    error text of the [AttributeError], and without a BIOS record its text
    ends with the two lines "BIOS: N/A" and "Serial Number: N/A". *)
Theorem system_info_without_a_record (B : Backend)
    (os_list cs_list bios_list : list wmi_object) :
  wmi_WMI B "." cimv2 0%nat = None ->
  class_instances B (".", cimv2) "Win32_OperatingSystem" = Ok os_list ->
  class_instances B (".", cimv2) "Win32_ComputerSystem" = Ok cs_list ->
  class_instances B (".", cimv2) "Win32_BIOS" = Ok bios_list ->
  (os_list = [] ->
   (Tools.get_system_info B initial_state).1
   = Ok "Error getting system info: 'NoneType' object has no attribute 'Caption'")
  /\ (bios_list = [] ->
      forall text,
        (Tools.get_system_info_body B initial_state).1 = Ok text ->
        (Tools.get_system_info B initial_state).1 = Ok text
        /\ exists head,
             text = head +:+ "  BIOS: N/A" +:+ nl
                    +:+ "  Serial Number: N/A" +:+ nl).
Proof.
  intros Hc Hos Hcs Hbios.
  destruct (tools_init B) as [com Hinit].
  split.
  - intros ->. apply ai_tool_raise with
      (e := Exn AttributeError "'NoneType' object has no attribute 'Caption'").
    unfold Tools.get_system_info_body.
    rewrite (system_info_fetches B com [] cs_list bios_list _ Hc Hinit Hos Hcs Hbios).
    reflexivity.
  - intros -> text Hbody. split; [apply ai_tool_ok, Hbody|].
    unfold Tools.get_system_info_body in Hbody.
    rewrite (system_info_fetches B com os_list cs_list [] _ Hc Hinit Hos Hcs Hbios)
      in Hbody.
    unfold lift in Hbody. cbn [fst first_or_none] in Hbody.
    repeat match type of Hbody with
    | context [rbind ?r _] =>
        destruct r; cbn [rbind] in Hbody; [|discriminate Hbody]
    end.
    injection Hbody as <-.
    match goal with
    | |- exists head, (?r +:+ ?a) +:+ ?b = _ =>
        exists r; rewrite (append_assoc r a b); reflexivity
    end.
Qed.

(* ===================================================================== *)
(** ** The commands, and the settings of the agent *)
(* ===================================================================== *)

(* ---- the console under the shim ---- *)

Lemma console_init (B : Backend) comp ns s :
  console (WMIWrapper_init B comp ns s).2 = console s.
Proof. destruct (init_state B comp ns s) as [c ->]. reflexivity. Qed.

Lemma console_get_connection (B : Backend) self s :
  console (get_connection B self s).2 = console s.
Proof.
  destruct (heap s !! self) as [w|] eqn:Hw.
  2: { rewrite get_connection_dangling by auto. reflexivity. }
  rewrite (get_connection_unfold B _ _ _ Hw).
  destruct (_connection w); [reflexivity|].
  destruct (wmi_WMI B _ _ _); reflexivity.
Qed.

Lemma console_query (B : Backend) self wql s :
  console (query B self wql s).2 = console s.
Proof. rewrite query_state. apply console_get_connection. Qed.

Lemma console_print_in (B : Backend) (x out : output) (s : state) :
  In out (console (console_print B x s).2) -> In out (console s) \/ out = x.
Proof.
  unfold console_print. destruct (rich_render B x); cbn; [auto|].
  intros H. apply in_app_or in H as [H|[H|[]]]; auto.
Qed.


Lemma for_each_print_in (B : Backend) (results : list wmi_object) s out :
  In out (console
            (for_each results tt (fun _ obj => console_print B (OutObject obj)) s).2) ->
  In out (console s) \/ exists obj, out = OutObject obj.
Proof.
  revert s. induction results as [|obj results IH]; intros s; [cbn; auto|].
  cbn [for_each]. unfold bind.
  pose proof (console_print_in B (OutObject obj) out s) as P.
  destruct (console_print B (OutObject obj) s) as [[[]|e] s1]; cbn [snd] in *.
  - intros H. destruct (IH _ H) as [H1|H1]; [|auto].
    destruct (P H1) as [H2|H2]; eauto.
  - intros H. destruct (P H) as [H2|H2]; eauto.
Qed.

(* ---- the tables of the [query] command ---- *)

Lemma cell_is_text obj prop : exists text, Cli.cell obj prop = VStr text.
Proof.
  unfold Cli.cell. destruct (obj_getattr obj prop) as [v|e]; [|eexists; reflexivity].
  destruct v; try (eexists; reflexivity).
  destruct (str (VInt z)); eexists; reflexivity.
Qed.

Lemma rows_are_text (results : list wmi_object) (properties : list string) row :
  In row (List.map (fun obj => List.map (Cli.cell obj) properties) results) ->
  length row = length properties
  /\ forall c, In c row -> exists text, c = VStr text.
Proof.
  intros H. apply in_map_iff in H as (obj & <- & _). split.
  - apply length_map.
  - intros c Hc. apply in_map_iff in Hc as (prop & <- & _). apply cell_is_text.
Qed.

Lemma slice_to_10 {A} (l : list A) : (length (slice_to l 10) <= 10)%nat.
Proof. rewrite slice_to_nonneg by lia. rewrite length_firstn. lia. Qed.

Lemma display_table_in (B : Backend) results title s out :
  In out (console (Cli._display_table B results title s).2) ->
  In out (console s) \/ rectangular out.
Proof.
  unfold Cli._display_table. destruct results as [|sample rest]; [cbn; auto|].
  set (props := List.filter (Cli.shown sample) (obj_dir sample)).
  set (cols := if (10 <? length props)%nat then slice_to props 10 else props).
  intros H. apply console_print_in in H as [H| ->]; [auto|]. right. split.
  - unfold cols. destruct (10 <? length props)%nat eqn:E;
      [apply slice_to_10 | apply Nat.ltb_ge in E; exact E].
  - intros row Hr. exact (rows_are_text (sample :: rest) cols row Hr).
Qed.

Lemma query_table_in (B : Backend) first_obj results s out :
  In out (console (Cli.query_table B first_obj results s).2) ->
  In out (console s) \/ rectangular out.
Proof.
  unfold Cli.query_table, bind, lift.
  destruct (obj_properties first_obj) as [names|e]; cbn [fst snd]; [|auto].
  intros H. apply console_print_in in H as [H| ->]; [auto|]. right. split.
  - apply slice_to_10.
  - intros row Hr. exact (rows_are_text results (slice_to names 10) row Hr).
Qed.

Lemma query_body_in (B : Backend) wql namespace output_format computer s out :
  In out (console (Cli.query_body B wql namespace output_format computer s).2) ->
  In out (console s) \/ rectangular out.
Proof.
  unfold Cli.query_body, bind.
  pose proof (console_init B computer namespace s) as Ci.
  destruct (WMIWrapper_init B computer namespace s) as [[w|e] s1];
    cbn [snd] in Ci; [|cbn; rewrite Ci; auto].
  pose proof (console_query B w wql s1) as Cq.
  destruct (query B w wql s1) as [[results|e] s2]; cbn [snd] in Cq;
    [|cbn; rewrite Cq, Ci; auto].
  rewrite <- Ci, <- Cq.
  destruct results as [|first_obj rest].
  { intros H. apply console_print_in in H as [H| ->]; [auto | right; exact I]. }
  destruct (String.eqb output_format "json").
  { intros H. apply console_print_in in H as [H| ->]; [auto | right; exact I]. }
  destruct (String.eqb output_format "table").
  - unfold try_except.
    pose proof (query_table_in B first_obj (first_obj :: rest) s2 out) as T.
    destruct (Cli.query_table B first_obj (first_obj :: rest) s2) as [[[]|e] s3];
      cbn [snd] in *; [exact T|].
    intros H. apply display_table_in in H as [H|H]; auto.
  - intros H. apply for_each_print_in in H as [H|[obj ->]]; [auto | right; exact I].
Qed.

(** Extra X24: every table the [query] command prints has at most 10
    columns, and every row has one cell per column, each cell a text. *)
Theorem query_tables_are_rectangular (B : Backend)
    (wql namespace output_format computer : string) (s : state)
    (title : string) (columns : list string) (rows : list (list pyval)) :
  In (OutTable title columns rows)
     (console (Cli.query_command B wql namespace output_format computer s).2) ->
  In (OutTable title columns rows) (console s)
  \/ ((length columns <= 10)%nat
      /\ forall row, In row rows ->
           length row = length columns
           /\ forall c, In c row -> exists text, c = VStr text).
Proof.
  unfold Cli.query_command, Cli.guarded, try_except.
  pose proof (query_body_in B wql namespace output_format computer s
                (OutTable title columns rows)) as Hb.
  destruct (Cli.query_body B wql namespace output_format computer s)
    as [[[]|e] s1]; cbn [snd] in Hb; [exact Hb|].
  unfold bind. intros H.
  pose proof (console_print_in B
    (OutText ("[red]Error executing query: " +:+ str_exn e +:+ "[/red]"))
    (OutTable title columns rows) s1) as P.
  destruct (console_print B _ s1) as [[[]|e'] s2]; cbn [snd] in *;
    destruct (P H) as [H1|H1]; [auto | discriminate | auto | discriminate].
Qed.


(* ---- the [list-classes] command ---- *)



(* ---- the settings of an agent ---- *)

Lemma ends_with_slash_app s : Agent.ends_with_slash (s +:+ "/") = true.
Proof.
  induction s as [|c s IH]; [reflexivity|].
  change (String c s +:+ "/") with (String c (s +:+ "/")).
  cbn [Agent.ends_with_slash].
  destruct (s +:+ "/") eqn:E; [|exact IH].
  destruct s; discriminate E.
Qed.

Lemma or_str_falsy x y : Agent.falsy (Agent.or_str x y) = false ->
  exists v, Agent.or_str x y = Some v /\ v <> "".
Proof.
  destruct (Agent.or_str x y) as [v|]; [|discriminate].
  simpl. intros H. exists v. split; [reflexivity|].
  apply String.eqb_neq, H.
Qed.

(** Extra X27: a [WMIAgent] that was constructed has the provider
    "ollama" or "azure"; a provider or model given as an argument wins over
    the environment; and for "azure" the endpoint ends with a slash (added
    when it was missing, never doubled), the model is not empty and is the
    deployment name. *)
Theorem agent_settings_are_complete (environ : gmap string string)
    (DEFAULT_INSTRUCTIONS : string)
    (provider model_id endpoint instructions : option string) (name : string)
    (agent : Agent.WMIAgent) :
  Agent.init environ DEFAULT_INSTRUCTIONS provider model_id endpoint
             instructions name = Ok agent ->
  (Agent.provider agent = "ollama" \/ Agent.provider agent = "azure")
  /\ Agent.name agent = name
  /\ (forall p, provider = Some p -> p <> "" -> Agent.provider agent = p)
  /\ (forall m, model_id = Some m -> m <> "" -> Agent.model_id agent = m)
  /\ (Agent.provider agent = "azure" ->
      Agent.ends_with_slash (Agent.endpoint agent) = true
      /\ Agent.model_id agent <> ""
      /\ Agent.deployment_name agent = Some (Agent.model_id agent)
      /\ exists given,
           Agent.or_str endpoint (environ !! "AZURE_OPENAI_ENDPOINT") = Some given
           /\ (Agent.endpoint agent = given
               \/ (Agent.ends_with_slash given = false
                   /\ Agent.endpoint agent = given +:+ "/"))).
Proof.
  unfold Agent.init.
  set (prov := default "" (Agent.or_str provider _)).
  assert (Hprov : forall p, provider = Some p -> p <> "" -> prov = p).
  { intros p -> Hp. unfold prov. cbn. destruct (String.eqb_spec p ""); tauto. }
  assert (Hmodel : forall m y, model_id = Some m -> m <> "" ->
                               Agent.or_str model_id y = Some m).
  { intros m y -> Hm. cbn. destruct (String.eqb_spec m ""); tauto. }
  destruct (String.eqb_spec prov "ollama") as [Eo|No].
  - rewrite Eo. change (String.eqb "ollama" "ollama") with true.
    cbn [orb negb].
    intros [= <-].
    cbn [Agent.provider Agent.name Agent.model_id Agent.endpoint
         Agent.deployment_name].
    split; [left; reflexivity|]. split; [reflexivity|].
    split; [intros p Hp Hne; rewrite <- Eo; apply Hprov; auto|].
    split; [intros m Hm Hne; rewrite (Hmodel m _ Hm Hne); reflexivity|].
    intros Habs. discriminate Habs.
  - destruct (String.eqb_spec prov "azure") as [Ea|Na]; cbn [orb negb];
      [|discriminate].
    destruct (Agent.falsy (Agent.or_str endpoint _)) eqn:Fe; [discriminate|].
    destruct (Agent.falsy (Agent.or_str model_id _)) eqn:Fd; [discriminate|].
    apply or_str_falsy in Fe as (given & He & Hg).
    apply or_str_falsy in Fd as (dep & Hd & Hdn).
    unfold Agent.getenv in *. rewrite He, Hd. cbn [default].
    intros [= <-].
    cbn [Agent.provider Agent.name Agent.model_id Agent.endpoint
         Agent.deployment_name].
    split; [right; exact Ea|]. split; [reflexivity|].
    split; [exact Hprov|].
    split.
    { intros m Hm Hne. rewrite (Hmodel m _ Hm Hne) in Hd. congruence. }
    intros _. split.
    { destruct (Agent.ends_with_slash given) eqn:Es; [exact Es|].
      apply ends_with_slash_app. }
    split; [exact Hdn|]. split; [reflexivity|].
    exists given. split; [reflexivity|].
    destruct (Agent.ends_with_slash given); [left | right; split]; reflexivity.
Qed.

(** Extra X28: the constructor of [WMIAgent] raises [ValueError] for a
    provider other than "ollama" and "azure", and for "azure" when the
    endpoint, or else the deployment, is neither given nor in the
    environment. *)
Theorem agent_rejects_bad_settings (environ : gmap string string)
    (DEFAULT_INSTRUCTIONS : string)
    (model_id endpoint instructions : option string) (name : string) :
  (forall p, p <> "" -> p <> "ollama" -> p <> "azure" ->
     Agent.init environ DEFAULT_INSTRUCTIONS (Some p) model_id endpoint
                instructions name
     = Raise (Exn ValueError ("Unsupported provider: " +:+ p
                              +:+ ". Use 'ollama' or 'azure'.")))
  /\ (Agent.falsy (Agent.or_str endpoint (environ !! "AZURE_OPENAI_ENDPOINT"))
      = true ->
      Agent.init environ DEFAULT_INSTRUCTIONS (Some "azure") model_id endpoint
                 instructions name
      = Raise (Exn ValueError
          "For Azure provider, AZURE_OPENAI_ENDPOINT environment variable is required"))
  /\ (Agent.falsy (Agent.or_str endpoint (environ !! "AZURE_OPENAI_ENDPOINT"))
      = false ->
      Agent.falsy (Agent.or_str model_id (environ !! "AZURE_OPENAI_DEPLOYMENT"))
      = true ->
      Agent.init environ DEFAULT_INSTRUCTIONS (Some "azure") model_id endpoint
                 instructions name
      = Raise (Exn ValueError
          "For Azure provider, AZURE_OPENAI_DEPLOYMENT environment variable is required")).
Proof.
  repeat split.
  - intros p H0 Ho Ha. unfold Agent.init. cbn [Agent.or_str].
    destruct (String.eqb_spec p ""); [contradiction|].
    change (default "" (Some p)) with p.
    destruct (String.eqb_spec p "ollama"); [contradiction|].
    destruct (String.eqb_spec p "azure"); [contradiction|]. reflexivity.
  - intros H. unfold Agent.init, Agent.getenv. cbn. rewrite H. reflexivity.
  - intros H1 H2. unfold Agent.init, Agent.getenv. cbn. rewrite H1, H2.
    reflexivity.
Qed.

(* ===================================================================== *)
(** ** The further theorems at concrete inputs *)
(* ===================================================================== *)

Lemma failed_connection_witness :
  (get_connection flaky 0 (one_wrapper flaky)).1
  = Raise (Exn x_wmi "The RPC server is unavailable.")
  /\ (get_connection flaky 0 (get_connection flaky 0 (one_wrapper flaky)).2).1
     = Ok 0%nat.
Proof.
  destruct (failed_connection_is_not_kept flaky 0 (one_wrapper flaky)
              {| computer := "."; namespace := cimv2; _connection := None |}
              (Exn x_wmi "The RPC server is unavailable.")
              eq_refl eq_refl eq_refl) as (H1 & _ & _ & _ & H2).
  split; [exact H1|]. destruct (H2 eq_refl) as [H3 _]. exact H3.
Defined.

Lemma to_dict_lookup_witness :
  wmi_object_to_dict mixed_object None !! "Name" = Some (VStr "Spooler")
  /\ wmi_object_to_dict mixed_object (Some ["Broken"]) !! "Name" = None.
Proof.
  split.
  - rewrite (to_dict_lookup mixed_object None "Name"). vm_compute. reflexivity.
  - rewrite (to_dict_lookup mixed_object (Some ["Broken"]) "Name").
    vm_compute. reflexivity.
Defined.

Lemma list_classes_witness :
  exists names,
    (list_classes workstation read_class 0 (one_wrapper workstation)).1 = Ok names
    /\ In "CIM_Process" names /\ ~ In "" names.
Proof.
  destruct (list_classes_sorted_distinct workstation read_class 0
              (one_wrapper workstation)
              {| computer := "."; namespace := cimv2; _connection := None |}
              0%nat
              [class_record "Win32_Service"; class_record "";
               class_record "CIM_Process"; class_record "Win32_Service"]
              ["Win32_Service"; ""; "CIM_Process"; "Win32_Service"]
              (consistent_one_wrapper workstation) eq_refl eq_refl eq_refl)
    as (names & Hr & _ & Hin).
  - repeat constructor.
  - exists names. split; [exact Hr|]. split.
    + apply Hin. split; [|discriminate]. right. right. left. reflexivity.
    + intros H. apply Hin in H as [_ H]. apply H. reflexivity.
Defined.

Lemma list_classes_fallback_witness :
  exists names,
    (list_classes no_meta read_class 0 (one_wrapper no_meta)).1 = Ok names
    /\ length names = 23%nat.
Proof.
  eexists. split.
  - apply (list_classes_falls_back no_meta read_class 0 (one_wrapper no_meta)
             {| computer := "."; namespace := cimv2; _connection := None |}
             0%nat (consistent_one_wrapper no_meta) eq_refl eq_refl).
    left. eexists. reflexivity.
  - reflexivity.
Defined.

Lemma class_properties_witness :
  exists props,
    (get_class_properties two_services 0 "Win32_Service"
       (one_wrapper two_services)).1 = Ok props
    /\ In "State" props.
Proof.
  destruct (class_properties_are_public_names two_services 0 "Win32_Service"
              (one_wrapper two_services) [spooler; fax] eq_refl)
    as (props & Hr & _ & Hfirst).
  destruct (Hfirst spooler [fax] eq_refl) as [Hiff _].
  exists props. split; [exact Hr|].
  apply Hiff. split; [|reflexivity].
  right. right. left. reflexivity.
Defined.

Lemma require_admin_witness :
  require_admin flaky (ret 1) initial_state
  = (Raise (Exn PermissionError
       "This operation requires administrator privileges. Please run as administrator."),
     initial_state).
Proof.
  destruct (require_admin_fails_closed flaky (ret 1) initial_state) as [H _].
  apply H. right. eexists. reflexivity.
Defined.

Lemma format_bytes_below_1024_witness :
  format_bytes (-5000) = Ok "-5000.00 B".
Proof.
  rewrite (format_bytes_below_1024 (-5000)); [reflexivity|].
  split; [reflexivity | reflexivity].
Defined.

Lemma format_bytes_overflow_witness :
  format_bytes (2 ^ 1024)
  = Raise (Exn OverflowError "int too large to convert to float").
Proof.
  apply (format_bytes_overflow (2 ^ 1024)).
  vm_compute. intros H. discriminate H.
Defined.

Lemma missing_service_witness :
  (ServiceManager.get_service_status two_services 0 "Themes"
     (one_wrapper two_services)).1
  = Raise (Exn ValueError "Service 'Themes' not found").
Proof.
  destruct (missing_service_raises two_services 0 "Themes"
              (one_wrapper two_services) eq_refl) as (_ & _ & H & _).
  exact H.
Defined.


Lemma workstation_processes_read (p : wmi_object) :
  In p [proc_system; proc_chrome; proc_idle; proc_code] ->
  obj_getattr p "WorkingSetSize" = Ok (working_set_of p)
  /\ (truthy (working_set_of p) = true ->
      int (working_set_of p) = Ok (size_of p)).
Proof.
  intros [<-|[<-|[<-|[<-|[]]]]]; split; try reflexivity; discriminate.
Qed.

Lemma high_memory_processes_witness :
  (ProcessManager.get_high_memory_processes workstation 0 100
     (one_wrapper workstation)).1
  = Ok [proc_chrome].
Proof.
  rewrite (high_memory_processes_filter workstation 0 100
             (one_wrapper workstation)
             [proc_system; proc_chrome; proc_idle; proc_code]
             working_set_of size_of eq_refl workstation_processes_read).
  reflexivity.
Defined.

Lemma memory_info_witness :
  exists info p,
    (SystemMonitor.get_memory_info workstation 0 (one_wrapper workstation)).1
    = Ok info
    /\ SystemMonitor.used_bytes info = 12884901888
    /\ SystemMonitor.used_percentage info = Fin p
    /\ (0 <= p <= 100)%Q.
Proof.
  destruct (memory_info_accounts workstation 0 (one_wrapper workstation)
              (mk_object [("Name", VStr "PC-01"); ("Manufacturer", VStr "Contoso");
                          ("Model", VStr "X1");
                          ("TotalPhysicalMemory", VStr "17179869184")])
              (mk_object [("Caption", VStr "Microsoft Windows 11 Pro");
                          ("Version", VStr "10.0.22631");
                          ("OSArchitecture", VStr "64-bit");
                          ("FreePhysicalMemory", VStr "4194304");
                          ("LastBootUpTime", VStr "20231106120000.000000+000")])
              (VStr "17179869184") (VStr "4194304") 17179869184 4194304
              eq_refl eq_refl eq_refl eq_refl eq_refl eq_refl)
    as (info & p & Hr & Ht & Hf & Hsum & Hp & Hb).
  - split; vm_compute; intros H; discriminate H.
  - reflexivity.
  - exists info, p. split; [exact Hr|]. split; [|split; [exact Hp | exact Hb]].
    rewrite Ht, Hf in Hsum. lia.
Defined.

Lemma disk_usage_witness :
  exists entries,
    (SystemMonitor.get_disk_usage workstation 0 (one_wrapper workstation)).1
    = Ok entries
    /\ (length entries <= 2)%nat
    /\ forall entry, In entry entries -> SystemMonitor.size_bytes entry <> 0.
Proof.
  destruct (SystemMonitor.get_disk_usage workstation 0 (one_wrapper workstation)).1
    as [entries|e] eqn:E; [|vm_compute in E; discriminate E].
  exists entries. split; [reflexivity|].
  destruct (disk_usage_entries workstation 0 (one_wrapper workstation) _ entries
              eq_refl E) as (Hl & Hin & _).
  split; [exact Hl|]. intros entry He. apply (Hin entry He).
Defined.

Lemma uptime_fields_witness :
  exists info,
    (SystemMonitor.get_uptime workstation 0 (one_wrapper workstation)).1 = Ok info
    /\ 0 <= SystemMonitor.uptime_hours info <= 23
    /\ 0 <= SystemMonitor.uptime_minutes info <= 59.
Proof.
  destruct (SystemMonitor.get_uptime workstation 0 (one_wrapper workstation)).1
    as [info|e] eqn:E; [|vm_compute in E; discriminate E].
  exists info. split; [reflexivity|].
  destruct (uptime_fields_in_range workstation 0 (one_wrapper workstation) info E)
    as (Hh & Hm & _).
  split; [exact Hh | exact Hm].
Defined.

Lemma uptime_without_boot_time_witness :
  (SystemMonitor.get_uptime two_services 0 (one_wrapper two_services)).1
  = Raise (Exn AttributeError
             "'NoneType' object has no attribute 'LastBootUpTime'").
Proof.
  destruct (uptime_without_boot_time two_services 0 (one_wrapper two_services))
    as (H & _).
  apply H. reflexivity.
Defined.


Lemma nothing_found_witness :
  (HardwareInfo.get_motherboard_info two_services 0 (one_wrapper two_services)).1
  = Ok ∅
  /\ (HardwareInfo.get_battery_status two_services 0 (one_wrapper two_services)).1
     = Ok None.
Proof.
  destruct (nothing_found_defaults two_services 0 (one_wrapper two_services))
    as (H1 & H2 & _).
  split; [apply H1 | apply H2]; reflexivity.
Defined.

Lemma tools_report_empty_results_witness :
  (Tools.get_cpu_info no_memory initial_state).1
  = Ok "No CPU information available"
  /\ (Tools.get_service_status no_memory "Themes" initial_state).1
     = Ok "Service 'Themes' not found".
Proof.
  destruct (tools_report_empty_results no_memory eq_refl)
    as (H1 & _ & H3 & _).
  split; [apply H1 | apply H3]; reflexivity.
Defined.

Lemma list_processes_witness :
  exists ranked,
    Permutation ranked [proc_system; proc_chrome; proc_code]
    /\ (Tools.list_processes workstation initial_state).1
       = Ok match process_lines (firstn 15 ranked) with
            | Ok text => text
            | Raise e => "Error listing processes: " +:+ str_exn e
            end.
Proof.
  destruct (list_processes_ranks_by_memory workstation
              [proc_system; proc_chrome; proc_idle; proc_code]
              working_set_of size_of eq_refl eq_refl workstation_processes_read)
    as (_ & H).
  destruct H as (ranked & Hp & _ & Hr).
  - intros Habs. vm_compute in Habs. discriminate Habs.
  - exists ranked. split; [exact Hp | exact Hr].
Defined.

Lemma system_info_witness :
  exists text head,
    (Tools.get_system_info workstation initial_state).1 = Ok text
    /\ text = head +:+ "  BIOS: N/A" +:+ nl +:+ "  Serial Number: N/A" +:+ nl.
Proof.
  destruct (Tools.get_system_info_body workstation initial_state).1
    as [text|e] eqn:E; [|vm_compute in E; discriminate E].
  destruct (system_info_without_a_record workstation _ _ []
              eq_refl eq_refl eq_refl eq_refl) as (_ & H).
  destruct (H eq_refl text E) as (Hr & head & Hh).
  exists text, head. split; [exact Hr | exact Hh].
Defined.

Lemma query_tables_witness :
  exists title columns rows,
    console (Cli.query_command two_services "SELECT * FROM Win32_Service"
               cimv2 "table" "." initial_state).2
    = [OutTable title columns rows]
    /\ (length columns <= 10)%nat.
Proof.
  eexists _, _, _. split; [vm_compute; reflexivity|].
  destruct (query_tables_are_rectangular two_services
              "SELECT * FROM Win32_Service" cimv2 "table" "." initial_state
              "Query Results"
              ["Name"; "DisplayName"; "State"; "StartMode"; "Status"]
              [[VStr "Spooler"; VStr "Print Spooler"; VStr "Running";
                VStr "Auto"; VStr "OK"];
               [VStr "Fax"; VStr "Fax"; VStr "Stopped"; VStr "Manual";
                VStr "OK"]]) as [Habs|[Hl _]].
  - vm_compute. left. reflexivity.
  - destruct Habs.
  - exact Hl.
Defined.



Lemma agent_settings_witness :
  exists agent,
    Agent.init ∅ "You are a helpful assistant." (Some "azure") (Some "gpt-4o")
               (Some "https://example.openai.azure.com") None "WMI Agent"
    = Ok agent
    /\ Agent.ends_with_slash (Agent.endpoint agent) = true
    /\ Agent.model_id agent = "gpt-4o".
Proof.
  eexists. split; [reflexivity|].
  destruct (agent_settings_are_complete ∅ "You are a helpful assistant."
              (Some "azure") (Some "gpt-4o")
              (Some "https://example.openai.azure.com") None "WMI Agent"
              _ eq_refl) as (_ & _ & _ & Hm & Ha).
  destruct (Ha eq_refl) as (Hs & _).
  split; [exact Hs|]. apply Hm; [reflexivity | discriminate].
Defined.

Lemma agent_rejects_witness :
  Agent.init ∅ "You are a helpful assistant." (Some "openai") None None None
             "WMI Agent"
  = Raise (Exn ValueError "Unsupported provider: openai. Use 'ollama' or 'azure'.").
Proof.
  destruct (agent_rejects_bad_settings ∅ "You are a helpful assistant."
              None None None "WMI Agent") as (H & _).
  apply (H "openai"); discriminate.
Defined.
